(** * The natural-language-to-visualization pipeline of text-to-chart

    A shallow embedding of [src/back/modules/dataAnal/getStatistic.ts]:
    the shape validator [validateResponse], the retry loop of
    [generateAnalysis], the query synthesizer [generateSqlQuery], the
    query executor [makeQuery] and the orchestrator
    [analyzeStatisticalQuestion], followed by the properties the
    specification states about them.  Around it: the chat router that
    calls the orchestrator, the strict validator of the sibling analysis
    module, and the customers module, each with its own properties.

    Conventions of the embedding.
    - JavaScript values are the inductive [value]; objects are finite maps
      from property names to values, numbers are IEEE 754 binary64 floats.
    - A JavaScript string is a Rocq [string], read as the UTF-8 bytes of the
      text.  [trim] strips the white space of ECMAScript: the six ASCII
      characters, the no-break space, the byte order mark, the line and
      paragraph separators and the space separators of Unicode.  The case
      mappings are exact on ASCII and on every character whose other-case
      form holds an ASCII letter (U+00DF, U+0131, U+0149, U+017F, U+01F0,
      U+1E96 to U+1E9A and U+FB00 to U+FB06 for [toUpperCase]; U+0130 and
      U+212A for [toLowerCase]).  Any other character outside ASCII stands
      for its other-case form, which holds no ASCII character: the result
      of a case mapping is the engine's up to the case of such characters,
      so every comparison of it with an ASCII text, and every search of an
      ASCII text in it, comes out as in the engine.
    - A statement that can raise an exception returns a [completion].
    - The language model and the database are collaborators: a program that
      talks to them is a tree of calls ([prog]) that [run] executes against
      an arbitrary, history-dependent behaviour of the two.  Every call is
      answered, by a value or by a rejection.
    - The builtins of the JavaScript engine whose results depend on the
      number grammar or on the JSON grammar are the fields of the class
      [Engine]; every theorem of the section on the claims holds for every
      engine. *)

From Equations Require Import Equations.
From Stdlib Require Import Floats.PrimFloat Ascii String DecimalString Sorted Lia.
From stdpp Require Import gmap strings list fin_maps.

Local Open Scope string_scope.

(** ** Strings *)

Module JsString.

(** White space removed by [String.prototype.trim] (WhiteSpace and
    LineTerminator of ECMAScript), by the UTF-8 bytes of the character.
    One byte: TAB, LF, VT, FF, CR and SPACE. *)
Definition isWhiteSpace (c : ascii) : bool :=
  let n := nat_of_ascii c in
  ((n =? 9) || (n =? 10) || (n =? 11) || (n =? 12) || (n =? 13) || (n =? 32))%nat.

(** Two bytes: U+00A0, the no-break space. *)
Definition isWhiteSpace2 (c d : ascii) : bool :=
  ((nat_of_ascii c =? 194) && (nat_of_ascii d =? 160))%nat.

(** Three bytes: U+1680, U+2000 to U+200A, U+2028, U+2029, U+202F, U+205F,
    U+3000 and U+FEFF. *)
Definition isWhiteSpace3 (c d e : ascii) : bool :=
  let c := nat_of_ascii c in
  let d := nat_of_ascii d in
  let e := nat_of_ascii e in
  (((c =? 225) && (d =? 154) && (e =? 128))
   || ((c =? 226) && (d =? 128) &&
       (((128 <=? e) && (e <=? 138)) || (e =? 168) || (e =? 169) || (e =? 175)))
   || ((c =? 226) && (d =? 129) && (e =? 159))
   || ((c =? 227) && (d =? 128) && (e =? 128))
   || ((c =? 239) && (d =? 187) && (e =? 191)))%nat.

Fixpoint trimStart (s : string) : string :=
  match s with
  | EmptyString => EmptyString
  | String c rest1 =>
      if isWhiteSpace c then trimStart rest1
      else
        match rest1 with
        | EmptyString => s
        | String d rest2 =>
            if isWhiteSpace2 c d then trimStart rest2
            else
              match rest2 with
              | EmptyString => s
              | String e rest3 =>
                  if isWhiteSpace3 c d e then trimStart rest3 else s
              end
        end
  end.

(** Every character of [s] is white space. *)
Fixpoint onlyWhiteSpace (s : string) : bool :=
  match s with
  | EmptyString => true
  | String c rest1 =>
      if isWhiteSpace c then onlyWhiteSpace rest1
      else
        match rest1 with
        | EmptyString => false
        | String d rest2 =>
            if isWhiteSpace2 c d then onlyWhiteSpace rest2
            else
              match rest2 with
              | EmptyString => false
              | String e rest3 =>
                  if isWhiteSpace3 c d e then onlyWhiteSpace rest3 else false
              end
        end
  end.

(** What is left before the longest end of [s] that is white space. *)
Fixpoint trimEnd (s : string) : string :=
  match s with
  | EmptyString => EmptyString
  | String c rest =>
      if onlyWhiteSpace s then EmptyString else String c (trimEnd rest)
  end.

Definition trim (s : string) : string := trimEnd (trimStart s).

Definition lowerChar (c : ascii) : ascii :=
  let n := nat_of_ascii c in
  if ((65 <=? n) && (n <=? 90))%nat then ascii_of_nat (n + 32) else c.

Definition upperChar (c : ascii) : ascii :=
  let n := nat_of_ascii c in
  if ((97 <=? n) && (n <=? 122))%nat then ascii_of_nat (n - 32) else c.

(** The two bytes [c], [d] as a string. *)
Definition bytes2 (c d : nat) : string :=
  String (ascii_of_nat c) (String (ascii_of_nat d) EmptyString).

(** The lower-case form of the characters outside ASCII that have an ASCII
    letter in it: U+0130, the capital I with a dot above (an i and the
    combining dot U+0307), and U+212A, the Kelvin sign. *)
Definition lowerSpecial2 (c d : ascii) : option string :=
  if ((nat_of_ascii c =? 196) && (nat_of_ascii d =? 176))%nat
  then Some ("i" ++ bytes2 204 135) else None.

Definition lowerSpecial3 (c d e : ascii) : option string :=
  if ((nat_of_ascii c =? 226) && (nat_of_ascii d =? 132) && (nat_of_ascii e =? 170))%nat
  then Some "k" else None.

Fixpoint toLowerCase (s : string) : string :=
  match s with
  | EmptyString => EmptyString
  | String c rest1 =>
      match rest1 with
      | EmptyString => String (lowerChar c) EmptyString
      | String d rest2 =>
          match lowerSpecial2 c d with
          | Some lower => lower ++ toLowerCase rest2
          | None =>
              match rest2 with
              | EmptyString => String (lowerChar c) (toLowerCase rest1)
              | String e rest3 =>
                  match lowerSpecial3 c d e with
                  | Some lower => lower ++ toLowerCase rest3
                  | None => String (lowerChar c) (toLowerCase rest1)
                  end
              end
          end
      end
  end.

(** The upper-case form of the two-byte characters that have an ASCII
    letter in it: U+00DF, U+0131, U+0149, U+017F and U+01F0. *)
Definition upperSpecial2 (c d : ascii) : option string :=
  let c := nat_of_ascii c in
  let d := nat_of_ascii d in
  if ((c =? 195) && (d =? 159))%nat then Some "SS"
  else if ((c =? 196) && (d =? 177))%nat then Some "I"
  else if ((c =? 197) && (d =? 137))%nat then Some (bytes2 202 188 ++ "N")
  else if ((c =? 197) && (d =? 191))%nat then Some "S"
  else if ((c =? 199) && (d =? 176))%nat then Some ("J" ++ bytes2 204 140)
  else None.

(** The same for three bytes: U+1E96 to U+1E9A and the ligatures U+FB00
    to U+FB06. *)
Definition upperSpecial3 (c d e : ascii) : option string :=
  let c := nat_of_ascii c in
  let d := nat_of_ascii d in
  let e := nat_of_ascii e in
  if ((c =? 225) && (d =? 186))%nat then
    if (e =? 150)%nat then Some ("H" ++ bytes2 204 177)
    else if (e =? 151)%nat then Some ("T" ++ bytes2 204 136)
    else if (e =? 152)%nat then Some ("W" ++ bytes2 204 138)
    else if (e =? 153)%nat then Some ("Y" ++ bytes2 204 138)
    else if (e =? 154)%nat then Some ("A" ++ bytes2 202 190)
    else None
  else if ((c =? 239) && (d =? 172))%nat then
    if (e =? 128)%nat then Some "FF"
    else if (e =? 129)%nat then Some "FI"
    else if (e =? 130)%nat then Some "FL"
    else if (e =? 131)%nat then Some "FFI"
    else if (e =? 132)%nat then Some "FFL"
    else if (e =? 133)%nat then Some "ST"
    else if (e =? 134)%nat then Some "ST"
    else None
  else None.

Fixpoint toUpperCase (s : string) : string :=
  match s with
  | EmptyString => EmptyString
  | String c rest1 =>
      match rest1 with
      | EmptyString => String (upperChar c) EmptyString
      | String d rest2 =>
          match upperSpecial2 c d with
          | Some upper => upper ++ toUpperCase rest2
          | None =>
              match rest2 with
              | EmptyString => String (upperChar c) (toUpperCase rest1)
              | String e rest3 =>
                  match upperSpecial3 c d e with
                  | Some upper => upper ++ toUpperCase rest3
                  | None => String (upperChar c) (toUpperCase rest1)
                  end
              end
          end
      end
  end.

(** [s.includes(needle)] *)
Fixpoint includes (s needle : string) : bool :=
  String.prefix needle s ||
  match s with
  | EmptyString => false
  | String _ rest => includes rest needle
  end.

(** What the proofs about [trim] and [toUpperCase] go by. *)

(** What follows the white space character at the start of [s]. *)
Definition afterWhiteSpace (s : string) : option string :=
  match s with
  | EmptyString => None
  | String c rest1 =>
      if isWhiteSpace c then Some rest1
      else
        match rest1 with
        | EmptyString => None
        | String d rest2 =>
            if isWhiteSpace2 c d then Some rest2
            else
              match rest2 with
              | EmptyString => None
              | String e rest3 => if isWhiteSpace3 c d e then Some rest3 else None
              end
        end
  end.

(** The upper-case form of the character at the start of [s], and what
    follows the character. *)
Definition upperStep (s : string) : option (string * string) :=
  match s with
  | EmptyString => None
  | String c rest1 =>
      match rest1 with
      | EmptyString => Some (String (upperChar c) EmptyString, rest1)
      | String d rest2 =>
          match upperSpecial2 c d with
          | Some upper => Some (upper, rest2)
          | None =>
              match rest2 with
              | EmptyString => Some (String (upperChar c) EmptyString, rest1)
              | String e rest3 =>
                  match upperSpecial3 c d e with
                  | Some upper => Some (upper, rest3)
                  | None => Some (String (upperChar c) EmptyString, rest1)
                  end
              end
          end
      end
  end.

(** Some byte of [s] satisfies [p]. *)
Fixpoint anyByte (p : ascii -> bool) (s : string) : bool :=
  match s with
  | EmptyString => false
  | String c rest => p c || anyByte p rest
  end.

(** The letter E, small or capital. *)
Definition isLetterE (c : ascii) : bool :=
  ((nat_of_ascii c =? 69) || (nat_of_ascii c =? 101))%nat.

(** Decimal rendering of an array index, as a template literal prints it. *)
Definition ofIndex (idx : nat) : string :=
  NilZero.string_of_uint (Nat.to_uint idx).

End JsString.

Import JsString.

(** ** Values, errors and completions *)

#[warnings="-register-all"]
Inductive value : Type :=
| VUndefined
| VNull
| VBool (b : bool)
| VNum (n : float)
| VStr (s : string)
| VArr (elems : list value)
| VObj (props : gmap string value).

(** An [Error] object: its [name] and its [message]. *)
Record error : Type := Error { name : string; message : string }.

(** The outcome of a statement, and of an awaited promise: a value, or a
    thrown error (a rejection). *)
Inductive completion (A : Type) : Type :=
| Normal (a : A)
| Throw (e : error).
Arguments Normal {A} a.
Arguments Throw {A} e.

#[export] Instance completion_ret : MRet completion := @Normal.
#[export] Instance completion_bind : MBind completion :=
  fun A B f c => match c with Normal a => f a | Throw e => Throw e end.
#[export] Instance completion_fmap : FMap completion :=
  fun A B f c => match c with Normal a => Normal (f a) | Throw e => Throw e end.

(** [try { body } catch (error) { handler }] *)
Definition tryCatch {A} (body : completion A) (handler : error -> completion A)
  : completion A :=
  match body with
  | Normal a => Normal a
  | Throw e => handler e
  end.

Fixpoint mapM {A B} (f : A -> completion B) (l : list A) : completion (list B) :=
  match l with
  | [] => Normal []
  | a :: rest => b ← f a; bs ← mapM f rest; Normal (b :: bs)
  end.

(** The run-time faults the code can meet, with what the engine words
    their messages from: the value a property is read from or written to,
    and for a call the callee as the source writes it. *)
Inductive fault : Type :=
| CannotReadProperty (receiver : value) (key : string)
    (* property read on undefined or null *)
| CannotCreateProperty (receiver : value) (key : string)
    (* property write on a primitive, strict mode *)
| NotAFunction (callee : string).
    (* call of a callee that is undefined *)

(** ** The engine's builtins *)

Class Engine : Type := {
  (** [JSON.parse]; [None] is a [SyntaxError]. *)
  JSON_parse : string -> option value;
  (** [JSON.stringify] of the result rows. *)
  JSON_stringify : list value -> string;
  (** [Number(s)] for a string [s]. *)
  StringToNumber : string -> float;
  (** [String(n)] for a number [n]. *)
  NumberToString : float -> string;
  (** [Number(v)] for an array or an object: the conversion to a primitive
      may throw. *)
  ObjectToNumber : value -> completion float;
  (** [String(v)] for an array or an object. *)
  ObjectToString : value -> completion string;
  (** The message of the [TypeError] raised for a fault. *)
  faultMessage : fault -> string;
}.

Section Builtins.

Context `{Engine}.

Definition typeError {A} (f : fault) : completion A :=
  Throw (Error "TypeError" (faultMessage f)).

(** [!!v] *)
Definition truthy (v : value) : bool :=
  match v with
  | VUndefined | VNull => false
  | VBool b => b
  | VNum n => negb (PrimFloat.eqb n 0 || PrimFloat.is_nan n)
  | VStr s => negb (String.eqb s "")
  | VArr _ | VObj _ => true
  end.

(** [typeof v === "string"] *)
Definition isString (v : value) : bool :=
  match v with VStr _ => true | _ => false end.

(** [v === text] *)
Definition isText (v : value) (text : string) : bool :=
  match v with VStr s => String.eqb s text | _ => false end.

(** [Array.isArray(v)] *)
Definition isArray (v : value) : bool :=
  match v with VArr _ => true | _ => false end.

(** [v.key], for the property names the pipeline reads.  None of them is
    a property of a primitive's wrapper or of [Object.prototype]; on an
    array the only inherited one is [values], which the validator never
    reads from an array (the read of [labels] or [categories] before it
    yields [undefined] and ends the check). *)
Definition getProp (v : value) (key : string) : completion value :=
  match v with
  | VUndefined | VNull => typeError (CannotReadProperty v key)
  | VObj props => Normal (default VUndefined (props !! key))
  | VBool _ | VNum _ | VStr _ | VArr _ => Normal VUndefined
  end.

(** [v.key = x] in strict mode (the file is an ES module), returning the
    object after the write.  A named property written on an array is not
    kept in the model: the only such write is the default interpretation,
    after which an array is refused for having no [statistics]. *)
Definition setProp (v : value) (key : string) (x : value) : completion value :=
  match v with
  | VObj props => Normal (VObj (<[key := x]> props))
  | VArr elems => Normal (VArr elems)
  | VUndefined | VNull | VBool _ | VNum _ | VStr _ =>
      typeError (CannotCreateProperty v key)
  end.

(** [arr[idx]] *)
Definition getIndex (elems : list value) (idx : nat) : value :=
  default VUndefined (elems !! idx).

(** [Number(v)] *)
Definition Number (v : value) : completion float :=
  match v with
  | VUndefined => Normal PrimFloat.nan
  | VNull => Normal 0%float
  | VBool b => Normal (if b then 1%float else 0%float)
  | VNum n => Normal n
  | VStr s => Normal (StringToNumber s)
  | VArr _ | VObj _ => ObjectToNumber v
  end.

(** [`${v}`] *)
Definition ToString (v : value) : completion string :=
  match v with
  | VUndefined => Normal "undefined"
  | VNull => Normal "null"
  | VBool b => Normal (if b then "true" else "false")
  | VNum n => Normal (NumberToString n)
  | VStr s => Normal s
  | VArr _ | VObj _ => ObjectToString v
  end.

(** [v.toLowerCase().includes(needle)], where the source writes [callee]
    for [v.toLowerCase]. *)
Definition lowerCaseIncludes (callee : string) (v : value) (needle : string)
  : completion bool :=
  match v with
  | VStr s => Normal (includes (toLowerCase s) needle)
  | VUndefined | VNull => typeError (CannotReadProperty v "toLowerCase")
  | VBool _ | VNum _ | VArr _ | VObj _ => typeError (NotAFunction callee)
  end.

End Builtins.

(** ** Responses *)

(** The object literal
    [{interpretation, statistics: {type, data}}]. *)
Definition statisticsResponse (interpretation : string) (type : string)
    (data : gmap string value) : value :=
  VObj {[ "interpretation" := VStr interpretation;
          "statistics" := VObj {[ "type" := VStr type; "data" := VObj data ]} ]}.

Definition pieData (labels : list string) (values : list float)
  : gmap string value :=
  {[ "labels" := VArr (VStr <$> labels); "values" := VArr (VNum <$> values) ]}.

Definition waterfallData (categories : list string) (values : list float)
  : gmap string value :=
  {[ "categories" := VArr (VStr <$> categories);
     "values" := VArr (VNum <$> values) ]}.

(** [createErrorResponse(message)] *)
Definition createErrorResponse (message : string) : value :=
  statisticsResponse message "pie_chart" (pieData ["Error"] [100%float]).

(** [createPieChartErrorResponse(message)] *)
Definition createPieChartErrorResponse (message : string) : value :=
  statisticsResponse message "pie_chart" (pieData ["Error"] [100%float]).

(** [createWaterfallChartErrorResponse(message)] *)
Definition createWaterfallChartErrorResponse (message : string) : value :=
  statisticsResponse message "waterfall_chart"
    (waterfallData ["Start"; "Error"; "End"] [0%float; 0%float; 0%float]).

(** ** The shape validator *)

Definition defaultColors : list string :=
  [ "#4299E1"; "#48BB78"; "#F56565"; "#ED8936";
    "#9F7AEA"; "#38B2AC"; "#F687B3"; "#ECC94B" ].

Section Validator.

Context `{Engine}.

(** [values.map((val, idx) => (!isNaN(Number(val)) ? idx : null))],
    for the elements from position [idx] on. *)
Fixpoint markNumeric (idx : nat) (values : list value)
  : completion (list (option nat)) :=
  match values with
  | [] => Normal []
  | val :: rest =>
      n ← Number val;
      marks ← markNumeric (S idx) rest;
      Normal ((if PrimFloat.is_nan n then None else Some idx) :: marks)
  end.

(** [... .filter((idx) => idx !== null)] *)
Definition validIndicesOf (values : list value) : completion (list nat) :=
  marks ← markNumeric 0 values;
  Normal (omap id (marks : list (option nat))).

(** [validIndices.map((idx) => Number(data.values[idx]))] *)
Definition numbersAt (values : list value) (validIndices : list nat)
  : completion (list float) :=
  mapM (fun idx => Number (getIndex values idx)) validIndices.

(** [if (!data.key) data.key = text] *)
Definition defaultText (data : value) (key text : string) : completion value :=
  current ← getProp data key;
  if negb (truthy current) then setProp data key (VStr text) else Normal data.

(** The pie branch of [validateResponse] (lines 75-119): the validated
    [data] object, or the error response the branch returns. *)
Definition validatePie (data : value) : completion (value + value) :=
  labels ← getProp data "labels";
  if negb (truthy labels) then
    Normal (inr (createPieChartErrorResponse
      "Invalid pie chart data: labels and values must be arrays"))
  else
  values ← getProp data "values";
  match labels, values with
  | VArr labelElems, VArr valueElems =>
      validIndices ← validIndicesOf valueElems;
      if (length validIndices =? 0)%nat then
        Normal (inr (createPieChartErrorResponse
          "Invalid pie chart data: no valid numeric values"))
      else
        let newLabels := (fun idx => getIndex labelElems idx) <$> validIndices in
        data ← setProp data "labels" (VArr newLabels);
        newValues ← numbersAt valueElems validIndices;
        data ← setProp data "values" (VArr (VNum <$> newValues));
        colors ← getProp data "colors";
        if negb (truthy colors) then
          data ← setProp data "colors"
            (VArr (imap (fun i _ =>
               VStr (default "" (defaultColors !! (i mod length defaultColors))))
               newLabels));
          Normal (inl data)
        else Normal (inl data)
  | _, _ =>
      Normal (inr (createPieChartErrorResponse
        "Invalid pie chart data: labels and values must be arrays"))
  end.

(** Lines 153-170: the start and end labels of a waterfall. *)
Definition relabelEnds (categories : list value) (values : list float)
  : completion (list value) :=
  if (2 <=? length categories)%nat then
    zeroStart ←
      (if PrimFloat.eqb (default PrimFloat.nan (values !! 0)) 0
       then negb <$> lowerCaseIncludes "data.categories[0].toLowerCase"
                       (getIndex categories 0) "start"
       else Normal false);
    let categories :=
      if zeroStart : bool then <[0 := VStr "Start"]> categories else categories in
    let lastIdx := length categories - 1 in
    noEnd ← negb <$> lowerCaseIncludes "data.categories[lastIdx].toLowerCase"
                       (getIndex categories lastIdx) "end";
    noTotal ←
      (if noEnd : bool
       then negb <$> lowerCaseIncludes "data.categories[lastIdx].toLowerCase"
                       (getIndex categories lastIdx) "total"
       else Normal false);
    Normal (if noEnd && noTotal
            then <[lastIdx := VStr "End"]> categories else categories)
  else Normal categories.

(** The waterfall branch of [validateResponse] (lines 121-175). *)
Definition validateWaterfall (data : value) : completion (value + value) :=
  categories ← getProp data "categories";
  if negb (truthy categories) then
    Normal (inr (createWaterfallChartErrorResponse
      "Invalid waterfall chart data: categories and values must be arrays"))
  else
  values ← getProp data "values";
  match categories, values with
  | VArr categoryElems, VArr valueElems =>
      validIndices ← validIndicesOf valueElems;
      if (length validIndices <? 2)%nat then
        Normal (inr (createWaterfallChartErrorResponse
          "Invalid waterfall chart data: need at least 2 valid numeric values"))
      else
        let newCategories :=
          (fun idx =>
             let category := getIndex categoryElems idx in
             if truthy category then category
             else VStr ("Item " ++ ofIndex idx)) <$> validIndices in
        data ← setProp data "categories" (VArr newCategories);
        newValues ← numbersAt valueElems validIndices;
        data ← setProp data "values" (VArr (VNum <$> newValues));
        relabelled ← relabelEnds newCategories newValues;
        data ← setProp data "categories" (VArr relabelled);
        data ← defaultText data "increaseLabelText" "Increase";
        data ← defaultText data "decreaseLabelText" "Decrease";
        data ← defaultText data "totalLabelText" "Total";
        Normal (inl data)
  | _, _ =>
      Normal (inr (createWaterfallChartErrorResponse
        "Invalid waterfall chart data: categories and values must be arrays"))
  end.

(** [validateResponse(response)].  The branches update
    [response.statistics.data] in place; the model writes the updated
    [data] back into [statistics] and [statistics] back into [response].
    What the [try] block can throw is a [TypeError], so the handler reads
    its [message]. *)
Definition validateResponse (response : value) : completion value :=
  interpretation ← getProp response "interpretation";
  response ←
    (if negb (truthy interpretation) || negb (isString interpretation)
     then setProp response "interpretation"
            (VStr "Analysis generated but no interpretation provided.")
     else Normal response);
  statistics ← getProp response "statistics";
  if negb (truthy statistics) then
    Normal (createErrorResponse
      "Invalid response structure: missing statistics or chart type")
  else
  type ← getProp statistics "type";
  if negb (truthy type) then
    Normal (createErrorResponse
      "Invalid response structure: missing statistics or chart type")
  else
  if negb (isText type "pie_chart") && negb (isText type "waterfall_chart") then
    shown ← ToString type;
    Normal (createErrorResponse ("Invalid chart type: " ++ shown))
  else
  data ← getProp statistics "data";
  if negb (truthy data) then
    Normal (createErrorResponse
      "Invalid response structure: missing chart data")
  else
    tryCatch
      (checked ←
         (if isText type "pie_chart" then validatePie data
          else if isText type "waterfall_chart" then validateWaterfall data
          else Normal (inl data));
       match checked with
       | inl data =>
           statistics ← setProp statistics "data" data;
           setProp response "statistics" statistics
       | inr errorResponse => Normal errorResponse
       end)
      (fun e => Normal (createErrorResponse
                          ("Validation error: " ++ message e))).

End Validator.

(** ** The collaborators: language model and database *)

(** The two strict output schemas a shape request can carry. *)
Inductive schema : Type := simplePieChartSchema | simpleWaterfallChartSchema.

(** The user message of a request.  A constructor stands for one template
    of the source and keeps the texts spliced into it; the constant
    wording (system prompt, schema contract, instructions, examples) is
    left out. *)
Inductive prompt : Type :=
| SqlPrompt (question : string)                                (* line 315 *)
| ChartTypePrompt (originalQuestion serializedData : string)   (* lines 380-387 *)
| StandardPrompt (chartType originalQuestion serializedData : string)
                                                               (* lines 412-448 *)
| StructuredPrompt (chartType originalQuestion serializedData : string)
                                                               (* lines 451-490 *)
| MinimalWaterfallPrompt (originalQuestion serializedData : string)
                                                               (* lines 495-519 *)
| MinimalPiePrompt (originalQuestion serializedData : string). (* lines 522-545 *)

(** The argument of [openai.responses.create]. *)
Record request : Type := Request { input : prompt; format : option schema }.

(** A call that leaves the pipeline. *)
Inductive call : Type :=
| ResponsesCreate (r : request)
| PoolQuery (query : string) (params : list value).

(** An asynchronous computation: it settles, or it awaits a collaborator
    and goes on with what the collaborator answered.  The model's answer is
    the [output_text] of its response, the database's the [rows] of its
    result; either promise may reject. *)
Inductive prog (A : Type) : Type :=
| Settled (c : completion A)
| AwaitCreate (r : request) (k : completion string -> prog A)
| AwaitQuery (query : string) (params : list value)
    (k : completion (list value) -> prog A).
Arguments Settled {A} c.
Arguments AwaitCreate {A} r k.
Arguments AwaitQuery {A} query params k.

Fixpoint prog_then {A B} (f : A -> prog B) (p : prog A) : prog B :=
  match p with
  | Settled (Normal a) => f a
  | Settled (Throw e) => Settled (Throw e)
  | AwaitCreate r k => AwaitCreate r (fun answer => prog_then f (k answer))
  | AwaitQuery q ps k => AwaitQuery q ps (fun answer => prog_then f (k answer))
  end.

#[export] Instance prog_ret : MRet prog := fun A a => Settled (Normal a).
#[export] Instance prog_bind : MBind prog := @prog_then.

(** [try { await p } catch (error) { ... }], and [p.catch(...)]. *)
Fixpoint prog_catch {A} (p : prog A) (handler : error -> prog A) : prog A :=
  match p with
  | Settled (Normal a) => Settled (Normal a)
  | Settled (Throw e) => handler e
  | AwaitCreate r k => AwaitCreate r (fun answer => prog_catch (k answer) handler)
  | AwaitQuery q ps k => AwaitQuery q ps (fun answer => prog_catch (k answer) handler)
  end.

(** [await openai.responses.create(r)], read through [.output_text]. *)
Definition create (r : request) : prog string := AwaitCreate r Settled.

(** [throw new Error(message)] *)
Definition throwError {A} (message : string) : prog A :=
  Settled (Throw (Error "Error" message)).

(** A behaviour of the collaborators: what each answers to a call, given
    the calls made before it (latest first). *)
Record collaborators : Type := {
  model : list call -> request -> completion string;
  database : list call -> string -> list value -> completion (list value);
}.

(** Running a computation against a behaviour: the outcome and the calls
    made (latest first). *)
Fixpoint run {A} (w : collaborators) (p : prog A) (history : list call)
  : completion A * list call :=
  match p with
  | Settled c => (c, history)
  | AwaitCreate r k =>
      run w (k (model w history r)) (ResponsesCreate r :: history)
  | AwaitQuery q ps k =>
      run w (k (database w history q ps)) (PoolQuery q ps :: history)
  end.

(** The shape-generation requests among the calls: those that carry an
    output schema. *)
Definition isShapeCall (c : call) : bool :=
  match c with
  | ResponsesCreate r => match format r with Some _ => true | None => false end
  | PoolQuery _ _ => false
  end.

Definition shapeCalls (history : list call) : list call :=
  List.filter isShapeCall history.

(** ** The pipeline *)

(** [String(err)] for an [Error] object. *)
Definition errorToString (e : error) : string :=
  if String.eqb (name e) "" then message e
  else if String.eqb (message e) "" then name e
  else name e ++ ": " ++ message e.

(** [data.length] as a number; exact for every length an array can have. *)
Fixpoint lengthNumber {A} (l : list A) : float :=
  match l with
  | [] => 0%float
  | _ :: rest => (lengthNumber rest + 1)%float
  end.

Definition maxRetries : nat := 3.

(** The reply when the shape loop gives up (lines 599-625). *)
Definition fallbackInterpretation : string :=
  "Unable to generate a detailed analysis, but here's a simple overview of the data.".

Definition fallbackResponse (chartType : string) (data : list value) : value :=
  if String.eqb chartType "waterfall_chart" then
    statisticsResponse fallbackInterpretation "waterfall_chart"
      (waterfallData ["Start"; "Change"; "End"]
         [0%float; lengthNumber data; lengthNumber data])
  else
    statisticsResponse fallbackInterpretation "pie_chart"
      (pieData ["Data Points"] [lengthNumber data]).

(** The reply to an empty result set (lines 357-368). *)
Definition noDataResponse : value :=
  statisticsResponse "No data available for analysis." "pie_chart"
    (pieData ["No Data"] [100%float]).

Section Pipeline.

Context `{Engine}.

(** [generateSqlQuery(question, dbSchema)]; the only call passes the
    constant [dbSchema] of prompts.ts, which is part of the constant
    wording of the prompt.  [output_text] is a string, so the optional
    chaining of line 331 has nothing to do. *)
Definition generateSqlQuery (question : string) : prog string :=
  if String.eqb question "" || String.eqb (trim question) "" then
    throwError "Invalid question: Question must be a non-empty string"
  else
    prog_catch
      (output_text ← create (Request (SqlPrompt question) None);
       let sqlQuery := trim output_text in
       if negb (includes (toUpperCase sqlQuery) "SELECT") then
         throwError "Failed to generate a valid SQL query"
       else mret sqlQuery)
      (fun err =>
         throwError ("Failed to generate SQL query: " ++
           (if String.eqb (message err) "" then errorToString err
            else message err))).

(** [makeQuery(query, params)]: the rows of [pool.query], or its error
    wrapped. *)
Definition makeQuery (query : string) (params : list value)
  : prog (list value) :=
  if String.eqb query "" || String.eqb (trim query) "" then
    throwError "Invalid query: Query must be a non-empty string"
  else
    AwaitQuery query params (fun result =>
      match result with
      | Normal rows => Settled (Normal rows)
      | Throw error => throwError ("Database error: " ++ message error)
      end).

(** [validatedResponse.interpretation.includes(needle)] *)
Definition interpretationIncludes (response : value) (needle : string)
  : completion bool :=
  interpretation ← getProp response "interpretation";
  match interpretation with
  | VStr s => Normal (includes s needle)
  | VArr elems => Normal (existsb (fun v => isText v needle) elems)
  | VUndefined | VNull => typeError (CannotReadProperty interpretation "includes")
  | VBool _ | VNum _ | VObj _ =>
      typeError (NotAFunction "validatedResponse.interpretation.includes")
  end.

(** The prompt of attempt [currentRetry] (lines 408-547). *)
Definition shapePrompt (chartType originalQuestion serializedData : string)
    (currentRetry : nat) : prompt :=
  if (currentRetry =? 0)%nat then
    StandardPrompt chartType originalQuestion serializedData
  else if (currentRetry =? 1)%nat then
    StructuredPrompt chartType originalQuestion serializedData
  else if String.eqb chartType "waterfall_chart" then
    MinimalWaterfallPrompt originalQuestion serializedData
  else MinimalPiePrompt originalQuestion serializedData.

(** Lines 569-576: [try { JSON.parse(content) } catch { content }]. *)
Definition parseContent (content : string) : value :=
  match JSON_parse content with
  | Some parsed => parsed
  | None => VStr content
  end.

(** The check of lines 578-588 on the text the model returned: the
    validated response when the attempt succeeds. *)
Definition checkContent (content : string) : completion (option value) :=
  validatedResponse ← validateResponse (parseContent content);
  invalid ← interpretationIncludes validatedResponse "Invalid";
  if negb invalid then
    error ← interpretationIncludes validatedResponse "Error";
    if negb error then Normal (Some validatedResponse) else Normal None
  else Normal None.

(** The body of the do-while loop (lines 407-595): [Some] is
    [validResponse = validatedResponse; break], [None] is a failed
    attempt, on either path that ends in [currentRetry++]. *)
Definition attempt (requestSchema : schema)
    (chartType originalQuestion serializedData : string)
    (currentRetry : nat) : prog (option value) :=
  prog_catch
    (content ← create
       (Request (shapePrompt chartType originalQuestion serializedData currentRetry)
                (Some requestSchema));
     Settled (checkContent content))
    (fun _ => mret None).

(** [do { ... } while (currentRetry < maxRetries && !validResponse)] *)
Equations retryLoop (body : nat -> prog (option value)) (currentRetry : nat)
  : prog (option value) by wf (maxRetries - currentRetry) lt :=
retryLoop body currentRetry :=
  validResponse ← body currentRetry;
  match validResponse with
  | Some valid => mret (Some valid)
  | None =>
      match lt_dec (S currentRetry) maxRetries with
      | left _ => retryLoop body (S currentRetry)
      | right _ => mret None
      end
  end.
Next Obligation. unfold maxRetries in *. lia. Qed.

(** [generateAnalysis(data, originalQuestion)] *)
Definition generateAnalysis (data : list value) (originalQuestion : string)
  : prog value :=
  if (length data =? 0)%nat then mret noDataResponse
  else
    let serializedData := JSON_stringify data in
    output_text ← create
      (Request (ChartTypePrompt originalQuestion serializedData) None);
    let chartType := toLowerCase (trim output_text) in
    let requestSchema :=
      if String.eqb chartType "waterfall_chart"
      then simpleWaterfallChartSchema else simplePieChartSchema in
    validResponse ←
      retryLoop
        (attempt requestSchema chartType originalQuestion serializedData) 0;
    match validResponse with
    | None => mret (fallbackResponse chartType data)
    | Some valid => mret valid
    end.

(** [analyzeStatisticalQuestion(userQuestion)] *)
Definition analyzeStatisticalQuestion (userQuestion : string) : prog value :=
  if String.eqb userQuestion "" || String.eqb (trim userQuestion) "" then
    mret (createErrorResponse
            "Invalid question: Question must be a non-empty string")
  else
    prog_catch
      (sqlQuery ← generateSqlQuery userQuestion;
       queryResults ← makeQuery sqlQuery [];
       generateAnalysis queryResults userQuestion)
      (fun error =>
         mret (createErrorResponse ("Analysis failed: " ++ message error))).

End Pipeline.


(** * The vocabulary of the properties *)

(** ** Reading a response *)

(** [v?.key] without the exception: the property of an object, and
    [undefined] for anything else. *)
Definition field (v : value) (key : string) : value :=
  match v with
  | VObj props => default VUndefined (props !! key)
  | _ => VUndefined
  end.

Definition statisticsType (response : value) : value :=
  field (field response "statistics") "type".

Definition statisticsData (response : value) (key : string) : value :=
  field (field (field response "statistics") "data") key.

(** The value is an array of [n] elements. *)
Definition arrayOfLength (v : value) (n : nat) : Prop :=
  exists elems, v = VArr elems /\ length elems = n.

(** What the interface [StatisticsResponse] promises of a value: a string
    [interpretation] and one of the two chart types. *)
Definition isAnalysisResult (response : value) : Prop :=
  (exists text, field response "interpretation" = VStr text) /\
  (statisticsType response = VStr "pie_chart" \/
   statisticsType response = VStr "waterfall_chart").

(** The structural invariant of the specification, section 8, item 1. *)
Definition structuralInvariant (response : value) : Prop :=
  (statisticsType response = VStr "pie_chart" ->
   exists n, arrayOfLength (statisticsData response "labels") n /\
             arrayOfLength (statisticsData response "values") n) /\
  (statisticsType response = VStr "waterfall_chart" ->
   exists n, arrayOfLength (statisticsData response "categories") n /\
             arrayOfLength (statisticsData response "values") n /\ 2 <= n).

(** An [AnalysisResult] that satisfies the structural invariant. *)
Definition wellFormed (response : value) : Prop :=
  isAnalysisResult response /\ structuralInvariant response.

(** ** What the validator keeps and rewrites *)

(** The positions, counted from [idx], of the numbers that are not NaN. *)
Fixpoint keptIndices (idx : nat) (nums : list float) : list nat :=
  match nums with
  | [] => []
  | n :: rest =>
      if PrimFloat.is_nan n then keptIndices (S idx) rest
      else idx :: keptIndices (S idx) rest
  end.

(** The numbers at the kept positions. *)
Definition keptNumbers (nums : list float) : list float :=
  List.filter (fun n => negb (PrimFloat.is_nan n)) nums.

(** The response object after the validator wrote [data] back. *)
Definition withData (rp sp : gmap string value) (data : value) : value :=
  VObj (<["statistics" := VObj (<["data" := data]> sp)]> rp).

(** Lines 147-149: the categories at the valid indices, a missing one
    named after its index. *)
Definition keptCategories (categories : list value) (validIndices : list nat)
  : list value :=
  (fun idx =>
     let category := getIndex categories idx in
     if truthy category then category else VStr ("Item " ++ ofIndex idx))
  <$> validIndices.

(** Lines 155-160, for a first category that is a string. *)
Definition relabelStart (firstValue : float) (category : value) : value :=
  match category with
  | VStr text =>
      if PrimFloat.eqb firstValue 0 && negb (includes (toLowerCase text) "start")
      then VStr "Start" else category
  | _ => category
  end.

(** Lines 163-169, for a last category that is a string. *)
Definition relabelEnd (category : value) : value :=
  match category with
  | VStr text =>
      if negb (includes (toLowerCase text) "end") &&
         negb (includes (toLowerCase text) "total")
      then VStr "End" else category
  | _ => category
  end.

(** The categories after both end labels were looked at. *)
Definition relabelled (categories : list value) (values : list float)
  : list value :=
  <[length categories - 1 :=
      relabelEnd (getIndex categories (length categories - 1))]>
    (<[0 := relabelStart (default PrimFloat.nan (values !! 0))
              (getIndex categories 0)]> categories).

(** The categories on which [toLowerCase] is called are strings: the first
    one when the first value is 0, and the last one. *)
Definition endLabelsAreText (categories : list value) (values : list float)
  : Prop :=
  (PrimFloat.eqb (default PrimFloat.nan (values !! 0)) 0 = true ->
   exists text, categories !! 0 = Some (VStr text)) /\
  (exists text, categories !! (length categories - 1) = Some (VStr text)).

(** The callee of the call of [toLowerCase] that throws when an inspected
    label is not a string: the one of line 157 when the first value is 0
    and the first category is not a string, the one of line 165
    otherwise. *)
Definition failingCallee (categories : list value) (values : list float)
  : string :=
  if PrimFloat.eqb (default PrimFloat.nan (values !! 0)) 0 &&
     negb (isString (getIndex categories 0))
  then "data.categories[0].toLowerCase"
  else "data.categories[lastIdx].toLowerCase".

(** Lines 105-119: the default colours, when [colors] is missing. *)
Definition pieColors (dp : gmap string value) (labels : list value)
  : gmap string value :=
  if truthy (default VUndefined (dp !! "colors")) then dp
  else
    <["colors" :=
        VArr (imap (fun i _ =>
                VStr (default "" (defaultColors !! (i mod length defaultColors))))
                labels)]> dp.

(** Lines 173-175: [if (!data.key) data.key = text]. *)
Definition withDefaultText (dp : gmap string value) (key text : string)
  : gmap string value :=
  if truthy (default VUndefined (dp !! key)) then dp else <[key := VStr text]> dp.

(** Lines 43-46 on the properties of an object. *)
Definition defaultInterpretation (rp : gmap string value) : gmap string value :=
  let missing :=
    <["interpretation" :=
        VStr "Analysis generated but no interpretation provided."]> rp in
  match rp !! "interpretation" with
  | Some (VStr text) => if String.eqb text "" then missing else rp
  | _ => missing
  end.

(** The [data] object the pie branch returns when it accepts. *)
Definition acceptedPie (dp : gmap string value) (labels : list value)
    (nums : list float) : value :=
  let kept := (fun idx => getIndex labels idx) <$> keptIndices 0 nums in
  VObj (pieColors (<["values" := VArr (VNum <$> keptNumbers nums)]>
                     (<["labels" := VArr kept]> dp)) kept).

(** The [data] object the waterfall branch returns when it accepts. *)
Definition acceptedWaterfall (dp : gmap string value) (categories : list value)
    (nums : list float) : value :=
  let kept := keptCategories categories (keptIndices 0 nums) in
  VObj (withDefaultText
         (withDefaultText
           (withDefaultText
              (<["categories" := VArr (relabelled kept (keptNumbers nums))]>
                 (<["values" := VArr (VNum <$> keptNumbers nums)]>
                    (<["categories" := VArr kept]> dp)))
              "increaseLabelText" "Increase")
           "decreaseLabelText" "Decrease")
         "totalLabelText" "Total").

(** ** The runs of the pipeline *)

Section Vocabulary.

Context `{Engine}.

(** What an attempt makes of the model's answer: the accepted response, or
    nothing when the promise rejects, the validator throws or the
    interpretation reads like an error. *)
Definition attemptResult (answer : completion string) : option value :=
  match answer with
  | Normal content =>
      match checkContent content with
      | Normal (Some valid) => Some valid
      | _ => None
      end
  | Throw _ => None
  end.

(** The request of attempt [currentRetry]. *)
Definition shapeRequest (requestSchema : schema)
    (chartType originalQuestion serializedData : string) (currentRetry : nat)
  : request :=
  Request (shapePrompt chartType originalQuestion serializedData currentRetry)
          (Some requestSchema).

(** The calls made once attempts [0 .. n-1] have failed, after [history]. *)
Fixpoint failedAttempts (requestSchema : schema)
    (chartType originalQuestion serializedData : string) (n : nat)
    (history : list call) : list call :=
  match n with
  | 0 => history
  | S n' =>
      ResponsesCreate
        (shapeRequest requestSchema chartType originalQuestion serializedData n')
      :: failedAttempts requestSchema chartType originalQuestion serializedData
           n' history
  end.

(** The model's answer to attempt [n], the attempts before it having
    failed. *)
Definition answerAt (w : collaborators) (requestSchema : schema)
    (chartType originalQuestion serializedData : string) (n : nat)
    (history : list call) : completion string :=
  model w
    (failedAttempts requestSchema chartType originalQuestion serializedData n history)
    (shapeRequest requestSchema chartType originalQuestion serializedData n).

(** The loop as a recursion on the attempts that are left: the first
    accepted response, and the calls made. *)
Fixpoint attemptsFrom (w : collaborators) (requestSchema : schema)
    (chartType originalQuestion serializedData : string)
    (budget currentRetry : nat) (history : list call)
  : option value * list call :=
  match budget with
  | 0 => (None, history)
  | S budget' =>
      let r := shapeRequest requestSchema chartType originalQuestion
                 serializedData currentRetry in
      match attemptResult (model w history r) with
      | Some valid => (Some valid, ResponsesCreate r :: history)
      | None =>
          attemptsFrom w requestSchema chartType originalQuestion serializedData
            budget' (S currentRetry) (ResponsesCreate r :: history)
      end
  end.

(** The calls [extra] made on top of [history] hold at most [n] shape
    requests, each with the schema [sch]. *)
Definition shapeBounded (sch : schema) (n : nat) (after history : list call)
  : Prop :=
  exists extra, after = (extra ++ history)%list /\
    length (shapeCalls extra) <= n /\
    Forall (fun c => isShapeCall c = true ->
                     exists p, c = ResponsesCreate (Request p (Some sch))) extra.

(** The classifier's request, the chart type read from its answer and the
    schema picked for it (lines 371-399). *)
Definition classifierRequest (data : list value) (originalQuestion : string)
  : request :=
  Request (ChartTypePrompt originalQuestion (JSON_stringify data)) None.

Definition chartTypeOf (output_text : string) : string :=
  toLowerCase (trim output_text).

Definition schemaFor (chartType : string) : schema :=
  if String.eqb chartType "waterfall_chart"
  then simpleWaterfallChartSchema else simplePieChartSchema.

(** What claim C5 says of one response, the values of which coerce to
    [nums]: with fewer numeric entries than the minimum the validator
    returns the error response of the chart type, and otherwise the
    response itself (its own interpretation, or the default one), of that
    type, holding exactly the pairs at the numeric positions.  [safe] is a
    condition on the kept categories of a waterfall; the claim as written
    has none. *)
Definition numericPairsKept (safe : list value -> list float -> Prop)
    (response : value) : Prop :=
  forall (rp sp dp : gmap string value) (labels values : list value)
         (nums : list float),
    response = VObj rp ->
    rp !! "statistics" = Some (VObj sp) ->
    sp !! "data" = Some (VObj dp) ->
    dp !! "values" = Some (VArr values) ->
    mapM Number values = Normal nums ->
    (sp !! "type" = Some (VStr "pie_chart") ->
     dp !! "labels" = Some (VArr labels) ->
     exists out, validateResponse response = Normal out /\
       if (length (keptIndices 0 nums) <? 1)%nat then
         out = createPieChartErrorResponse
                 "Invalid pie chart data: no valid numeric values"
       else
         field out "interpretation" =
           field (VObj (defaultInterpretation rp)) "interpretation" /\
         statisticsType out = VStr "pie_chart" /\
         statisticsData out "labels" =
           VArr ((fun idx => getIndex labels idx) <$> keptIndices 0 nums) /\
         statisticsData out "values" = VArr (VNum <$> keptNumbers nums)) /\
    (sp !! "type" = Some (VStr "waterfall_chart") ->
     dp !! "categories" = Some (VArr labels) ->
     safe (keptCategories labels (keptIndices 0 nums)) (keptNumbers nums) ->
     exists out, validateResponse response = Normal out /\
       if (length (keptIndices 0 nums) <? 2)%nat then
         out = createWaterfallChartErrorResponse
                 "Invalid waterfall chart data: need at least 2 valid numeric values"
       else
         field out "interpretation" =
           field (VObj (defaultInterpretation rp)) "interpretation" /\
         statisticsType out = VStr "waterfall_chart" /\
         statisticsData out "categories" =
           VArr (relabelled (keptCategories labels (keptIndices 0 nums))
                            (keptNumbers nums)) /\
         statisticsData out "values" = VArr (VNum <$> keptNumbers nums)).

End Vocabulary.

(** ** A concrete engine and concrete collaborators

    Used to run the definitions on sample inputs.  The engine answers as
    ECMAScript does on the inputs of the examples below: strings of
    decimal digits and blank strings as numbers, plain objects as
    operands of [Number], and the JSON documents [errorRateJson] and
    [negativeShareJson].  Its messages are those of V8 for the faults the
    examples raise: a property read on [null] or [undefined], a property
    written on a string or a boolean, and a call of what is not a function,
    which V8 names by the text of the callee. *)

Module Sample.

Definition digitValue (c : ascii) : option float :=
  let n := nat_of_ascii c in
  if ((48 <=? n) && (n <=? 57))%nat
  then Some (Nat.iter (n - 48) (fun x => (x + 1)%float) 0%float) else None.

Fixpoint digitsToNumber (acc : float) (s : string) : float :=
  match s with
  | EmptyString => acc
  | String c rest =>
      match digitValue c with
      | Some d => digitsToNumber (acc * 10 + d)%float rest
      | None => PrimFloat.nan
      end
  end.

Definition stringToNumber (s : string) : float :=
  digitsToNumber 0%float (trim s).

(** The double quote. *)
Definition dq : string := String "034"%char EmptyString.

(** [{"interpretation":"Error rate by region","statistics":{"type":
    "pie_chart","data":{"labels":["North","South"],"values":[3,1]}}}] *)
Definition errorRateJson : string :=
  "{" ++ dq ++ "interpretation" ++ dq ++ ":" ++ dq ++ "Error rate by region" ++ dq
  ++ "," ++ dq ++ "statistics" ++ dq ++ ":{" ++ dq ++ "type" ++ dq ++ ":" ++ dq
  ++ "pie_chart" ++ dq ++ "," ++ dq ++ "data" ++ dq ++ ":{" ++ dq ++ "labels" ++ dq
  ++ ":[" ++ dq ++ "North" ++ dq ++ "," ++ dq ++ "South" ++ dq ++ "]," ++ dq
  ++ "values" ++ dq ++ ":[3,1]}}}".

Definition errorRateResponse : value :=
  statisticsResponse "Error rate by region" "pie_chart"
    (pieData ["North"; "South"] [3%float; 1%float]).

(** [{"interpretation":"Share of refunds and sales","statistics":{"type":
    "pie_chart","data":{"labels":["Refunds","Sales"],"values":[-5,20],
    "colors":["#F56565","#48BB78"]}}}] *)
Definition negativeShareJson : string :=
  "{" ++ dq ++ "interpretation" ++ dq ++ ":" ++ dq ++ "Share of refunds and sales"
  ++ dq ++ "," ++ dq ++ "statistics" ++ dq ++ ":{" ++ dq ++ "type" ++ dq ++ ":" ++ dq
  ++ "pie_chart" ++ dq ++ "," ++ dq ++ "data" ++ dq ++ ":{" ++ dq ++ "labels" ++ dq
  ++ ":[" ++ dq ++ "Refunds" ++ dq ++ "," ++ dq ++ "Sales" ++ dq ++ "]," ++ dq
  ++ "values" ++ dq ++ ":[-5,20]," ++ dq ++ "colors" ++ dq ++ ":[" ++ dq ++ "#F56565"
  ++ dq ++ "," ++ dq ++ "#48BB78" ++ dq ++ "]}}}".

(** A pie chart with a negative share, colours given. *)
Definition negativeShare : value :=
  statisticsResponse "Share of refunds and sales" "pie_chart"
    (<["colors" := VArr [VStr "#F56565"; VStr "#48BB78"]]>
       (pieData ["Refunds"; "Sales"] [(-5)%float; 20%float])).

Definition parse (s : string) : option value :=
  if String.eqb s errorRateJson then Some errorRateResponse
  else if String.eqb s negativeShareJson then Some negativeShare
  else None.

#[export] Instance engine : Engine := {|
  JSON_parse := parse;
  JSON_stringify := fun rows => "[" ++ ofIndex (length rows) ++ " rows]";
  StringToNumber := stringToNumber;
  NumberToString := fun _ => "NaN";
  ObjectToNumber := fun _ => Normal PrimFloat.nan;
  ObjectToString := fun _ => Normal "[object Object]";
  faultMessage := fun f =>
    match f with
    | CannotReadProperty receiver key =>
        "Cannot read properties of " ++
        match receiver with VNull => "null" | _ => "undefined" end ++
        " (reading '" ++ key ++ "')"
    | CannotCreateProperty receiver key =>
        "Cannot create property '" ++ key ++ "' on " ++
        match receiver with
        | VStr text => "string '" ++ text ++ "'"
        | VBool b => "boolean '" ++ (if b then "true" else "false") ++ "'"
        | _ => "number"
        end
    | NotAFunction callee => callee ++ " is not a function"
    end |}.

(** A model that writes a query, names a chart type and then answers every
    shape request with the same text; a database that returns [rows]. *)
Definition stub (chartType shape : string) (rows : list value) : collaborators :=
  {| model := fun _ r =>
       match input r with
       | SqlPrompt _ => Normal "SELECT status, count(*) FROM invoices GROUP BY status"
       | ChartTypePrompt _ _ => Normal chartType
       | _ => Normal shape
       end;
     database := fun _ _ _ => Normal rows |}.

Definition oneRow : list value := [VObj {[ "count" := VNum 4%float ]}].

(** A waterfall chart whose categories are years, written as numbers. *)
Definition numericCategories : value :=
  statisticsResponse "Revenue by year" "waterfall_chart"
    {[ "categories" := VArr [VNum 2023%float; VNum 2024%float];
       "values" := VArr [VNum 1200%float; VNum 1500%float] ]}.

(** A waterfall chart from an opening to a closing balance, property by
    property. *)
Definition balanceData : gmap string value :=
  waterfallData ["Opening"; "Sales"; "Closing"] [0%float; 5%float; 5%float].

Definition balanceStatistics : gmap string value :=
  {[ "type" := VStr "waterfall_chart"; "data" := VObj balanceData ]}.

Definition balanceProps : gmap string value :=
  {[ "interpretation" := VStr "Sales account for the whole change";
     "statistics" := VObj balanceStatistics ]}.

(** What the validator makes of it. *)
Definition balanceValidated : value :=
  statisticsResponse "Sales account for the whole change" "waterfall_chart"
    (<["totalLabelText" := VStr "Total"]>
       (<["decreaseLabelText" := VStr "Decrease"]>
          (<["increaseLabelText" := VStr "Increase"]>
             (waterfallData ["Start"; "Sales"; "End"]
                [0%float; 5%float; 5%float])))).

End Sample.

(** ** The calls to the database *)

(** The database calls among the calls made. *)
Definition isQueryCall (c : call) : bool :=
  match c with PoolQuery _ _ => true | ResponsesCreate _ => false end.

Definition queryCalls (history : list call) : list call :=
  List.filter isQueryCall history.

(** * The chat router

    The router of the back end (chat sessions and the analysis endpoint),
    the caller of [analyzeStatisticalQuestion]. *)

Module Chat.

(** An answer: [c.json(body, status)] or [c.text(text, status)]. *)
Inductive response : Type :=
| Json (body : value) (status : nat)
| Text (text : string) (status : nat).

Definition status (answer : response) : nat :=
  match answer with Json _ status | Text _ status => status end.

(** A [ChatSession]; the entries of its history are the object literals
    the handlers push. *)
Record ChatSession : Type := Session {
  id : string;
  history : list value;
  createdAt : float;
  updatedAt : float;
}.

(** The session objects and the map [chatSessions] from a session id to
    its object.  A handler keeps the object it looked up across an
    [await], during which the map may change, so the map holds references
    (positions in [objects]) and the objects are kept apart; an object is
    never dropped. *)
Record store : Type := Store {
  objects : list ChatSession;
  chatSessions : gmap string nat;
}.

(** [{ success: false, error }] *)
Definition failure (error : string) : value :=
  VObj {[ "success" := VBool false; "error" := VStr error ]}.

Definition sessionNotFound : response := Json (failure "Session not found") 404.

(** The answer to an error that no handler caught.  The router installs no
    error handler of its own, so it is the one of the framework:
    [c.text("Internal Server Error", 500)]. *)
Definition internalServerError : response := Text "Internal Server Error" 500.

(** [session.history.push(entry)] *)
Definition push (entry : value) (session : ChatSession) : ChatSession :=
  Session (id session) (history session ++ [entry])
          (createdAt session) (updatedAt session).

(** [session.updatedAt = now] *)
Definition touch (now : float) (session : ChatSession) : ChatSession :=
  Session (id session) (history session) (createdAt session) now.

(** [session.history = []] *)
Definition clear (session : ChatSession) : ChatSession :=
  Session (id session) [] (createdAt session) (updatedAt session).

(** An update of the object at [l]. *)
Definition update (f : ChatSession -> ChatSession) (l : nat) (st : store) : store :=
  Store (alter f l (objects st)) (chatSessions st).

(** [chatSessions.set(sessionId, session)] for the object at [l]. *)
Definition register (sessionId : string) (l : nat) (st : store) : store :=
  Store (objects st) (<[sessionId := l]> (chatSessions st)).

(** [chatSessions.get(sessionId)]: the object and where it lives. *)
Definition get (st : store) (sessionId : string) : option (nat * ChatSession) :=
  l ← chatSessions st !! sessionId;
  session ← objects st !! l;
  Some (l, session).

(** The entry of a question (lines 727-731 of the router). *)
Definition userEntry (question : string) (now : float) : value :=
  VObj {[ "role" := VStr "user"; "content" := VStr question;
          "timestamp" := VNum now ]}.

(** The entry of an answer (lines 739-744). *)
Definition systemEntry (interpretation statistics : value) (now : float) : value :=
  VObj {[ "role" := VStr "system"; "content" := interpretation;
          "timestamp" := VNum now; "statistics" := statistics ]}.

(** [24 * 60 * 60 * 1000] *)
Definition MAX_SESSION_AGE : float := 86400000%float.

(** [now - session.updatedAt > MAX_SESSION_AGE] *)
Definition expired (now : float) (session : ChatSession) : bool :=
  PrimFloat.ltb MAX_SESSION_AGE (now - updatedAt session)%float.

(** POST /session, with the id [generateSessionId] drew and the two
    readings of the clock. *)
Definition createSession (sessionId : string) (created updated : float)
    (st : store) : store * response :=
  (Store (objects st ++ [Session sessionId [] created updated])
         (<[sessionId := length (objects st)]> (chatSessions st)),
   Json (VObj {[ "success" := VBool true;
                 "session" := VObj {[ "id" := VStr sessionId;
                                      "createdAt" := VNum created ]} ]}) 200).

(** GET /session/:id *)
Definition getSession (sessionId : string) (st : store) : response :=
  match get st sessionId with
  | None => sessionNotFound
  | Some (_, session) =>
      Json (VObj {[ "success" := VBool true;
                    "session" := VObj {[ "id" := VStr (id session);
                                         "history" := VArr (history session);
                                         "createdAt" := VNum (createdAt session);
                                         "updatedAt" := VNum (updatedAt session) ]} ]})
           200
  end.

(** DELETE /session/:id *)
Definition clearHistory (sessionId : string) (now : float) (st : store)
  : store * response :=
  match get st sessionId with
  | None => (st, sessionNotFound)
  | Some (l, _) =>
      (register sessionId l (update (fun session => touch now (clear session)) l st),
       Json (VObj {[ "success" := VBool true;
                     "message" := VStr "Chat history cleared" ]}) 200)
  end.

(** The test of the clean-up on the object at [l]. *)
Definition expiredAt (now : float) (st : store) (l : nat) : bool :=
  match objects st !! l with
  | Some session => expired now session
  | None => false
  end.

(** The hourly clean-up: every session of the map that has expired is
    deleted from it. *)
Definition cleanup (now : float) (st : store) : store :=
  Store (objects st)
        (filter (fun entry => expiredAt now st entry.2 = false) (chatSessions st)).

Section Handlers.

Context `{Engine}.

(** [requestValidator], on the value the JSON text of the request parses
    to: the answer that ends the request, or the validated [question] and
    [schema].  It throws where [body.question] does, on a body that is
    [null]. *)
Definition requestValidator (body : value)
  : completion (response + string * value) :=
  question ← getProp body "question";
  match question with
  | VStr text =>
      if String.eqb text "" || String.eqb (trim text) "" then
        Normal (inl (Json (failure "Question is required") 400))
      else
        schema ← getProp body "schema";
        if truthy schema && negb (isString schema) then
          Normal (inl (Json (failure "Schema must be a string") 400))
        else Normal (inr (text, if truthy schema then schema else VUndefined))
  | _ => Normal (inl (Json (failure "Question is required") 400))
  end.

(** The message handler up to its [await] (lines 716-736): the answer 404,
    or the store with the question pushed and the session object the
    handler goes on with. *)
Definition messageBegin (sessionId question : string) (now : float) (st : store)
  : response + store * nat :=
  match get st sessionId with
  | None => inl sessionNotFound
  | Some (l, _) => inr (update (push (userEntry question now)) l st, l)
  end.

(** The message handler after its [await] (lines 738-766), on the outcome
    of the analysis, the store as it is by then and the two readings of
    the clock. *)
Definition messageEnd (sessionId : string) (l : nat) (outcome : completion value)
    (replied touched : float) (st : store) : store * response :=
  match
    result ← outcome;
    interpretation ← getProp result "interpretation";
    statistics ← getProp result "statistics";
    Normal (result, systemEntry interpretation statistics replied)
  with
  | Normal (result, entry) =>
      (register sessionId l
         (update (fun session => touch touched (push entry session)) l st),
       Json (VObj {[ "success" := VBool true; "result" := result;
                     "sessionId" := VStr sessionId ]}) 200)
  | Throw error =>
      (st, Json (failure (if String.eqb (message error) ""
                          then "An unknown error occurred"
                          else message error)) 500)
  end.

(** POST /message/:sessionId when no other handler runs during the
    analysis: the store, the answer and the calls made.  The validator runs
    before the handler and outside its [try]: what it throws is answered by
    the framework. *)
Definition postMessage (w : collaborators) (sessionId : string) (body : value)
    (sent replied touched : float) (st : store) (calls : list call)
  : store * response * list call :=
  match requestValidator body with
  | Throw _ => (st, internalServerError, calls)
  | Normal (inl refused) => (st, refused, calls)
  | Normal (inr (question, _)) =>
      match messageBegin sessionId question sent st with
      | inl notFound => (st, notFound, calls)
      | inr (st, l) =>
          let ran := run w (analyzeStatisticalQuestion question) calls in
          let ended := messageEnd sessionId l ran.1 replied touched st in
          (ended.1, ended.2, ran.2)
      end
  end.

(** POST /api/analyze *)
Definition analyze (w : collaborators) (body : value) (calls : list call)
  : response * list call :=
  match requestValidator body with
  | Throw _ => (internalServerError, calls)
  | Normal (inl refused) => (refused, calls)
  | Normal (inr (question, _)) =>
      let ran := run w (analyzeStatisticalQuestion question) calls in
      (match ran.1 with
       | Normal result =>
           Json (VObj {[ "success" := VBool true; "result" := result ]}) 200
       | Throw error =>
           Json (failure (if String.eqb (message error) ""
                          then "An unknown error occurred"
                          else message error)) 500
       end, ran.2)
  end.

End Handlers.

End Chat.

(** * The strict validator

    The analysis module kept beside getStatistic.ts validates a response
    without repairing it: [validateResponse], [validatePieChartData] and
    [validateWaterfallChartData] of that module.  Its error responses are
    the ones above. *)

Module Strict.

(** [typeof value !== "number" || value < 0] *)
Definition notNonNegativeNumber (v : value) : bool :=
  match v with VNum n => PrimFloat.ltb n 0 | _ => true end.

(** [typeof value !== "number"] *)
Definition notNumber (v : value) : bool :=
  match v with VNum _ => false | _ => true end.

(** [data.colors && (!Array.isArray(data.colors) ||
    data.colors.length !== data.labels.length)] *)
Definition invalidColors (colors : value) (labels : list value) : bool :=
  match colors with
  | VArr elems => negb (length elems =? length labels)%nat
  | _ => truthy colors
  end.

(** [delete v.key], for a [v] that is not [undefined] or [null]. *)
Definition deleteProp (v : value) (key : string) : value :=
  match v with
  | VObj props => VObj (delete key props)
  | _ => v
  end.

Section Strict.

Context `{Engine}.

(** [validatePieChartData(response)]; the deletion of [colors] updates
    [response.statistics.data] in place, which the model writes back. *)
Definition validatePieChartData (response : value) : completion value :=
  statistics ← getProp response "statistics";
  data ← getProp statistics "data";
  labels ← getProp data "labels";
  values ← getProp data "values";
  match labels, values with
  | VArr labelElems, VArr valueElems =>
      if negb (length labelElems =? length valueElems)%nat then
        Normal (createPieChartErrorResponse
          "Invalid pie chart data: labels and values arrays must have the same length")
      else if existsb notNonNegativeNumber valueElems then
        Normal (createPieChartErrorResponse
          "Invalid pie chart data: values must be non-negative numbers")
      else
        colors ← getProp data "colors";
        if invalidColors colors labelElems then
          statistics ← setProp statistics "data" (deleteProp data "colors");
          setProp response "statistics" statistics
        else Normal response
  | _, _ =>
      Normal (createPieChartErrorResponse
        "Invalid pie chart data: labels and values must be arrays")
  end.

(** [validateWaterfallChartData(response)] *)
Definition validateWaterfallChartData (response : value) : completion value :=
  statistics ← getProp response "statistics";
  data ← getProp statistics "data";
  categories ← getProp data "categories";
  values ← getProp data "values";
  match categories, values with
  | VArr categoryElems, VArr valueElems =>
      if negb (length categoryElems =? length valueElems)%nat then
        Normal (createWaterfallChartErrorResponse
          "Invalid waterfall chart data: categories and values arrays must have the same length")
      else if existsb notNumber valueElems then
        Normal (createWaterfallChartErrorResponse
          "Invalid waterfall chart data: values must be numbers")
      else Normal response
  | _, _ =>
      Normal (createWaterfallChartErrorResponse
        "Invalid waterfall chart data: categories and values must be arrays")
  end.

(** [validateResponse(response)] of the strict module: no [try], so a
    [TypeError] leaves it. *)
Definition validateResponse (response : value) : completion value :=
  interpretation ← getProp response "interpretation";
  response ←
    (if negb (truthy interpretation) || negb (isString interpretation)
     then setProp response "interpretation"
            (VStr "Analysis generated but no interpretation provided.")
     else Normal response);
  statistics ← getProp response "statistics";
  if negb (truthy statistics) then
    Normal (createErrorResponse
      "Invalid response structure: missing statistics or chart type")
  else
  type ← getProp statistics "type";
  if negb (truthy type) then
    Normal (createErrorResponse
      "Invalid response structure: missing statistics or chart type")
  else
  if negb (isText type "pie_chart") && negb (isText type "waterfall_chart") then
    shown ← ToString type;
    Normal (createErrorResponse ("Invalid chart type: " ++ shown))
  else
  data ← getProp statistics "data";
  if negb (truthy data) then
    Normal (createErrorResponse
      "Invalid response structure: missing chart data")
  else if isText type "pie_chart" then validatePieChartData response
  else validateWaterfallChartData response.

End Strict.

End Strict.

(** * The customers module

    [createCustomer] and the routes GET / and POST / of the customers
    router, against a pool of database clients. *)

Module Customers.

(** What is thrown in this module: a [CustomerError] with its [cause], or
    anything else (a [TypeError], an error of the driver).  The only cause
    ever given is an error of the second kind. *)
Inductive thrown : Type :=
| CustomerError (message : string) (cause : option error)
| Foreign (e : error).

(** A settled promise. *)
Inductive outcome (A : Type) : Type :=
| Fulfilled (a : A)
| Rejected (t : thrown).
Arguments Fulfilled {A} a.
Arguments Rejected {A} t.

(** The uses of the pool. *)
Inductive call : Type :=
| Connect
| Query (text : string) (params : list value)
| Release.

(** The result of [client.query]. *)
Record QueryResult : Type := Result {
  rowCount : option nat;       (* a number, or [null] *)
  rows : list value;
}.

(** A behaviour of the pool: what [pool.connect()] and [client.query]
    answer, given the calls made before (latest first).  [None] is a
    client. *)
Record pool : Type := {
  connect : list call -> option error;
  query : list call -> string -> list value -> error + QueryResult;
}.

(** A computation that uses the pool: from the calls made so far to its
    outcome and the calls made then. *)
Definition task (A : Type) : Type := pool -> list call -> outcome A * list call.

Definition ret {A} (a : A) : task A := fun _ calls => (Fulfilled a, calls).

Definition throw {A} (t : thrown) : task A := fun _ calls => (Rejected t, calls).

Definition bind {A B} (m : task A) (f : A -> task B) : task B :=
  fun p calls =>
    match m p calls with
    | (Fulfilled a, calls) => f a p calls
    | (Rejected t, calls) => (Rejected t, calls)
    end.

(** [try { body } catch (error) { handler }] *)
Definition catch {A} (body : task A) (handler : thrown -> task A) : task A :=
  fun p calls =>
    match body p calls with
    | (Fulfilled a, calls) => (Fulfilled a, calls)
    | (Rejected t, calls) => handler t p calls
    end.

(** [try { body } finally { cleanup }], for a [cleanup] that does not
    throw. *)
Definition finally {A} (body : task A) (cleanup : list call -> list call) : task A :=
  fun p calls =>
    match body p calls with
    | (settled, calls) => (settled, cleanup calls)
    end.

(** [await pool.connect()] *)
Definition poolConnect : task unit :=
  fun p calls =>
    match connect p calls with
    | None => (Fulfilled tt, Connect :: calls)
    | Some e => (Rejected (Foreign e), Connect :: calls)
    end.

(** [await client.query(text, params)] *)
Definition clientQuery (text : string) (params : list value) : task QueryResult :=
  fun p calls =>
    match query p calls text params with
    | inr result => (Fulfilled result, Query text params :: calls)
    | inl e => (Rejected (Foreign e), Query text params :: calls)
    end.

(** [client.release()] *)
Definition clientRelease (calls : list call) : list call := Release :: calls.

(** [c.json(body, status)] *)
Record response : Type := Json { body : value; status : nat }.

(** The calls that led from [calls] to [after] are those of a handler
    that gives back what it takes: no call at all, or a [connect] that
    failed, or a client, one query on it and its release. *)
Definition clientReleased (p : pool) (calls after : list call) : Prop :=
  after = calls \/
  (after = Connect :: calls /\ connect p calls <> None) \/
  (exists text params,
     after = Release :: Query text params :: Connect :: calls /\
     connect p calls = None).

(** [v || null] *)
Definition orNull (v : value) : value := if truthy v then v else VNull.

(** The statement of [createCustomer], as the template literal holds it. *)
Definition insertCustomer : string :=
  "INSERT INTO customers (
        name, address, phone, email, tax_id
      ) VALUES ($1, $2, $3, $4, $5) 
      RETURNING *".

Section Customers.

Context `{Engine}.

(** [validateCustomerData(data)] *)
Definition validateCustomerData (data : value) : outcome unit :=
  match getProp data "name" with
  | Throw e => Rejected (Foreign e)
  | Normal name =>
      if negb (truthy name) then
        Rejected (CustomerError "Customer name is required" None)
      else
        match name with
        | VStr text =>
            if String.eqb (trim text) "" then
              Rejected (CustomerError "Customer name is required" None)
            else Fulfilled tt
        | _ => Rejected (Foreign (Error "TypeError"
                                    (faultMessage (NotAFunction "data.name.trim"))))
        end
  end.

(** [createCustomer(data)].  Past the validation [data] is an object, so
    the reads of its properties do not throw. *)
Definition createCustomer (data : value) : task value :=
  bind (fun _ calls => (validateCustomerData data, calls)) (fun _ =>
  bind poolConnect (fun _ =>
  finally
    (catch
       (bind (clientQuery insertCustomer
                [ field data "name"; orNull (field data "address");
                  orNull (field data "phone"); orNull (field data "email");
                  orNull (field data "tax_id") ])
             (fun result =>
                match rowCount result with
                | Some 0 => throw (CustomerError "Failed to create customer" None)
                | _ => ret (getIndex (rows result) 0)
                end))
       (fun error =>
          match error with
          | CustomerError _ _ => throw error
          | Foreign e => throw (CustomerError "Customer creation failed" (Some e))
          end))
    clientRelease)).

(** [{ error }] *)
Definition failure (error : string) : value := VObj {[ "error" := VStr error ]}.

(** GET / *)
Definition getCustomers : task response :=
  catch
    (bind poolConnect (fun _ =>
     finally
       (bind (clientQuery "SELECT * FROM customers ORDER BY name" [])
             (fun result => ret (Json (VArr (rows result)) 200)))
       clientRelease))
    (fun _ => ret (Json (failure "Internal server error") 500)).

(** POST /, on the outcome of [c.req.json()]. *)
Definition postCustomer (parsed : outcome value) : task response :=
  catch
    (bind (fun _ calls => (parsed, calls)) (fun data =>
     bind (createCustomer data) (fun result =>
     ret (Json result 201))))
    (fun error =>
       match error with
       | CustomerError message _ => ret (Json (failure message) 400)
       | _ => ret (Json (failure "Internal server error") 500)
       end).

End Customers.

End Customers.

(** * More sample inputs

    Collaborators, responses and stores on which the further properties
    are run. *)

Module Scenario.

(** A model that writes a query, names a pie chart, answers the standard
    and the structured prompt with a chart whose interpretation reads like
    an error, and the minimal prompt with a chart that passes; a database
    that returns one row. *)
Definition staged : collaborators :=
  {| model := fun _ r =>
       match input r with
       | SqlPrompt _ => Normal "SELECT status, count(*) FROM invoices GROUP BY status"
       | ChartTypePrompt _ _ => Normal "pie_chart"
       | StandardPrompt _ _ _ | StructuredPrompt _ _ _ => Normal Sample.errorRateJson
       | MinimalWaterfallPrompt _ _ | MinimalPiePrompt _ _ =>
           Normal Sample.negativeShareJson
       end;
     database := fun _ _ _ => Normal Sample.oneRow |}.

(** A model that writes a query; a database that cannot be reached. *)
Definition offline : collaborators :=
  {| model := fun _ _ => Normal "  select count(*) from invoices  ";
     database := fun _ _ _ => Throw (Error "error" "connection refused") |}.

(** U+00A0, the no-break space. *)
Definition noBreakSpace : string := bytes2 194 160.

(** A model that writes its query with U+017F, the long s, whose upper-case
    form is S, and no-break spaces around it; a database that cannot be
    reached. *)
Definition longS : collaborators :=
  {| model := fun _ _ =>
       Normal (noBreakSpace ++ bytes2 197 191 ++ "elect 1" ++ noBreakSpace);
     database := fun _ _ _ => Throw (Error "error" "connection refused") |}.

(** A model that declines to write a query. *)
Definition declining : collaborators :=
  {| model := fun _ _ => Normal "I cannot answer that.";
     database := fun _ _ _ => Normal Sample.oneRow |}.

(** A pie chart with one label for two values, the second a string. *)
Definition shortLabelsData : gmap string value :=
  {[ "labels" := VArr [VStr "Paid"]; "values" := VArr [VNum 3%float; VStr "4"] ]}.

Definition shortLabelsStatistics : gmap string value :=
  {[ "type" := VStr "pie_chart"; "data" := VObj shortLabelsData ]}.

Definition shortLabelsProps : gmap string value :=
  {[ "interpretation" := VStr "Paid and open invoices";
     "statistics" := VObj shortLabelsStatistics ]}.

(** The waterfall of [Sample.numericCategories], property by property. *)
Definition yearsData : gmap string value :=
  {[ "categories" := VArr [VNum 2023%float; VNum 2024%float];
     "values" := VArr [VNum 1200%float; VNum 1500%float] ]}.

Definition yearsStatistics : gmap string value :=
  {[ "type" := VStr "waterfall_chart"; "data" := VObj yearsData ]}.

Definition yearsProps : gmap string value :=
  {[ "interpretation" := VStr "Revenue by year";
     "statistics" := VObj yearsStatistics ]}.

(** A waterfall with a single entry. *)
Definition singleData : gmap string value :=
  {[ "categories" := VArr [VStr "Total"]; "values" := VArr [VNum 7%float] ]}.

Definition singleStatistics : gmap string value :=
  {[ "type" := VStr "waterfall_chart"; "data" := VObj singleData ]}.

Definition singleProps : gmap string value :=
  {[ "interpretation" := VStr "One total"; "statistics" := VObj singleStatistics ]}.

(** The body of a request. *)
Definition questionBody : value :=
  VObj {[ "question" := VStr "How many invoices per status?" ]}.

(** A store with one session, created and last used at time 0. *)
Definition idle : Chat.ChatSession := Chat.Session "k3x9" [] 0%float 0%float.

Definition oneSession : Chat.store := Chat.Store [idle] {[ "k3x9" := 0 ]}.

(** A pool whose clients fail every query. *)
Definition failingQueries : Customers.pool :=
  {| Customers.connect := fun _ => None;
     Customers.query := fun _ _ _ => inl (Error "error" "duplicate key") |}.

Definition acme : value := VObj {[ "name" := VStr "Acme" ]}.

End Scenario.


(** * Properties *)

(** ** Strings *)

Lemma string_length_ind (P : string -> Prop) :
  (forall s, (forall t, String.length t < String.length s -> P t) -> P s) ->
  forall s, P s.
Proof.
  intros Hstep s.
  assert (Hall : forall n t, String.length t < n -> P t).
  { induction n as [|n IH]; intros t Ht; [lia|].
    apply Hstep. intros u Hu. apply IH. lia. }
  apply (Hall (S (String.length s))). lia.
Qed.

Lemma afterWhiteSpace_length (s rest : string) :
  afterWhiteSpace s = Some rest -> String.length rest < String.length s.
Proof.
  destruct s as [|c [|d [|e rest3]]]; simpl; try discriminate.
  - destruct (isWhiteSpace c); [intros [= <-]; simpl; lia | discriminate].
  - destruct (isWhiteSpace c); [intros [= <-]; simpl; lia|].
    destruct (isWhiteSpace2 c d); [intros [= <-]; simpl; lia | discriminate].
  - destruct (isWhiteSpace c); [intros [= <-]; simpl; lia|].
    destruct (isWhiteSpace2 c d); [intros [= <-]; simpl; lia|].
    destruct (isWhiteSpace3 c d e); [intros [= <-]; simpl; lia | discriminate].
Qed.

Lemma trimStart_step (s : string) :
  trimStart s =
  match afterWhiteSpace s with Some rest => trimStart rest | None => s end.
Proof.
  destruct s as [|c [|d [|e rest3]]]; try reflexivity.
  - simpl. destruct (isWhiteSpace c); reflexivity.
  - simpl. destruct (isWhiteSpace c); [reflexivity|].
    destruct (isWhiteSpace2 c d); reflexivity.
  - simpl. destruct (isWhiteSpace c); [reflexivity|].
    destruct (isWhiteSpace2 c d); [reflexivity|].
    destruct (isWhiteSpace3 c d e); reflexivity.
Qed.

Lemma onlyWhiteSpace_step (s : string) :
  onlyWhiteSpace s =
  match s with
  | EmptyString => true
  | String _ _ =>
      match afterWhiteSpace s with
      | Some rest => onlyWhiteSpace rest
      | None => false
      end
  end.
Proof.
  destruct s as [|c [|d [|e rest3]]]; try reflexivity.
  - simpl. destruct (isWhiteSpace c); reflexivity.
  - simpl. destruct (isWhiteSpace c); [reflexivity|].
    destruct (isWhiteSpace2 c d); reflexivity.
  - simpl. destruct (isWhiteSpace c); [reflexivity|].
    destruct (isWhiteSpace2 c d); [reflexivity|].
    destruct (isWhiteSpace3 c d e); reflexivity.
Qed.

Lemma trimStart_onlyWhiteSpace (s : string) :
  onlyWhiteSpace s = true -> trimStart s = "".
Proof.
  induction s as [s IH] using string_length_ind.
  rewrite onlyWhiteSpace_step, trimStart_step.
  destruct s as [|c rest]; [reflexivity|].
  destruct (afterWhiteSpace (String c rest)) as [after|] eqn:Hafter; [|discriminate].
  apply IH. by apply afterWhiteSpace_length.
Qed.

Lemma trimEnd_step (c : ascii) (rest : string) :
  trimEnd (String c rest) =
  if onlyWhiteSpace (String c rest) then "" else String c (trimEnd rest).
Proof. reflexivity. Qed.

Lemma trimEnd_onlyWhiteSpace (s : string) :
  onlyWhiteSpace s = true -> trimEnd s = "".
Proof.
  destruct s as [|c rest]; [reflexivity|]. intros Hs.
  by rewrite trimEnd_step, Hs.
Qed.

Lemma trim_onlyWhiteSpace (s : string) :
  onlyWhiteSpace s = true -> trim s = "".
Proof.
  intros Hs. unfold trim. rewrite trimStart_onlyWhiteSpace by assumption.
  reflexivity.
Qed.

Lemma blank_question (s : string) :
  onlyWhiteSpace s = true ->
  String.eqb s "" || String.eqb (trim s) "" = true.
Proof.
  intros Hs. rewrite (trim_onlyWhiteSpace _ Hs). apply orb_true_r.
Qed.

Lemma trimEnd_empty (s : string) : trimEnd s = "" -> onlyWhiteSpace s = true.
Proof.
  destruct s as [|c rest]; [reflexivity|]. rewrite trimEnd_step.
  destruct (onlyWhiteSpace (String c rest)); [reflexivity | discriminate].
Qed.

Lemma trimStart_blank (s : string) :
  onlyWhiteSpace (trimStart s) = true -> onlyWhiteSpace s = true.
Proof.
  induction s as [s IH] using string_length_ind.
  rewrite trimStart_step, (onlyWhiteSpace_step s).
  destruct s as [|c rest]; [reflexivity|].
  destruct (afterWhiteSpace (String c rest)) as [after|] eqn:Hafter.
  - apply IH. by apply afterWhiteSpace_length.
  - intros Hs. cbv beta iota in Hs.
    rewrite onlyWhiteSpace_step, Hafter in Hs. discriminate.
Qed.

Lemma trim_empty (s : string) : trim s = "" -> onlyWhiteSpace s = true.
Proof. intros Hs. by apply trimStart_blank, trimEnd_empty. Qed.

Lemma not_blank (s : string) :
  onlyWhiteSpace s = false -> String.eqb s "" || String.eqb (trim s) "" = false.
Proof.
  intros Hs. apply orb_false_intro; apply String.eqb_neq; intros Heq.
  - subst s. discriminate.
  - apply trim_empty in Heq. congruence.
Qed.

(** ** White space holds no letter *)

Lemma isWhiteSpace_not_E (c : ascii) : isWhiteSpace c = true -> isLetterE c = false.
Proof.
  destruct c as [[] [] [] [] [] [] [] []]; try discriminate; reflexivity.
Qed.

Lemma high_not_E (c : ascii) : 128 <= nat_of_ascii c -> isLetterE c = false.
Proof.
  intros Hc. unfold isLetterE. apply orb_false_intro; apply Nat.eqb_neq; lia.
Qed.

Lemma isWhiteSpace2_high (c d : ascii) :
  isWhiteSpace2 c d = true -> 128 <= nat_of_ascii c /\ 128 <= nat_of_ascii d.
Proof.
  unfold isWhiteSpace2. rewrite andb_true_iff, !Nat.eqb_eq. lia.
Qed.

Lemma isWhiteSpace3_high (c d e : ascii) :
  isWhiteSpace3 c d e = true ->
  128 <= nat_of_ascii c /\ 128 <= nat_of_ascii d /\ 128 <= nat_of_ascii e.
Proof.
  unfold isWhiteSpace3. cbv zeta.
  rewrite !orb_true_iff, !andb_true_iff, !orb_true_iff, !andb_true_iff,
    !Nat.eqb_eq, !Nat.leb_le.
  lia.
Qed.

Lemma afterWhiteSpace_no_E (s rest : string) :
  afterWhiteSpace s = Some rest ->
  anyByte isLetterE s = anyByte isLetterE rest.
Proof.
  destruct s as [|c rest1]; [discriminate|]. simpl.
  destruct (isWhiteSpace c) eqn:Hc.
  { intros [= <-]. by rewrite (isWhiteSpace_not_E c Hc). }
  destruct rest1 as [|d rest2]; [discriminate|].
  destruct (isWhiteSpace2 c d) eqn:Hcd.
  { intros [= <-]. apply isWhiteSpace2_high in Hcd as [Hc' Hd]. simpl.
    by rewrite (high_not_E c Hc'), (high_not_E d Hd). }
  destruct rest2 as [|e rest3]; [discriminate|].
  destruct (isWhiteSpace3 c d e) eqn:Hcde; [|discriminate].
  intros [= <-]. apply isWhiteSpace3_high in Hcde as (Hc' & Hd & He). simpl.
  by rewrite (high_not_E c Hc'), (high_not_E d Hd), (high_not_E e He).
Qed.

Lemma onlyWhiteSpace_no_E (s : string) :
  onlyWhiteSpace s = true -> anyByte isLetterE s = false.
Proof.
  induction s as [s IH] using string_length_ind.
  rewrite onlyWhiteSpace_step. destruct s as [|c rest]; [reflexivity|].
  destruct (afterWhiteSpace (String c rest)) as [after|] eqn:Hafter; [|discriminate].
  intros Hafter'. rewrite (afterWhiteSpace_no_E _ _ Hafter).
  apply IH; [by apply afterWhiteSpace_length | exact Hafter'].
Qed.

(** ** Upper case brings no letter E *)

Lemma anyByte_app (p : ascii -> bool) (s t : string) :
  anyByte p (s ++ t) = anyByte p s || anyByte p t.
Proof.
  induction s as [|c rest IH]; [reflexivity|]. simpl. by rewrite IH, orb_assoc.
Qed.

Lemma upperChar_E (c : ascii) : isLetterE (upperChar c) = isLetterE c.
Proof. destruct c as [[] [] [] [] [] [] [] []]; reflexivity. Qed.

Lemma upperSpecial2_no_E (c d : ascii) (upper : string) :
  upperSpecial2 c d = Some upper -> anyByte isLetterE upper = false.
Proof.
  unfold upperSpecial2. cbv zeta.
  repeat (destruct (_ && _); [intros [= <-]; reflexivity|]). discriminate.
Qed.

Lemma upperSpecial3_no_E (c d e : ascii) (upper : string) :
  upperSpecial3 c d e = Some upper -> anyByte isLetterE upper = false.
Proof.
  unfold upperSpecial3. cbv zeta.
  destruct (_ && _).
  { repeat (destruct (_ =? _)%nat; [intros [= <-]; reflexivity|]). discriminate. }
  destruct (_ && _); [|discriminate].
  repeat (destruct (_ =? _)%nat; [intros [= <-]; reflexivity|]). discriminate.
Qed.

Lemma toUpperCase_step (s : string) :
  toUpperCase s =
  match upperStep s with
  | Some (upper, rest) => upper ++ toUpperCase rest
  | None => ""
  end.
Proof.
  destruct s as [|c [|d [|e rest3]]]; try reflexivity.
  - simpl. destruct (upperSpecial2 c d); reflexivity.
  - simpl. destruct (upperSpecial2 c d); [reflexivity|].
    destruct (upperSpecial3 c d e); reflexivity.
Qed.

Lemma upperStep_spec (s upper rest : string) :
  upperStep s = Some (upper, rest) ->
  String.length rest < String.length s /\
  (anyByte isLetterE upper = true -> anyByte isLetterE s = true) /\
  (anyByte isLetterE rest = true -> anyByte isLetterE s = true).
Proof.
  assert (Hone : forall c rest1,
    String.length rest1 < String.length (String c rest1) /\
    (anyByte isLetterE (String (upperChar c) "") = true ->
     anyByte isLetterE (String c rest1) = true) /\
    (anyByte isLetterE rest1 = true -> anyByte isLetterE (String c rest1) = true)).
  { intros c rest1. simpl. rewrite upperChar_E, orb_false_r.
    split; [lia|]. split; intros ->; [reflexivity | apply orb_true_r]. }
  destruct s as [|c [|d rest2]]; [discriminate| |].
  - intros [= <- <-]. apply Hone.
  - simpl upperStep. destruct (upperSpecial2 c d) as [up2|] eqn:H2.
    { intros [= <- <-]. rewrite (upperSpecial2_no_E _ _ _ H2). simpl.
      split; [lia|]. split; [discriminate|]. intros ->. by rewrite !orb_true_r. }
    destruct rest2 as [|e rest3]; [intros [= <- <-]; apply Hone|].
    destruct (upperSpecial3 c d e) as [up3|] eqn:H3; [|intros [= <- <-]; apply Hone].
    intros [= <- <-]. rewrite (upperSpecial3_no_E _ _ _ _ H3). simpl.
    split; [lia|]. split; [discriminate|]. intros ->. by rewrite !orb_true_r.
Qed.

Lemma toUpperCase_E (s : string) :
  anyByte isLetterE (toUpperCase s) = true -> anyByte isLetterE s = true.
Proof.
  induction s as [s IH] using string_length_ind.
  rewrite toUpperCase_step.
  destruct (upperStep s) as [[upper rest]|] eqn:Hstep; [|discriminate].
  destruct (upperStep_spec _ _ _ Hstep) as (Hlen & Hupper & Hrest).
  rewrite anyByte_app. intros [Hu|Hr]%orb_prop; [by apply Hupper|].
  apply Hrest, IH; assumption.
Qed.

Lemma prefix_cons (a b : ascii) (s t : string) :
  String.prefix (String a s) (String b t) =
  if ascii_dec a b then String.prefix s t else false.
Proof. reflexivity. Qed.

Lemma includes_SELECT_E (s : string) :
  includes s "SELECT" = true -> anyByte isLetterE s = true.
Proof.
  induction s as [|c rest IH]; [discriminate|].
  cbn [includes]. intros [Hprefix|Hrest]%orb_prop.
  - rewrite prefix_cons in Hprefix.
    destruct (ascii_dec "S" c); [|discriminate].
    destruct rest as [|d rest']; [discriminate|].
    rewrite prefix_cons in Hprefix.
    destruct (ascii_dec "E" d) as [<-|]; [|discriminate].
    simpl. apply orb_true_r.
  - simpl. rewrite (IH Hrest). apply orb_true_r.
Qed.

(** Text in which the test for SELECT succeeds is not blank. *)
Lemma select_not_blank (s : string) :
  includes (toUpperCase s) "SELECT" = true -> onlyWhiteSpace s = false.
Proof.
  intros Hselect. destruct (onlyWhiteSpace s) eqn:Hs; [|reflexivity].
  apply includes_SELECT_E, toUpperCase_E in Hselect.
  rewrite (onlyWhiteSpace_no_E _ Hs) in Hselect. discriminate.
Qed.

(** ** Completions and computations *)

Lemma bind_Normal {A B} (c : completion A) (f : A -> completion B) (b : B) :
  c ≫= f = Normal b -> exists a, c = Normal a /\ f a = Normal b.
Proof. destruct c as [a|e]; simpl; [eauto | discriminate]. Qed.

Lemma run_then {A B} (w : collaborators) (p : prog A) (f : A -> prog B)
    (history : list call) :
  run w (p ≫= f) history =
  match run w p history with
  | (Normal a, after) => run w (f a) after
  | (Throw e, after) => (Throw e, after)
  end.
Proof.
  revert history. induction p as [[a|e]|r k IH|q ps k IH]; intros history;
    simpl; auto.
Qed.

Lemma run_catch {A} (w : collaborators) (p : prog A) (handler : error -> prog A)
    (history : list call) :
  run w (prog_catch p handler) history =
  match run w p history with
  | (Normal a, after) => (Normal a, after)
  | (Throw e, after) => run w (handler e) after
  end.
Proof.
  revert history. induction p as [[a|e]|r k IH|q ps k IH]; intros history;
    simpl; auto.
Qed.

(** ** The validator's filter *)

Lemma keptIndices_bounds (idx : nat) (nums : list float) (i : nat) :
  i ∈ keptIndices idx nums -> idx <= i < idx + length nums.
Proof.
  revert idx. induction nums as [|n rest IH]; intros idx; simpl.
  - intros Hi. inversion Hi.
  - destruct (PrimFloat.is_nan n).
    + intros Hi. apply IH in Hi. lia.
    + intros [->|Hi]%elem_of_cons; [lia|]. apply IH in Hi. lia.
Qed.

(** [keptIndices] lists exactly the positions that hold a number other
    than NaN. *)
Lemma keptIndices_spec (nums : list float) (i : nat) :
  i ∈ keptIndices 0 nums <->
  exists n, nums !! i = Some n /\ PrimFloat.is_nan n = false.
Proof.
  assert (Hgen : forall idx,
    i ∈ keptIndices idx nums <->
    exists n, idx <= i /\ nums !! (i - idx) = Some n /\ PrimFloat.is_nan n = false).
  { induction nums as [|n rest IH]; intros idx; simpl.
    - split; [intros Hi; inversion Hi | intros (n & _ & Hn & _); discriminate].
    - destruct (PrimFloat.is_nan n) eqn:Hnan.
      + rewrite IH. split.
        * intros (m & Hle & Hm & Hnum). exists m. split; [lia|].
          replace (i - idx) with (S (i - S idx)) by lia. auto.
        * intros (m & Hle & Hm & Hnum).
          destruct (i - idx) as [|j] eqn:Hj.
          { simpl in Hm. congruence. }
          exists m. split; [lia|]. replace (i - S idx) with j by lia. auto.
      + rewrite elem_of_cons, IH. split.
        * intros [->|(m & Hle & Hm & Hnum)].
          { exists n. rewrite Nat.sub_diag. auto. }
          exists m. split; [lia|].
          replace (i - idx) with (S (i - S idx)) by lia. auto.
        * intros (m & Hle & Hm & Hnum).
          destruct (i - idx) as [|j] eqn:Hj.
          { left. lia. }
          right. exists m. split; [lia|]. replace (i - S idx) with j by lia. auto. }
  rewrite Hgen. rewrite Nat.sub_0_r. split.
  - intros (n & _ & Hn). eauto.
  - intros (n & Hn). exists n. split; [lia | auto].
Qed.

(** The kept positions come in increasing order. *)
Lemma keptIndices_sorted (idx : nat) (nums : list float) :
  StronglySorted lt (keptIndices idx nums).
Proof.
  revert idx. induction nums as [|n rest IH]; intros idx; simpl.
  - constructor.
  - destruct (PrimFloat.is_nan n); [apply IH|].
    constructor; [apply IH|].
    apply Forall_forall. intros i Hi. apply keptIndices_bounds in Hi. lia.
Qed.

Lemma keptNumbers_length (idx : nat) (nums : list float) :
  length (keptNumbers nums) = length (keptIndices idx nums).
Proof.
  revert idx. induction nums as [|n rest IH]; intros idx; simpl; [reflexivity|].
  destruct (PrimFloat.is_nan n); simpl; auto.
Qed.

Lemma mapM_length {A B} (f : A -> completion B) (l : list A) (l' : list B) :
  mapM f l = Normal l' -> length l' = length l.
Proof.
  revert l'. induction l as [|a rest IH]; intros l'; simpl.
  - intros [= <-]. reflexivity.
  - intros (b & _ & (bs & Hbs & [= <-])%bind_Normal)%bind_Normal.
    simpl. f_equal. auto.
Qed.

Section ValidatorFacts.

Context `{Engine}.

Lemma markNumeric_Normal (values : list value) (nums : list float) (idx : nat) :
  mapM Number values = Normal nums ->
  exists marks, markNumeric idx values = Normal marks /\
                omap id marks = keptIndices idx nums.
Proof.
  revert nums idx. induction values as [|val rest IH]; intros nums idx; simpl.
  - intros [= <-]. exists []. auto.
  - intros (n & Hn & (ns & Hns & [= <-])%bind_Normal)%bind_Normal.
    rewrite Hn. simpl.
    destruct (IH ns (S idx) Hns) as (marks & Hmarks & Hkept).
    rewrite Hmarks. simpl. eexists. split; [reflexivity|].
    rewrite <- Hkept. destruct (PrimFloat.is_nan n); reflexivity.
Qed.

Lemma validIndicesOf_Normal (values : list value) (nums : list float) :
  mapM Number values = Normal nums ->
  validIndicesOf values = Normal (keptIndices 0 nums).
Proof.
  intros Hnums. unfold validIndicesOf.
  destruct (markNumeric_Normal values nums 0 Hnums) as (marks & -> & <-).
  reflexivity.
Qed.

Lemma mapM_Number_lookup (values : list value) (nums : list float)
    (i : nat) (n : float) :
  mapM Number values = Normal nums -> nums !! i = Some n ->
  Number (getIndex values i) = Normal n.
Proof.
  revert nums i. induction values as [|val rest IH]; intros nums i; simpl.
  - intros [= <-]. discriminate.
  - intros (m & Hm & (ns & Hns & [= <-])%bind_Normal)%bind_Normal.
    destruct i as [|i]; simpl.
    + intros [= <-]. exact Hm.
    + intros Hi. exact (IH ns i Hns Hi).
Qed.

Lemma numbersAt_kept (values : list value) (nums : list float) :
  mapM Number values = Normal nums ->
  numbersAt values (keptIndices 0 nums) = Normal (keptNumbers nums).
Proof.
  intros Hnums. unfold numbersAt.
  assert (Hgen : forall (later : list float) (idx : nat),
    (forall j n, later !! j = Some n -> nums !! (idx + j) = Some n) ->
    mapM (fun i => Number (getIndex values i)) (keptIndices idx later)
    = Normal (keptNumbers later)).
  { induction later as [|n rest IH]; intros idx Hlater; simpl; [reflexivity|].
    assert (Hrest : forall j m, rest !! j = Some m -> nums !! (S idx + j) = Some m).
    { intros j m Hj. replace (S idx + j) with (idx + S j) by lia.
      apply Hlater. exact Hj. }
    destruct (PrimFloat.is_nan n) eqn:Hnan; simpl.
    - apply IH. exact Hrest.
    - rewrite (mapM_Number_lookup values nums idx n Hnums).
      + simpl. rewrite (IH (S idx) Hrest). reflexivity.
      + replace idx with (idx + 0) by lia. apply Hlater. reflexivity. }
  apply Hgen. intros j n Hj. exact Hj.
Qed.

End ValidatorFacts.

(** ** Every response the validator returns is well formed *)

Lemma field_interpretation (i t : string) (d : gmap string value) :
  field (statisticsResponse i t d) "interpretation" = VStr i.
Proof. reflexivity. Qed.

Lemma statisticsType_response (i t : string) (d : gmap string value) :
  statisticsType (statisticsResponse i t d) = VStr t.
Proof. reflexivity. Qed.

Lemma statisticsData_response (i t : string) (d : gmap string value) (k : string) :
  statisticsData (statisticsResponse i t d) k = default VUndefined (d !! k).
Proof. reflexivity. Qed.

Lemma pieResponse_ok (i : string) (ls : list string) (vs : list float) :
  length ls = length vs ->
  wellFormed (statisticsResponse i "pie_chart" (pieData ls vs)).
Proof.
  intros Hlen. split.
  - split; [exists i; reflexivity | left; reflexivity].
  - split; rewrite statisticsType_response; [intros _|discriminate].
    exists (length ls). rewrite !statisticsData_response.
    split; eexists; (split; [reflexivity|]); rewrite length_fmap; auto.
Qed.

Lemma waterfallResponse_ok (i : string) (cs : list string) (vs : list float) :
  length cs = length vs -> 2 <= length cs ->
  wellFormed (statisticsResponse i "waterfall_chart" (waterfallData cs vs)).
Proof.
  intros Hlen Hmin. split.
  - split; [exists i; reflexivity | right; reflexivity].
  - split; rewrite statisticsType_response; [discriminate|intros _].
    exists (length cs). rewrite !statisticsData_response.
    split; [|split; [|assumption]]; eexists; (split; [reflexivity|]);
      rewrite length_fmap; auto.
Qed.

Lemma createErrorResponse_ok (msg : string) : wellFormed (createErrorResponse msg).
Proof. apply pieResponse_ok. reflexivity. Qed.

Lemma createPieChartErrorResponse_ok (msg : string) :
  wellFormed (createPieChartErrorResponse msg).
Proof. apply pieResponse_ok. reflexivity. Qed.

Lemma createWaterfallChartErrorResponse_ok (msg : string) :
  wellFormed (createWaterfallChartErrorResponse msg).
Proof. apply waterfallResponse_ok; simpl; lia. Qed.

Lemma fallbackResponse_ok (chartType : string) (data : list value) :
  wellFormed (fallbackResponse chartType data).
Proof.
  unfold fallbackResponse. destruct (String.eqb chartType "waterfall_chart").
  - apply waterfallResponse_ok; simpl; lia.
  - apply pieResponse_ok. reflexivity.
Qed.

Lemma noDataResponse_ok : wellFormed noDataResponse.
Proof. apply pieResponse_ok. reflexivity. Qed.

Lemma isText_eq (v : value) (t : string) : isText v t = true -> v = VStr t.
Proof.
  destruct v; simpl; try discriminate. intros ->%String.eqb_eq. reflexivity.
Qed.

Lemma statisticsData_withData (rp sp : gmap string value) (data : value)
    (k : string) :
  statisticsData (withData rp sp data) k = field data k.
Proof.
  unfold statisticsData, withData. simpl.
  rewrite lookup_insert_eq. simpl. rewrite lookup_insert_eq. reflexivity.
Qed.

Lemma statisticsType_withData (rp sp : gmap string value) (data t : value) :
  sp !! "type" = Some t -> statisticsType (withData rp sp data) = t.
Proof.
  intros Ht. unfold statisticsType, withData. simpl.
  rewrite lookup_insert_eq. simpl.
  rewrite lookup_insert_ne by discriminate. rewrite Ht. reflexivity.
Qed.

Lemma interpretation_withData (rp sp : gmap string value) (data : value) :
  field (withData rp sp data) "interpretation" =
  default VUndefined (rp !! "interpretation").
Proof.
  unfold withData. simpl. rewrite lookup_insert_ne by discriminate. reflexivity.
Qed.

Lemma withData_pie_ok (rp sp : gmap string value) (data : value) (text : string) :
  rp !! "interpretation" = Some (VStr text) ->
  sp !! "type" = Some (VStr "pie_chart") ->
  (exists n, arrayOfLength (field data "labels") n /\
             arrayOfLength (field data "values") n) ->
  wellFormed (withData rp sp data).
Proof.
  intros Hi Ht Hd.
  pose proof (statisticsType_withData rp sp data _ Ht) as Htype.
  split.
  - split; [|left; exact Htype].
    exists text. rewrite interpretation_withData, Hi. reflexivity.
  - split; rewrite Htype; [intros _|discriminate].
    rewrite !statisticsData_withData. exact Hd.
Qed.

Lemma withData_waterfall_ok (rp sp : gmap string value) (data : value)
    (text : string) :
  rp !! "interpretation" = Some (VStr text) ->
  sp !! "type" = Some (VStr "waterfall_chart") ->
  (exists n, arrayOfLength (field data "categories") n /\
             arrayOfLength (field data "values") n /\ 2 <= n) ->
  wellFormed (withData rp sp data).
Proof.
  intros Hi Ht Hd.
  pose proof (statisticsType_withData rp sp data _ Ht) as Htype.
  split.
  - split; [|right; exact Htype].
    exists text. rewrite interpretation_withData, Hi. reflexivity.
  - split; rewrite Htype; [discriminate|intros _].
    rewrite !statisticsData_withData. exact Hd.
Qed.

Section ValidatorSoundness.

Context `{Engine}.

Lemma getProp_truthy (v : value) (key : string) (x : value) :
  getProp v key = Normal x -> truthy x = true ->
  exists props, v = VObj props /\ props !! key = Some x.
Proof.
  destruct v as [| | | | | |props]; simpl; try discriminate;
    try (intros [= <-]; discriminate).
  intros [= <-] Hx. exists props. split; [reflexivity|].
  destruct (props !! key); [reflexivity | discriminate].
Qed.

Lemma relabelEnds_length (cats : list value) (vals : list float)
    (cats' : list value) :
  relabelEnds cats vals = Normal cats' -> length cats' = length cats.
Proof.
  unfold relabelEnds.
  destruct (2 <=? length cats)%nat; [|intros [= <-]; reflexivity].
  intros (zs & _ & (ne & _ & (nt & _ & Hout)%bind_Normal)%bind_Normal)%bind_Normal.
  injection Hout as <-.
  destruct (ne && nt), zs; rewrite ?length_insert; reflexivity.
Qed.

Lemma defaultText_obj (dp : gmap string value) (key text : string) (d : value) :
  defaultText (VObj dp) key text = Normal d ->
  exists dp', d = VObj dp' /\ forall k, k <> key -> dp' !! k = dp !! k.
Proof.
  unfold defaultText. simpl.
  destruct (negb _); intros [= <-]; eexists; (split; [reflexivity|]).
  - intros k Hk. by rewrite lookup_insert_ne.
  - auto.
Qed.

Lemma validatePie_sound (data : value) (checked : value + value) :
  validatePie data = Normal checked ->
  match checked with
  | inl d => exists n, arrayOfLength (field d "labels") n /\
                       arrayOfLength (field d "values") n
  | inr e => exists msg, e = createPieChartErrorResponse msg
  end.
Proof.
  unfold validatePie.
  intros (labels & Hlabels & Hrest)%bind_Normal.
  destruct (truthy labels) eqn:Htl; simpl in Hrest.
  2:{ injection Hrest as <-. eauto. }
  apply bind_Normal in Hrest as (values & Hvalues & Hrest).
  destruct labels as [| | | | |ls|]; try (injection Hrest as <-; eauto; fail).
  destruct values as [| | | | |vs|]; try (injection Hrest as <-; eauto; fail).
  apply bind_Normal in Hrest as (idxs & Hidxs & Hrest).
  destruct (length idxs =? 0)%nat.
  { injection Hrest as <-. eauto. }
  destruct data as [| | | | | |dp]; try discriminate.
  simpl in Hrest.
  apply bind_Normal in Hrest as (nums & Hnums & Hrest).
  apply mapM_length in Hnums.
  simpl in Hrest.
  assert (Hshape : exists dp', (checked = inl (VObj dp')) /\
     dp' !! "labels" = Some (VArr ((fun idx => getIndex ls idx) <$> idxs)) /\
     dp' !! "values" = Some (VArr (VNum <$> nums))).
  { destruct (negb _); injection Hrest as <-; eexists; (split; [reflexivity|]);
      split; by simplify_map_eq. }
  destruct Hshape as (dp' & -> & Hl & Hv).
  exists (length idxs). unfold arrayOfLength, field. rewrite Hl, Hv. simpl.
  split; eexists; (split; [reflexivity|]); rewrite length_fmap; congruence.
Qed.

Lemma validateWaterfall_sound (data : value) (checked : value + value) :
  validateWaterfall data = Normal checked ->
  match checked with
  | inl d => exists n, arrayOfLength (field d "categories") n /\
                       arrayOfLength (field d "values") n /\ 2 <= n
  | inr e => exists msg, e = createWaterfallChartErrorResponse msg
  end.
Proof.
  unfold validateWaterfall.
  intros (categories & Hcategories & Hrest)%bind_Normal.
  destruct (truthy categories) eqn:Htl; simpl in Hrest.
  2:{ injection Hrest as <-. eauto. }
  apply bind_Normal in Hrest as (values & Hvalues & Hrest).
  destruct categories as [| | | | |cs|]; try (injection Hrest as <-; eauto; fail).
  destruct values as [| | | | |vs|]; try (injection Hrest as <-; eauto; fail).
  apply bind_Normal in Hrest as (idxs & Hidxs & Hrest).
  destruct (length idxs <? 2)%nat eqn:Hlen.
  { injection Hrest as <-. eauto. }
  apply Nat.ltb_ge in Hlen.
  destruct data as [| | | | | |dp]; try discriminate.
  simpl in Hrest.
  apply bind_Normal in Hrest as (nums & Hnums & Hrest).
  apply mapM_length in Hnums.
  simpl in Hrest.
  apply bind_Normal in Hrest as (relabelled & Hrel & Hrest).
  apply relabelEnds_length in Hrel. rewrite length_fmap in Hrel.
  simpl in Hrest.
  apply bind_Normal in Hrest as (d1 & Hd1 & Hrest).
  apply defaultText_obj in Hd1 as (dp1 & -> & Hdp1).
  apply bind_Normal in Hrest as (d2 & Hd2 & Hrest).
  apply defaultText_obj in Hd2 as (dp2 & -> & Hdp2).
  apply bind_Normal in Hrest as (d3 & Hd3 & Hrest).
  apply defaultText_obj in Hd3 as (dp3 & -> & Hdp3).
  injection Hrest as <-.
  exists (length idxs). unfold arrayOfLength, field.
  rewrite !Hdp3, !Hdp2, !Hdp1 by discriminate.
  simplify_map_eq. simpl.
  split; [|split; [|assumption]]; eexists; (split; [reflexivity|]);
    rewrite ?length_fmap; congruence.
Qed.

(** After line 46 the interpretation of an object is a string. *)
Lemma interpretation_is_text (response interp response' : value)
    (rp' : gmap string value) :
  getProp response "interpretation" = Normal interp ->
  (if negb (truthy interp) || negb (isString interp)
   then setProp response "interpretation"
          (VStr "Analysis generated but no interpretation provided.")
   else Normal response) = Normal response' ->
  response' = VObj rp' ->
  exists text, rp' !! "interpretation" = Some (VStr text).
Proof.
  intros Hinterp Hset ->.
  destruct (negb (truthy interp) || negb (isString interp)) eqn:Hbad.
  - destruct response; simpl in Hset; try discriminate.
    injection Hset as <-. eexists. apply lookup_insert_eq.
  - injection Hset as ->. apply orb_false_elim in Hbad as [Ht Hs].
    apply negb_false_iff in Ht, Hs.
    destruct interp; try discriminate.
    apply getProp_truthy in Hinterp as (props & [= <-] & Hprops); eauto.
Qed.

Lemma validateResponse_sound (response out : value) :
  validateResponse response = Normal out -> wellFormed out.
Proof.
  unfold validateResponse.
  intros (interp & Hinterp & (response' & Hresponse' & Hrest)%bind_Normal)%bind_Normal.
  apply bind_Normal in Hrest as (statistics & Hstatistics & Hrest).
  destruct (truthy statistics) eqn:Hts; simpl in Hrest;
    [|injection Hrest as <-; apply createErrorResponse_ok].
  apply bind_Normal in Hrest as (type & Htype & Hrest).
  destruct (truthy type) eqn:Htt; simpl in Hrest;
    [|injection Hrest as <-; apply createErrorResponse_ok].
  apply getProp_truthy in Hstatistics as (rp' & -> & Hrp'); [|assumption].
  apply getProp_truthy in Htype as (sp & -> & Hsp); [|assumption].
  destruct (interpretation_is_text _ _ _ rp' Hinterp Hresponse' eq_refl)
    as (text & Htext).
  destruct (isText type "pie_chart") eqn:Hpie; simpl in Hrest.
  - apply isText_eq in Hpie as ->.
    destruct (sp !! "data") as [data|] eqn:Hdata; simpl in Hrest;
      [|injection Hrest as <-; apply createErrorResponse_ok].
    destruct (truthy data) eqn:Htd; simpl in Hrest;
      [|injection Hrest as <-; apply createErrorResponse_ok].
    destruct (validatePie data) as [[d|e]|err] eqn:Hcheck; simpl in Hrest;
      injection Hrest as <-.
    + apply validatePie_sound in Hcheck.
      eapply withData_pie_ok; eassumption.
    + apply validatePie_sound in Hcheck as (msg & ->).
      apply createPieChartErrorResponse_ok.
    + apply createErrorResponse_ok.
  - destruct (isText type "waterfall_chart") eqn:Hwaterfall; simpl in Hrest.
    2:{ apply bind_Normal in Hrest as (shown & _ & [= <-]).
        apply createErrorResponse_ok. }
    apply isText_eq in Hwaterfall as ->.
    destruct (sp !! "data") as [data|] eqn:Hdata; simpl in Hrest;
      [|injection Hrest as <-; apply createErrorResponse_ok].
    destruct (truthy data) eqn:Htd; simpl in Hrest;
      [|injection Hrest as <-; apply createErrorResponse_ok].
    destruct (validateWaterfall data) as [[d|e]|err] eqn:Hcheck; simpl in Hrest;
      injection Hrest as <-.
    + apply validateWaterfall_sound in Hcheck.
      eapply withData_waterfall_ok; eassumption.
    + apply validateWaterfall_sound in Hcheck as (msg & ->).
      apply createWaterfallChartErrorResponse_ok.
    + apply createErrorResponse_ok.
Qed.

End ValidatorSoundness.

(** ** The retry loop against a behaviour of the model *)

Section LoopFacts.

Context `{Engine}.

Lemma run_attempt (w : collaborators) (sch : schema) (ct q ser : string)
    (cr : nat) (h : list call) :
  run w (attempt sch ct q ser cr) h =
  (Normal (attemptResult (model w h (shapeRequest sch ct q ser cr))),
   ResponsesCreate (shapeRequest sch ct q ser cr) :: h).
Proof.
  unfold attempt, create, shapeRequest. simpl.
  destruct (model w h _) as [content|e]; simpl; [|reflexivity].
  destruct (checkContent content) as [[v|]|e]; reflexivity.
Qed.

(** The do-while loop makes the attempts [0], [1], [2] and no other. *)
Lemma run_retryLoop (w : collaborators) (sch : schema) (ct q ser : string)
    (h : list call) :
  run w (retryLoop (attempt sch ct q ser) 0) h =
  (Normal (attemptsFrom w sch ct q ser maxRetries 0 h).1,
   (attemptsFrom w sch ct q ser maxRetries 0 h).2).
Proof.
  rewrite retryLoop_equation_1, run_then, run_attempt. simpl.
  destruct (attemptResult _); [reflexivity|].
  destruct (lt_dec 1 maxRetries) as [_|Hn]; [|unfold maxRetries in Hn; lia].
  rewrite retryLoop_equation_1, run_then, run_attempt. simpl.
  destruct (attemptResult _); [reflexivity|].
  destruct (lt_dec 2 maxRetries) as [_|Hn]; [|unfold maxRetries in Hn; lia].
  rewrite retryLoop_equation_1, run_then, run_attempt. simpl.
  destruct (attemptResult _); [reflexivity|].
  destruct (lt_dec 3 maxRetries) as [Hn|_]; [unfold maxRetries in Hn; lia|].
  reflexivity.
Qed.

Lemma attemptResult_wellFormed (answer : completion string) (valid : value) :
  attemptResult answer = Some valid -> wellFormed valid.
Proof.
  destruct answer as [content|e]; simpl; [|discriminate].
  destruct (checkContent content) as [[v|]|e] eqn:Hcheck; try discriminate.
  intros [= <-]. unfold checkContent in Hcheck.
  apply bind_Normal in Hcheck as (validated & Hvalidated & Hcheck).
  apply bind_Normal in Hcheck as (invalid & _ & Hcheck).
  destruct (negb invalid); [|discriminate].
  apply bind_Normal in Hcheck as (err & _ & Hcheck).
  destruct (negb err); [|discriminate].
  injection Hcheck as <-. exact (validateResponse_sound _ _ Hvalidated).
Qed.

Lemma attemptsFrom_spec (w : collaborators) (sch : schema) (ct q ser : string)
    (budget cr : nat) (h : list call) :
  shapeBounded sch budget (attemptsFrom w sch ct q ser budget cr h).2 h /\
  (forall valid, (attemptsFrom w sch ct q ser budget cr h).1 = Some valid ->
                 wellFormed valid).
Proof.
  revert cr h. induction budget as [|budget IH]; intros cr h; simpl.
  - split; [|discriminate]. exists []. repeat split; [simpl; lia | constructor].
  - destruct (attemptResult _) as [valid|] eqn:Hresult; simpl.
    + split.
      * exists [ResponsesCreate (shapeRequest sch ct q ser cr)].
        repeat split; [simpl; lia|].
        constructor; [|constructor]. intros _. eexists. reflexivity.
      * intros v [= <-]. exact (attemptResult_wellFormed _ _ Hresult).
    + destruct (IH (S cr) (ResponsesCreate (shapeRequest sch ct q ser cr) :: h))
        as [(extra & Hextra & Hlen & Hall) Hvalid].
      split; [|exact Hvalid].
      exists (extra ++ [ResponsesCreate (shapeRequest sch ct q ser cr)])%list.
      repeat split.
      * rewrite Hextra, <- app_assoc. reflexivity.
      * unfold shapeCalls in *. rewrite List.filter_app, length_app. simpl. lia.
      * apply Forall_app. split; [exact Hall|].
        constructor; [|constructor]. intros _. eexists. reflexivity.
Qed.

(** When no attempt succeeds the loop makes all of them and accepts
    nothing. *)
Lemma attemptsFrom_failed (w : collaborators) (sch : schema) (ct q ser : string)
    (h : list call) (budget : nat) :
  (forall n, n < budget -> attemptResult (answerAt w sch ct q ser n h) = None) ->
  attemptsFrom w sch ct q ser budget 0 h =
  (None, failedAttempts sch ct q ser budget h).
Proof.
  assert (Hgen : forall rest cr,
    (forall n, n < rest ->
       attemptResult (answerAt w sch ct q ser (cr + n) h) = None) ->
    attemptsFrom w sch ct q ser rest cr (failedAttempts sch ct q ser cr h) =
    (None, failedAttempts sch ct q ser (cr + rest) h)).
  { induction rest as [|rest IH]; intros cr Hfail; simpl.
    - rewrite Nat.add_0_r. reflexivity.
    - pose proof (Hfail 0 ltac:(lia)) as H0. rewrite Nat.add_0_r in H0.
      unfold answerAt in H0. rewrite H0.
      replace (cr + S rest) with (S cr + rest) by lia.
      apply (IH (S cr)). intros n Hn.
      replace (S cr + n) with (cr + S n) by lia. apply Hfail. lia. }
  intros Hfail. apply (Hgen budget 0). exact Hfail.
Qed.

(** The loop makes attempt 0, and after a failed attempt the next one while
    the budget lasts: its calls are the requests of the attempts 0 to n-1,
    for an n between 1 and the budget. *)
Lemma attemptsFrom_trace (w : collaborators) (sch : schema) (ct q ser : string)
    (h : list call) (budget : nat) :
  0 < budget ->
  exists n, 1 <= n <= budget /\
    (attemptsFrom w sch ct q ser budget 0 h).2 = failedAttempts sch ct q ser n h.
Proof.
  assert (Hgen : forall rest cr, 0 < rest ->
    exists n, 1 <= n <= rest /\
      (attemptsFrom w sch ct q ser rest cr (failedAttempts sch ct q ser cr h)).2 =
      failedAttempts sch ct q ser (cr + n) h).
  { induction rest as [|rest IH]; intros cr Hrest; [lia|].
    cbn [attemptsFrom]. cbn zeta. destruct (attemptResult _) as [valid|].
    - exists 1. split; [lia|]. rewrite Nat.add_1_r. reflexivity.
    - destruct rest as [|rest].
      + exists 1. split; [lia|]. rewrite Nat.add_1_r. reflexivity.
      + destruct (IH (S cr) ltac:(lia)) as (n & Hn & Htrace).
        exists (S n). split; [lia|].
        replace (cr + S n) with (S cr + n) by lia. exact Htrace. }
  intros Hbudget. exact (Hgen budget 0 Hbudget).
Qed.

(** The loop asks for shapes only, always with the schema it was given. *)
Lemma attemptsFrom_calls (w : collaborators) (sch : schema) (ct q ser : string)
    (budget cr : nat) (h : list call) :
  exists made, (attemptsFrom w sch ct q ser budget cr h).2 = (made ++ h)%list /\
    length made <= budget /\
    Forall (fun c => exists p, c = ResponsesCreate (Request p (Some sch))) made.
Proof.
  revert cr h. induction budget as [|budget IH]; intros cr h; simpl.
  - exists []. repeat split; [simpl; lia | constructor].
  - destruct (attemptResult _) as [valid|]; simpl.
    + exists [ResponsesCreate (shapeRequest sch ct q ser cr)].
      repeat split; [simpl; lia|].
      constructor; [|constructor]. eexists. reflexivity.
    + destruct (IH (S cr) (ResponsesCreate (shapeRequest sch ct q ser cr) :: h))
        as (made & -> & Hlen & Hall).
      exists (made ++ [ResponsesCreate (shapeRequest sch ct q ser cr)])%list.
      repeat split.
      * rewrite <- app_assoc. reflexivity.
      * rewrite length_app. simpl. lia.
      * apply Forall_app. split; [exact Hall|].
        constructor; [|constructor]. eexists. reflexivity.
Qed.

(** An attempt whose validated response reads like an error is a failed
    attempt (lines 582-591). *)
Lemma errorLike_attempt_fails (content : string) (validated : value)
    (text : string) :
  validateResponse (parseContent content) = Normal validated ->
  field validated "interpretation" = VStr text ->
  includes text "Invalid" || includes text "Error" = true ->
  attemptResult (Normal content) = None.
Proof.
  intros Hvalidated Htext Hlike. unfold attemptResult, checkContent.
  rewrite Hvalidated. simpl.
  destruct validated as [| | | | | |props]; try discriminate.
  unfold interpretationIncludes. simpl in *. rewrite Htext. simpl.
  destruct (includes text "Invalid"); simpl; [reflexivity|].
  simpl in Hlike. rewrite Hlike. reflexivity.
Qed.

End LoopFacts.

(** ** The pipeline against a behaviour of the collaborators *)

Section PipelineFacts.

Context `{Engine}.

Lemma run_generateAnalysis (w : collaborators) (data : list value) (q : string)
    (h : list call) :
  run w (generateAnalysis data q) h =
  match data with
  | [] => (Normal noDataResponse, h)
  | _ :: _ =>
      let asked := ResponsesCreate (classifierRequest data q) :: h in
      match model w h (classifierRequest data q) with
      | Throw e => (Throw e, asked)
      | Normal output_text =>
          let chartType := chartTypeOf output_text in
          let loop := attemptsFrom w (schemaFor chartType) chartType q
                        (JSON_stringify data) maxRetries 0 asked in
          (Normal (match loop.1 with
                   | Some valid => valid
                   | None => fallbackResponse chartType data
                   end), loop.2)
      end
  end.
Proof.
  unfold generateAnalysis. destruct data as [|row rows]; [reflexivity|].
  cbn [length Nat.eqb]. unfold create.
  change (run w (AwaitCreate ?r Settled ≫= ?f) h)
    with (run w (prog_then f (Settled (model w h r))) (ResponsesCreate r :: h)).
  unfold classifierRequest.
  destruct (model w h _) as [output_text|e]; [|reflexivity].
  cbn [prog_then]. rewrite run_then, run_retryLoop.
  unfold chartTypeOf, schemaFor.
  destruct (attemptsFrom _ _ _ _ _ _ _ _) as [[valid|] after]; reflexivity.
Qed.

Lemma shapeBounded_refl (sch : schema) (n : nat) (h : list call) :
  shapeBounded sch n h h.
Proof. exists []. repeat split; [simpl; lia | constructor]. Qed.

Lemma shapeBounded_cons (sch : schema) (n : nat) (after h : list call)
    (c : call) :
  isShapeCall c = false -> shapeBounded sch n after (c :: h) ->
  shapeBounded sch n after h.
Proof.
  intros Hc (extra & -> & Hlen & Hall). exists (extra ++ [c])%list.
  repeat split.
  - rewrite <- app_assoc. reflexivity.
  - unfold shapeCalls in *. rewrite List.filter_app, length_app. simpl.
    rewrite Hc. simpl. lia.
  - apply Forall_app. split; [exact Hall|].
    constructor; [|constructor]. rewrite Hc. discriminate.
Qed.

(** [generateAnalysis] settles; when it fulfils, the response is well
    formed; it makes at most [maxRetries] shape requests. *)
Lemma generateAnalysis_run (w : collaborators) (data : list value) (q : string)
    (h : list call) :
  exists c after, run w (generateAnalysis data q) h = (c, after) /\
    (forall r, c = Normal r -> wellFormed r) /\
    (exists sch, shapeBounded sch maxRetries after h).
Proof.
  rewrite run_generateAnalysis. destruct data as [|row rows].
  - eexists _, _. split; [reflexivity|]. split.
    + intros r [= <-]. apply noDataResponse_ok.
    + exists simplePieChartSchema. apply shapeBounded_refl.
  - cbn zeta. destruct (model w h _) as [output_text|e].
    + destruct (attemptsFrom_spec w (schemaFor (chartTypeOf output_text))
                  (chartTypeOf output_text) q (JSON_stringify (row :: rows))
                  maxRetries 0
                  (ResponsesCreate (classifierRequest (row :: rows) q) :: h))
        as [Hbound Hvalid].
      destruct (attemptsFrom w _ _ _ _ _ _ _) as [result after].
      cbn [fst snd] in *.
      eexists _, _. split; [reflexivity|]. split.
      * intros r [= <-]. destruct result as [valid|].
        -- apply Hvalid. reflexivity.
        -- apply fallbackResponse_ok.
      * eexists. eapply shapeBounded_cons; [|exact Hbound]. reflexivity.
    + eexists _, _. split; [reflexivity|]. split; [discriminate|].
      exists simplePieChartSchema.
      eapply shapeBounded_cons; [|apply shapeBounded_refl]. reflexivity.
Qed.

Lemma shapeBounded_app (sch : schema) (n : nat) (after extra h : list call) :
  shapeCalls extra = [] -> shapeBounded sch n after (extra ++ h)%list ->
  shapeBounded sch n after h.
Proof.
  intros Hnone (more & -> & Hlen & Hall). exists (more ++ extra)%list.
  repeat split.
  - rewrite app_assoc. reflexivity.
  - unfold shapeCalls in *. rewrite List.filter_app, length_app, Hnone.
    simpl. lia.
  - apply Forall_app. split; [exact Hall|].
    apply Forall_forall. intros c Hc Hshape.
    assert (Hin : c ∈ shapeCalls extra).
    { unfold shapeCalls. apply list_elem_of_In, List.filter_In.
      split; [apply list_elem_of_In; exact Hc | exact Hshape]. }
    rewrite Hnone in Hin. inversion Hin.
Qed.

Lemma run_generateSqlQuery (w : collaborators) (q : string) (h : list call) :
  exists c extra, run w (generateSqlQuery q) h = (c, (extra ++ h)%list) /\
                  shapeCalls extra = [].
Proof.
  unfold generateSqlQuery.
  destruct (String.eqb q "" || String.eqb (trim q) "").
  - exists (Throw (Error "Error"
              "Invalid question: Question must be a non-empty string")), [].
    split; reflexivity.
  - unfold create. simpl.
    destruct (model w h _) as [output_text|e]; simpl.
    + destruct (negb _); eexists _, [_]; split; reflexivity.
    + eexists _, [_]. split; reflexivity.
Qed.

Lemma run_makeQuery (w : collaborators) (query : string) (params : list value)
    (h : list call) :
  exists c extra, run w (makeQuery query params) h = (c, (extra ++ h)%list) /\
                  shapeCalls extra = [].
Proof.
  unfold makeQuery.
  destruct (String.eqb query "" || String.eqb (trim query) "").
  - exists (Throw (Error "Error"
              "Invalid query: Query must be a non-empty string")), [].
    split; reflexivity.
  - simpl. destruct (database w h query params); eexists _, [_];
      split; reflexivity.
Qed.

(** The orchestrator fulfils with a well-formed response, whatever the
    collaborators do, and makes at most [maxRetries] shape requests. *)
Lemma analyzeStatisticalQuestion_run (w : collaborators) (q : string)
    (h : list call) :
  exists r after, run w (analyzeStatisticalQuestion q) h = (Normal r, after) /\
    wellFormed r /\ (exists sch, shapeBounded sch maxRetries after h).
Proof.
  unfold analyzeStatisticalQuestion.
  destruct (String.eqb q "" || String.eqb (trim q) "").
  { eexists _, _. split; [reflexivity|]. split; [apply createErrorResponse_ok|].
    exists simplePieChartSchema. apply shapeBounded_refl. }
  rewrite run_catch, run_then.
  assert (Hfail : forall e after,
    (exists sch, shapeBounded sch maxRetries after h) ->
    exists r after',
      run w (mret (createErrorResponse ("Analysis failed: " ++ message e))) after
      = (Normal r, after') /\ wellFormed r /\
      (exists sch, shapeBounded sch maxRetries after' h)).
  { intros e after Hafter. eexists _, _. split; [reflexivity|].
    split; [apply createErrorResponse_ok | exact Hafter]. }
  destruct (run_generateSqlQuery w q h) as (c1 & extra1 & -> & Hnone1).
  destruct c1 as [sqlQuery|e].
  2:{ apply Hfail. exists simplePieChartSchema.
      apply (shapeBounded_app _ _ _ extra1); [assumption | apply shapeBounded_refl]. }
  rewrite run_then.
  destruct (run_makeQuery w sqlQuery [] (extra1 ++ h)%list)
    as (c2 & extra2 & -> & Hnone2).
  destruct c2 as [rows|e].
  2:{ apply Hfail. exists simplePieChartSchema.
      apply (shapeBounded_app _ _ _ extra1); [assumption|].
      apply (shapeBounded_app _ _ _ extra2); [assumption | apply shapeBounded_refl]. }
  destruct (generateAnalysis_run w rows q (extra2 ++ extra1 ++ h)%list)
    as (c3 & after3 & -> & Hwell & (sch3 & Hbound3)).
  assert (Hbound : exists sch, shapeBounded sch maxRetries after3 h).
  { exists sch3.
    apply (shapeBounded_app _ _ _ extra1); [assumption|].
    apply (shapeBounded_app _ _ _ extra2); assumption. }
  destruct c3 as [r|e]; [|apply Hfail; exact Hbound].
  eexists _, _. split; [reflexivity|].
  split; [apply Hwell; reflexivity | exact Hbound].
Qed.

(** When the three attempts fail, [generateAnalysis] fulfils with the
    fallback after asking for a shape three times. *)
Lemma generateAnalysis_exhausted (w : collaborators) (data : list value)
    (q : string) (history : list call) (output_text : string) :
  data <> [] ->
  model w history (classifierRequest data q) = Normal output_text ->
  (forall n, n < maxRetries ->
     attemptResult
       (answerAt w (schemaFor (chartTypeOf output_text)) (chartTypeOf output_text)
          q (JSON_stringify data) n
          (ResponsesCreate (classifierRequest data q) :: history)) = None) ->
  run w (generateAnalysis data q) history =
  (Normal (fallbackResponse (chartTypeOf output_text) data),
   failedAttempts (schemaFor (chartTypeOf output_text)) (chartTypeOf output_text)
     q (JSON_stringify data) maxRetries
     (ResponsesCreate (classifierRequest data q) :: history)).
Proof.
  intros Hdata Hclassified Hfail. rewrite run_generateAnalysis.
  destruct data as [|row rows]; [contradiction|].
  rewrite Hclassified. cbn zeta.
  rewrite (attemptsFrom_failed _ _ _ _ _ _ _ Hfail). reflexivity.
Qed.

End PipelineFacts.

(** ** What the validator keeps and rewrites *)

Section ValidatorRepair.
Context `{Engine}.

Lemma insert_getIndex (l : list value) (i : nat) : <[i := getIndex l i]> l = l.
Proof.
  unfold getIndex. destruct (l !! i) as [x|] eqn:Hi; simpl.
  - apply list_insert_id. exact Hi.
  - apply list_insert_ge. apply lookup_ge_None. exact Hi.
Qed.

Lemma relabelEnds_text (cats : list value) (vals : list float) :
  2 <= length cats -> endLabelsAreText cats vals ->
  relabelEnds cats vals = Normal (relabelled cats vals).
Proof.
  intros Hlen [Hfirst (lastText & Hlast)]. unfold relabelEnds, relabelled.
  destruct (2 <=? length cats)%nat eqn:Hle; [|apply Nat.leb_gt in Hle; lia].
  assert (Hlast' : forall x, getIndex (<[0 := x]> cats) (length cats - 1) = VStr lastText).
  { intros x. unfold getIndex. rewrite list_lookup_insert_ne by lia. rewrite Hlast. reflexivity. }
  assert (HgetLast : getIndex cats (length cats - 1) = VStr lastText).
  { unfold getIndex. rewrite Hlast. reflexivity. }
  assert (HkeepLast : forall l : list value,
            l !! (length cats - 1) = Some (VStr lastText) ->
            <[length cats - 1 := VStr lastText]> l = l).
  { intros l Hl. apply list_insert_id. exact Hl. }
  rewrite HgetLast.
  destruct (PrimFloat.eqb (default PrimFloat.nan (vals !! 0)) 0) eqn:Hzero.
  - destruct (Hfirst eq_refl) as (firstText & Hfirst0).
    assert (HgetFirst : getIndex cats 0 = VStr firstText).
    { unfold getIndex. rewrite Hfirst0. reflexivity. }
    rewrite HgetFirst. simpl.
    destruct (includes (toLowerCase firstText) "start") eqn:Hstart; simpl;
      rewrite ?length_insert, ?Hlast', ?HgetLast; simpl;
      destruct (includes (toLowerCase lastText) "end"); simpl;
      rewrite ?Hlast', ?HgetLast; simpl;
      try destruct (includes (toLowerCase lastText) "total"); simpl;
      try rewrite Hzero; simpl;
      try rewrite (list_insert_id cats 0 (VStr firstText) Hfirst0);
      try rewrite HkeepLast by (rewrite ?list_lookup_insert_ne by lia; exact Hlast);
      reflexivity.
  - simpl. rewrite HgetLast. simpl.
    assert (Hsame : <[0 := relabelStart (default PrimFloat.nan (vals !! 0)) (getIndex cats 0)]> cats = cats).
    { unfold relabelStart. rewrite Hzero. simpl.
      destruct (getIndex cats 0) eqn:Hg; rewrite <- Hg; apply insert_getIndex. }
    rewrite Hsame.
    destruct (includes (toLowerCase lastText) "end"); simpl;
      rewrite ?HgetLast; simpl;
      try destruct (includes (toLowerCase lastText) "total"); simpl;
      try rewrite HkeepLast by exact Hlast; reflexivity.
Qed.

Lemma defaultText_withDefaultText (dp : gmap string value) (key text : string) :
  defaultText (VObj dp) key text = Normal (VObj (withDefaultText dp key text)).
Proof.
  unfold defaultText, withDefaultText. simpl.
  destruct (truthy (default VUndefined (dp !! key))); reflexivity.
Qed.

(** The pie branch, once the values were coerced. *)
Lemma validatePie_numeric (dp : gmap string value) (ls vs : list value)
    (nums : list float) :
  dp !! "labels" = Some (VArr ls) -> dp !! "values" = Some (VArr vs) ->
  mapM Number vs = Normal nums ->
  validatePie (VObj dp) =
  Normal (if (length (keptIndices 0 nums) =? 0)%nat
          then inr (createPieChartErrorResponse "Invalid pie chart data: no valid numeric values")
          else inl (acceptedPie dp ls nums)).
Proof.
  intros Hl Hv Hnums. unfold validatePie. simpl. rewrite Hl, Hv. simpl.
  rewrite (validIndicesOf_Normal _ _ Hnums). simpl.
  destruct (length (keptIndices 0 nums) =? 0)%nat; [reflexivity|].
  rewrite (numbersAt_kept _ _ Hnums). simpl.
  unfold acceptedPie, pieColors.
  rewrite !lookup_insert_ne by discriminate.
  destruct (truthy (default VUndefined (dp !! "colors"))); reflexivity.
Qed.

(** The waterfall branch, once the values were coerced and when the end
    labels it inspects are strings. *)
Lemma validateWaterfall_numeric (dp : gmap string value) (cs vs : list value)
    (nums : list float) :
  dp !! "categories" = Some (VArr cs) -> dp !! "values" = Some (VArr vs) ->
  mapM Number vs = Normal nums ->
  (2 <= length (keptIndices 0 nums) ->
   endLabelsAreText (keptCategories cs (keptIndices 0 nums)) (keptNumbers nums)) ->
  validateWaterfall (VObj dp) =
  Normal (if (length (keptIndices 0 nums) <? 2)%nat
          then inr (createWaterfallChartErrorResponse
                      "Invalid waterfall chart data: need at least 2 valid numeric values")
          else inl (acceptedWaterfall dp cs nums)).
Proof.
  intros Hc Hv Hnums Htext. unfold validateWaterfall. simpl. rewrite Hc, Hv. simpl.
  rewrite (validIndicesOf_Normal _ _ Hnums). simpl.
  destruct (length (keptIndices 0 nums) <? 2)%nat eqn:Hlen; [reflexivity|].
  apply Nat.ltb_ge in Hlen.
  rewrite (numbersAt_kept _ _ Hnums). simpl.
  fold (keptCategories cs (keptIndices 0 nums)).
  rewrite relabelEnds_text.
  - simpl. rewrite !defaultText_withDefaultText. simpl.
    rewrite !defaultText_withDefaultText. simpl.
    rewrite !defaultText_withDefaultText. reflexivity.
  - unfold keptCategories. rewrite length_fmap. exact Hlen.
  - apply Htext. exact Hlen.
Qed.

Lemma getProp_obj (props : gmap string value) (key : string) :
  getProp (VObj props) key = Normal (default VUndefined (props !! key)).
Proof. reflexivity. Qed.

Lemma Normal_bind {A B} (a : A) (f : A -> completion B) : Normal a ≫= f = f a.
Proof. reflexivity. Qed.

(** [validateResponse] on a response that names a chart type and carries
    a [data] object: what is left is the branch of that type. *)
Lemma validateResponse_chart (rp sp dp : gmap string value) (t : string) :
  rp !! "statistics" = Some (VObj sp) -> sp !! "type" = Some (VStr t) ->
  sp !! "data" = Some (VObj dp) ->
  t = "pie_chart" \/ t = "waterfall_chart" ->
  validateResponse (VObj rp) =
  tryCatch
    (checked ← (if String.eqb t "pie_chart" then validatePie (VObj dp)
                else validateWaterfall (VObj dp));
     match checked with
     | inl d => Normal (withData (defaultInterpretation rp) sp d)
     | inr e => Normal e
     end)
    (fun e => Normal (createErrorResponse ("Validation error: " ++ message e))).
Proof.
  intros Hs Ht Hd Hkind. unfold validateResponse.
  rewrite getProp_obj, Normal_bind.
  assert (Hfirst :
    (if negb (truthy (default VUndefined (rp !! "interpretation"))) ||
        negb (isString (default VUndefined (rp !! "interpretation")))
     then setProp (VObj rp) "interpretation"
            (VStr "Analysis generated but no interpretation provided.")
     else Normal (VObj rp)) = Normal (VObj (defaultInterpretation rp))).
  { unfold defaultInterpretation.
    destruct (rp !! "interpretation") as [[| | | |text| |]|]; simpl; try reflexivity.
    - destruct b; reflexivity.
    - destruct (negb _); reflexivity.
    - destruct (String.eqb text ""); reflexivity. }
  rewrite Hfirst, Normal_bind, getProp_obj, Normal_bind.
  assert (Hstat : defaultInterpretation rp !! "statistics" = Some (VObj sp)).
  { unfold defaultInterpretation.
    destruct (rp !! "interpretation") as [[| | | |text| |]|];
      try (rewrite lookup_insert_ne by discriminate; exact Hs).
    destruct (String.eqb text ""); [rewrite lookup_insert_ne by discriminate|]; exact Hs. }
  rewrite Hstat. cbn [default from_option id truthy negb].
  rewrite (getProp_obj sp "type"), Normal_bind, Ht. cbn [default from_option id].
  rewrite (getProp_obj sp "data"), Hd. cbn [default from_option id].
  destruct Hkind as [-> | ->]; reflexivity.
Qed.

Lemma markNumeric_coerced (values : list value) (idx : nat) (marks : list (option nat)) :
  markNumeric idx values = Normal marks -> exists nums, mapM Number values = Normal nums.
Proof.
  revert idx marks. induction values as [|val rest IH]; intros idx marks; simpl.
  - eauto.
  - intros (n & Hn & (ms & Hms & _)%bind_Normal)%bind_Normal.
    rewrite Hn. simpl. destruct (IH _ _ Hms) as (ns & ->). simpl. eauto.
Qed.

Lemma getIndex_text (l : list value) (i : nat) (text : string) :
  getIndex l i = VStr text -> l !! i = Some (VStr text).
Proof.
  unfold getIndex. destruct (l !! i); simpl; [congruence | discriminate].
Qed.

Lemma lowerCaseIncludes_text (callee : string) (v : value) (needle : string)
    (b : bool) :
  lowerCaseIncludes callee v needle = Normal b -> exists text, v = VStr text.
Proof. destruct v; simpl; try discriminate. eauto. Qed.

Lemma relabelEnds_inv (cats : list value) (vals : list float) (cats' : list value) :
  2 <= length cats -> relabelEnds cats vals = Normal cats' ->
  endLabelsAreText cats vals.
Proof.
  intros Hlen. unfold relabelEnds.
  destruct (2 <=? length cats)%nat eqn:Hle; [|apply Nat.leb_gt in Hle; lia].
  intros (zeroStart & Hzero & (noEnd & HnoEnd & _)%bind_Normal)%bind_Normal.
  assert (Hlast : exists text, cats !! (length cats - 1) = Some (VStr text)).
  { destruct (lowerCaseIncludes _ _ "end") as [b|] eqn:Hb; [|discriminate].
    apply lowerCaseIncludes_text in Hb as (text & Hb).
    apply getIndex_text in Hb. exists text.
    destruct zeroStart.
    - rewrite length_insert in Hb. rewrite list_lookup_insert_ne in Hb by lia. exact Hb.
    - exact Hb. }
  split; [|exact Hlast].
  intros Hz. rewrite Hz in Hzero.
  destruct (lowerCaseIncludes _ _ "start") as [b|] eqn:Hb; [|discriminate].
  apply lowerCaseIncludes_text in Hb as (text & Hb).
  apply getIndex_text in Hb. eauto.
Qed.

(** When the waterfall branch accepts, the coercions went through, two
    numeric entries or more were left and the inspected labels were
    strings. *)
Lemma validateWaterfall_inv (dp : gmap string value) (cs vs : list value)
    (d : value) :
  dp !! "categories" = Some (VArr cs) -> dp !! "values" = Some (VArr vs) ->
  validateWaterfall (VObj dp) = Normal (inl d) ->
  exists nums, mapM Number vs = Normal nums /\
    2 <= length (keptIndices 0 nums) /\
    endLabelsAreText (keptCategories cs (keptIndices 0 nums)) (keptNumbers nums) /\
    d = acceptedWaterfall dp cs nums.
Proof.
  intros Hc Hv Hcheck.
  assert (Hnums : exists nums, mapM Number vs = Normal nums).
  { unfold validateWaterfall in Hcheck. simpl in Hcheck. rewrite Hc, Hv in Hcheck.
    simpl in Hcheck.
    apply bind_Normal in Hcheck as (idxs & Hidxs & _).
    unfold validIndicesOf in Hidxs.
    apply bind_Normal in Hidxs as (marks & Hmarks & _).
    exact (markNumeric_coerced _ _ _ Hmarks). }
  destruct Hnums as (nums & Hnums). exists nums. split; [exact Hnums|].
  assert (Hlen : 2 <= length (keptIndices 0 nums)).
  { unfold validateWaterfall in Hcheck. simpl in Hcheck. rewrite Hc, Hv in Hcheck.
    simpl in Hcheck. rewrite (validIndicesOf_Normal _ _ Hnums) in Hcheck.
    simpl in Hcheck.
    destruct (length (keptIndices 0 nums) <? 2)%nat eqn:Hlt; [discriminate|].
    apply Nat.ltb_ge in Hlt. exact Hlt. }
  assert (Htext : endLabelsAreText (keptCategories cs (keptIndices 0 nums)) (keptNumbers nums)).
  { unfold validateWaterfall in Hcheck. simpl in Hcheck. rewrite Hc, Hv in Hcheck.
    simpl in Hcheck. rewrite (validIndicesOf_Normal _ _ Hnums) in Hcheck.
    simpl in Hcheck.
    destruct (length (keptIndices 0 nums) <? 2)%nat; [discriminate|].
    rewrite (numbersAt_kept _ _ Hnums) in Hcheck. simpl in Hcheck.
    apply bind_Normal in Hcheck as (relabelled' & Hrel & _).
    apply relabelEnds_inv in Hrel; [exact Hrel|].
    rewrite length_fmap. exact Hlen. }
  split; [exact Hlen|]. split; [exact Htext|].
  rewrite (validateWaterfall_numeric dp cs vs nums Hc Hv Hnums (fun _ => Htext)) in Hcheck.
  destruct (length (keptIndices 0 nums) <? 2)%nat; [discriminate|].
  congruence.
Qed.
Lemma lookup_withDefaultText_ne (dp : gmap string value) (key text k : string) :
  k <> key -> withDefaultText dp key text !! k = dp !! k.
Proof.
  intros Hk. unfold withDefaultText.
  destruct (truthy _); [reflexivity|]. by rewrite lookup_insert_ne.
Qed.

Lemma lookup_withDefaultText_None (dp : gmap string value) (key text : string) :
  dp !! key = None -> withDefaultText dp key text !! key = Some (VStr text).
Proof.
  intros Hk. unfold withDefaultText. rewrite Hk. simpl. apply lookup_insert_eq.
Qed.

Lemma relabelled_length (cats : list value) (vals : list float) :
  length (relabelled cats vals) = length cats.
Proof. unfold relabelled. rewrite !length_insert. reflexivity. Qed.

Lemma relabelled_first (cats : list value) (vals : list float) :
  2 <= length cats ->
  relabelled cats vals !! 0 =
  relabelStart (default PrimFloat.nan (vals !! 0)) <$> cats !! 0.
Proof.
  intros Hlen. unfold relabelled.
  rewrite list_lookup_insert_ne by lia.
  destruct cats as [|c rest]; [simpl in Hlen; lia|]. reflexivity.
Qed.

Lemma relabelled_last (cats : list value) (vals : list float) :
  2 <= length cats ->
  relabelled cats vals !! (length cats - 1) =
  relabelEnd <$> cats !! (length cats - 1).
Proof.
  intros Hlen. unfold relabelled.
  rewrite list_lookup_insert_eq by (rewrite length_insert; lia).
  unfold getIndex. destruct (cats !! (length cats - 1)) eqn:Hlast; [reflexivity|].
  apply lookup_ge_None in Hlast. lia.
Qed.

Lemma relabelled_middle (cats : list value) (vals : list float) (j : nat) :
  0 < j < length cats - 1 -> relabelled cats vals !! j = cats !! j.
Proof.
  intros Hj. unfold relabelled. rewrite !list_lookup_insert_ne by lia. reflexivity.
Qed.

Lemma field_acceptedWaterfall_categories (dp : gmap string value)
    (cs : list value) (nums : list float) :
  field (acceptedWaterfall dp cs nums) "categories" =
  VArr (relabelled (keptCategories cs (keptIndices 0 nums)) (keptNumbers nums)).
Proof.
  unfold acceptedWaterfall, field.
  rewrite !lookup_withDefaultText_ne by discriminate.
  rewrite lookup_insert_eq. reflexivity.
Qed.

Lemma field_acceptedWaterfall_values (dp : gmap string value)
    (cs : list value) (nums : list float) :
  field (acceptedWaterfall dp cs nums) "values" = VArr (VNum <$> keptNumbers nums).
Proof.
  unfold acceptedWaterfall, field.
  rewrite !lookup_withDefaultText_ne by discriminate.
  rewrite lookup_insert_ne by discriminate.
  rewrite lookup_insert_eq. reflexivity.
Qed.

Lemma field_acceptedWaterfall_text (dp : gmap string value)
    (cs : list value) (nums : list float) :
  (dp !! "increaseLabelText" = None ->
   field (acceptedWaterfall dp cs nums) "increaseLabelText" = VStr "Increase") /\
  (dp !! "decreaseLabelText" = None ->
   field (acceptedWaterfall dp cs nums) "decreaseLabelText" = VStr "Decrease") /\
  (dp !! "totalLabelText" = None ->
   field (acceptedWaterfall dp cs nums) "totalLabelText" = VStr "Total").
Proof.
  unfold acceptedWaterfall, field. repeat split; intros Hnone.
  - rewrite !lookup_withDefaultText_ne by discriminate.
    rewrite lookup_withDefaultText_None; [reflexivity|].
    rewrite !lookup_insert_ne by discriminate. exact Hnone.
  - rewrite lookup_withDefaultText_ne by discriminate.
    rewrite lookup_withDefaultText_None; [reflexivity|].
    rewrite lookup_withDefaultText_ne by discriminate.
    rewrite !lookup_insert_ne by discriminate. exact Hnone.
  - rewrite lookup_withDefaultText_None; [reflexivity|].
    rewrite !lookup_withDefaultText_ne by discriminate.
    rewrite !lookup_insert_ne by discriminate. exact Hnone.
Qed.

Lemma field_acceptedPie (dp : gmap string value) (ls : list value)
    (nums : list float) :
  field (acceptedPie dp ls nums) "labels" =
    VArr ((fun idx => getIndex ls idx) <$> keptIndices 0 nums) /\
  field (acceptedPie dp ls nums) "values" = VArr (VNum <$> keptNumbers nums).
Proof.
  unfold acceptedPie, pieColors, field.
  destruct (truthy _); split; by simplify_map_eq.
Qed.

End ValidatorRepair.


(** * The claims *)

Section Claims.

Context `{Engine}.

(** C1.  Whatever the language model and the database do, and whatever
    calls were made before, the result of [analyzeStatisticalQuestion]
    satisfies the structural invariant: a [pie_chart] has [labels] and
    [values] of one length, a [waterfall_chart] has [categories] and
    [values] of one length, which is at least 2.  The success path, the
    error responses and the fallback are all covered, since the statement
    is about every run. *)
Theorem analysis_result_structural_invariant
    (w : collaborators) (userQuestion : string) (history : list call) :
  exists result,
    (run w (analyzeStatisticalQuestion userQuestion) history).1 = Normal result /\
    structuralInvariant result.
Proof.
  destruct (analyzeStatisticalQuestion_run w userQuestion history)
    as (result & after & Hrun & [_ Hinvariant] & _).
  exists result. rewrite Hrun. split; [reflexivity | exact Hinvariant].
Qed.

(** C2.  For every question and every behaviour of the collaborators (and
    every [JSON.parse], so also a model whose text never parses), the
    orchestrator settles: the run ends, it ends fulfilled with an
    [AnalysisResult] and not with an exception, and the calls it made hold
    at most 3 shape-generation requests. *)
Theorem orchestrator_total_within_retry_budget
    (w : collaborators) (userQuestion : string) (history : list call) :
  exists result made,
    run w (analyzeStatisticalQuestion userQuestion) history
      = (Normal result, (made ++ history)%list) /\
    isAnalysisResult result /\
    length (shapeCalls made) <= 3.
Proof.
  destruct (analyzeStatisticalQuestion_run w userQuestion history)
    as (result & after & Hrun & [Hresult _] & (sch & made & -> & Hlen & _)).
  exists result, made. split; [exact Hrun|]. split; [exact Hresult | exact Hlen].
Qed.

(** C6.  On an empty result set [generateAnalysis] is already settled with
    the canned response: it awaits nothing, so neither the classifier nor
    the shape generator is called, and a run leaves the history as it
    was. *)
Theorem empty_result_set_short_circuit (originalQuestion : string) :
  generateAnalysis [] originalQuestion =
    Settled (Normal
      (statisticsResponse "No data available for analysis." "pie_chart"
         (pieData ["No Data"] [100%float]))) /\
  forall w history,
    run w (generateAnalysis [] originalQuestion) history =
      (Normal
         (statisticsResponse "No data available for analysis." "pie_chart"
            (pieData ["No Data"] [100%float])), history).
Proof. split; [reflexivity | intros w history; reflexivity]. Qed.

(** C7.  A question that is empty or made of white space only is answered
    at once with the error response: its interpretation is the message,
    its statistics the "Error" pie chart; the computation awaits nothing,
    so the query synthesizer is not called. *)
Theorem empty_question_rejected (userQuestion : string) :
  onlyWhiteSpace userQuestion = true ->
  analyzeStatisticalQuestion userQuestion =
    Settled (Normal
      (statisticsResponse "Invalid question: Question must be a non-empty string"
         "pie_chart" (pieData ["Error"] [100%float]))) /\
  forall w history,
    (run w (analyzeStatisticalQuestion userQuestion) history).2 = history.
Proof.
  intros Hblank. unfold analyzeStatisticalQuestion.
  rewrite (blank_question _ Hblank). split; [reflexivity|].
  intros w history. reflexivity.
Qed.


(** C8.  When the classifier's answer, trimmed and lower-cased, is neither
    [pie_chart] nor [waterfall_chart], the pie schema is the one selected
    for every attempt: the calls [generateAnalysis] makes after the
    classification are the shape requests of the attempts 0 to n-1, for an
    n from 1 to 3 (attempt 0 is always made), and each of them carries the
    pie schema.  When the three attempts fail, all three requests are made
    and the result is the pie fallback, not the waterfall one. *)
Theorem unrecognised_chart_type_treated_as_pie
    (w : collaborators) (data : list value) (originalQuestion : string)
    (history : list call) (output_text : string) :
  data <> [] ->
  model w history (classifierRequest data originalQuestion) = Normal output_text ->
  chartTypeOf output_text <> "pie_chart" ->
  chartTypeOf output_text <> "waterfall_chart" ->
  (exists n made,
     1 <= n <= 3 /\ length made = n /\
     (run w (generateAnalysis data originalQuestion) history).2 =
       (made ++ ResponsesCreate (classifierRequest data originalQuestion)
                :: history)%list /\
     (made ++ ResponsesCreate (classifierRequest data originalQuestion)
           :: history)%list =
       failedAttempts simplePieChartSchema (chartTypeOf output_text)
         originalQuestion (JSON_stringify data) n
         (ResponsesCreate (classifierRequest data originalQuestion) :: history) /\
     Forall (fun c => exists p,
               c = ResponsesCreate (Request p (Some simplePieChartSchema))) made) /\
  ((forall n, n < 3 ->
      attemptResult
        (answerAt w simplePieChartSchema (chartTypeOf output_text)
           originalQuestion (JSON_stringify data) n
           (ResponsesCreate (classifierRequest data originalQuestion) :: history))
      = None) ->
   run w (generateAnalysis data originalQuestion) history =
   (Normal
      (statisticsResponse
         "Unable to generate a detailed analysis, but here's a simple overview of the data."
         "pie_chart" (pieData ["Data Points"] [lengthNumber data])),
    failedAttempts simplePieChartSchema (chartTypeOf output_text)
      originalQuestion (JSON_stringify data) 3
      (ResponsesCreate (classifierRequest data originalQuestion) :: history))).
Proof.
  intros Hdata Hclassified _ Hwaterfall.
  assert (Hschema : schemaFor (chartTypeOf output_text) = simplePieChartSchema).
  { unfold schemaFor.
    destruct (String.eqb_spec (chartTypeOf output_text) "waterfall_chart");
      [contradiction | reflexivity]. }
  split.
  - rewrite run_generateAnalysis. destruct data as [|row rows]; [contradiction|].
    rewrite Hclassified. cbn zeta. cbn [snd]. rewrite Hschema.
    set (ser := JSON_stringify (row :: rows)).
    set (h := ResponsesCreate (classifierRequest (row :: rows) originalQuestion)
              :: history).
    destruct (attemptsFrom_trace w simplePieChartSchema (chartTypeOf output_text)
                originalQuestion ser h maxRetries ltac:(unfold maxRetries; lia))
      as (n & Hn & Htrace).
    assert (Hmade : forall k, exists made,
              length made = k /\
              failedAttempts simplePieChartSchema (chartTypeOf output_text)
                originalQuestion ser k h = (made ++ h)%list /\
              Forall (fun c => exists p,
                        c = ResponsesCreate (Request p (Some simplePieChartSchema)))
                made).
    { induction k as [|k (made & Hlen & Heq & Hall)].
      - exists []. repeat split. constructor.
      - exists (ResponsesCreate
                  (shapeRequest simplePieChartSchema (chartTypeOf output_text)
                     originalQuestion ser k) :: made).
        split; [simpl; by rewrite Hlen|]. split; [simpl; by rewrite Heq|].
        constructor; [eexists; reflexivity | exact Hall]. }
    destruct (Hmade n) as (made & Hlen & Heq & Hall).
    exists n, made. unfold maxRetries in Hn. fold ser h. rewrite Htrace.
    repeat split; try lia; try assumption; try (by symmetry).
  - intros Hfail. rewrite <- Hschema in Hfail |- *.
    rewrite (generateAnalysis_exhausted w data originalQuestion history
               output_text Hdata Hclassified Hfail).
    unfold fallbackResponse.
    destruct (String.eqb_spec (chartTypeOf output_text) "waterfall_chart");
      [contradiction | reflexivity].
Qed.

(** C9.  A response that the validator returns but whose interpretation
    contains "Invalid" or "Error" makes the attempt a failed one: nothing
    is accepted from it.  When the model's three answers are all of that
    kind, the retry counter goes through 0, 1 and 2 (the calls made are
    the three shape requests, latest first, after the classification) and
    [generateAnalysis] fulfils with the fallback, not with any of the
    validated shapes. *)
Theorem error_like_interpretation_fails_attempt
    (w : collaborators) (data : list value) (originalQuestion : string)
    (history : list call) (output_text : string) :
  data <> [] ->
  model w history (classifierRequest data originalQuestion) = Normal output_text ->
  (forall n, n < 3 ->
     exists content validated text,
       answerAt w (schemaFor (chartTypeOf output_text)) (chartTypeOf output_text)
         originalQuestion (JSON_stringify data) n
         (ResponsesCreate (classifierRequest data originalQuestion) :: history)
       = Normal content /\
       validateResponse (parseContent content) = Normal validated /\
       field validated "interpretation" = VStr text /\
       includes text "Invalid" || includes text "Error" = true) ->
  (forall n, n < 3 ->
     attemptResult
       (answerAt w (schemaFor (chartTypeOf output_text)) (chartTypeOf output_text)
          originalQuestion (JSON_stringify data) n
          (ResponsesCreate (classifierRequest data originalQuestion) :: history))
     = None) /\
  run w (generateAnalysis data originalQuestion) history =
  (Normal (fallbackResponse (chartTypeOf output_text) data),
   ResponsesCreate (shapeRequest (schemaFor (chartTypeOf output_text))
                      (chartTypeOf output_text) originalQuestion
                      (JSON_stringify data) 2)
   :: ResponsesCreate (shapeRequest (schemaFor (chartTypeOf output_text))
                         (chartTypeOf output_text) originalQuestion
                         (JSON_stringify data) 1)
   :: ResponsesCreate (shapeRequest (schemaFor (chartTypeOf output_text))
                         (chartTypeOf output_text) originalQuestion
                         (JSON_stringify data) 0)
   :: ResponsesCreate (classifierRequest data originalQuestion) :: history).
Proof.
  intros Hdata Hclassified Hlike.
  assert (Hfail : forall n, n < 3 ->
    attemptResult
      (answerAt w (schemaFor (chartTypeOf output_text)) (chartTypeOf output_text)
         originalQuestion (JSON_stringify data) n
         (ResponsesCreate (classifierRequest data originalQuestion) :: history))
    = None).
  { intros n Hn.
    destruct (Hlike n Hn) as (content & validated & text & -> & Hv & Ht & Hin).
    exact (errorLike_attempt_fails content validated text Hv Ht Hin). }
  split; [exact Hfail|].
  rewrite (generateAnalysis_exhausted w data originalQuestion history output_text
             Hdata Hclassified Hfail).
  reflexivity.
Qed.

(** C3.  The code does not enforce the non-negativity the claim states:
    a pie response with the value -5 goes through [validateResponse]
    unchanged, the negative entry included, and an attempt whose text
    parses to it succeeds with it. *)
Theorem negative_pie_value_accepted :
  validateResponse Sample.negativeShare = Normal Sample.negativeShare /\
  statisticsData Sample.negativeShare "values" = VArr [VNum (-5)%float; VNum 20%float] /\
  PrimFloat.ltb (-5)%float 0%float = true /\
  forall content, parseContent content = Sample.negativeShare ->
    attemptResult (Normal content) = Some Sample.negativeShare.
Proof.
  assert (Hvalid : validateResponse Sample.negativeShare = Normal Sample.negativeShare).
  { vm_compute. reflexivity. }
  split; [exact Hvalid|]. split; [reflexivity|]. split; [reflexivity|].
  intros content Hcontent. unfold attemptResult, checkContent.
  rewrite Hcontent, Hvalid. reflexivity.
Qed.

(** On a waterfall whose categories are numbers, with any engine: the
    call of [toLowerCase] on the last category throws, the catch of lines
    177-182 takes over, and the result is the generic error response, a
    pie chart. *)
Lemma numeric_categories_rejected :
  validateResponse Sample.numericCategories =
  Normal (createErrorResponse
            ("Validation error: " ++
             faultMessage (NotAFunction "data.categories[lastIdx].toLowerCase"))).
Proof. vm_compute. reflexivity. Qed.

(** C5, amended.  When the arrays are present and the values coerce
    without an exception, the validator fails a pie chart exactly when no
    numeric pair is left and otherwise keeps exactly the numeric pairs; it
    fails a waterfall chart when fewer than two are left and otherwise
    keeps exactly the numeric pairs (with the end labels of lines 153-170),
    provided the categories it lower-cases, the first when the first value
    is 0 and the last, are strings. *)
Theorem numeric_pairs_kept_when_labels_are_text (response : value) :
  numericPairsKept
    (fun categories values => 2 <= length categories -> endLabelsAreText categories values)
    response.
Proof.
  intros rp sp dp labels values nums -> Hs Hd Hv Hnums. split.
  - intros Ht Hl.
    rewrite (validateResponse_chart rp sp dp "pie_chart" Hs Ht Hd) by (left; reflexivity).
    cbn [String.eqb Ascii.eqb Bool.eqb].
    rewrite (validatePie_numeric dp labels values nums Hl Hv Hnums).
    destruct (keptIndices 0 nums) as [|i rest] eqn:Hkept; simpl.
    + eexists. split; reflexivity.
    + eexists. split; [reflexivity|].
      rewrite (statisticsType_withData _ _ _ _ Ht), !statisticsData_withData.
      rewrite interpretation_withData.
      destruct (field_acceptedPie dp labels nums) as [-> ->].
      rewrite Hkept. auto.
  - intros Ht Hc Hsafe.
    rewrite (validateResponse_chart rp sp dp "waterfall_chart" Hs Ht Hd)
      by (right; reflexivity).
    cbn [String.eqb Ascii.eqb Bool.eqb].
    rewrite (validateWaterfall_numeric dp labels values nums Hc Hv Hnums).
    + destruct (length (keptIndices 0 nums) <? 2)%nat; simpl.
      * eexists. split; reflexivity.
      * eexists. split; [reflexivity|].
        rewrite (statisticsType_withData _ _ _ _ Ht), !statisticsData_withData.
        rewrite interpretation_withData.
        rewrite field_acceptedWaterfall_categories, field_acceptedWaterfall_values.
        auto.
    + intros Hlen. apply Hsafe. unfold keptCategories. rewrite length_fmap. exact Hlen.
Qed.

(** C10.  Whenever the validator returns a waterfall response that is not
    the waterfall error response, the categories it returns are the kept
    ones with the first replaced by "Start" when the first value is 0 and
    the category does not contain "start", the last replaced by "End" when
    it contains neither "end" nor "total" (both case-insensitive), the
    others untouched; and a label text that was absent is set to
    "Increase", "Decrease" or "Total".  The categories that were
    lower-cased on the way are strings. *)
Theorem accepted_waterfall_is_relabelled
    (rp sp dp : gmap string value) (cs vs : list value) (out : value) :
  rp !! "statistics" = Some (VObj sp) ->
  sp !! "type" = Some (VStr "waterfall_chart") ->
  sp !! "data" = Some (VObj dp) ->
  dp !! "categories" = Some (VArr cs) ->
  dp !! "values" = Some (VArr vs) ->
  validateResponse (VObj rp) = Normal out ->
  statisticsType out = VStr "waterfall_chart" ->
  (forall msg, out <> createWaterfallChartErrorResponse msg) ->
  exists nums cats,
    mapM Number vs = Normal nums /\
    endLabelsAreText (keptCategories cs (keptIndices 0 nums)) (keptNumbers nums) /\
    statisticsData out "values" = VArr (VNum <$> keptNumbers nums) /\
    statisticsData out "categories" = VArr cats /\
    length cats = length (keptIndices 0 nums) /\
    cats !! 0 =
      relabelStart (default PrimFloat.nan (keptNumbers nums !! 0))
        <$> keptCategories cs (keptIndices 0 nums) !! 0 /\
    cats !! (length cats - 1) =
      relabelEnd <$> keptCategories cs (keptIndices 0 nums) !! (length cats - 1) /\
    (forall j, 0 < j < length cats - 1 ->
       cats !! j = keptCategories cs (keptIndices 0 nums) !! j) /\
    (dp !! "increaseLabelText" = None ->
     statisticsData out "increaseLabelText" = VStr "Increase") /\
    (dp !! "decreaseLabelText" = None ->
     statisticsData out "decreaseLabelText" = VStr "Decrease") /\
    (dp !! "totalLabelText" = None ->
     statisticsData out "totalLabelText" = VStr "Total").
Proof.
  intros Hs Ht Hd Hc Hv Hout Htype Hpass.
  rewrite (validateResponse_chart rp sp dp "waterfall_chart" Hs Ht Hd) in Hout
    by (right; reflexivity).
  cbn [String.eqb Ascii.eqb Bool.eqb] in Hout.
  destruct (validateWaterfall (VObj dp)) as [[d|e]|err] eqn:Hcheck; simpl in Hout;
    injection Hout as <-.
  - destruct (validateWaterfall_inv dp cs vs d Hc Hv Hcheck)
      as (nums & Hnums & Hlen & Htext & ->).
    assert (Hkept : length (keptCategories cs (keptIndices 0 nums))
                    = length (keptIndices 0 nums)).
    { unfold keptCategories. apply length_fmap. }
    exists nums, (relabelled (keptCategories cs (keptIndices 0 nums)) (keptNumbers nums)).
    rewrite !statisticsData_withData.
    rewrite field_acceptedWaterfall_categories, field_acceptedWaterfall_values.
    rewrite relabelled_length, Hkept.
    split; [exact Hnums|]. split; [exact Htext|].
    split; [reflexivity|]. split; [reflexivity|]. split; [reflexivity|].
    split; [apply relabelled_first; lia|].
    split; [rewrite <- Hkept; apply relabelled_last; lia|].
    split; [intros j Hj; apply relabelled_middle; lia|].
    apply field_acceptedWaterfall_text.
  - apply validateWaterfall_sound in Hcheck as (msg & ->).
    destruct (Hpass msg eq_refl).
  - discriminate Htype.
Qed.

End Claims.


(** * Further properties

    Properties of the pipeline beyond the claims, and of the code around
    it: the chat router that calls the orchestrator, the strict validator
    of the sibling analysis module and the customers module. *)

(** ** The orchestrator and its retry loop *)

Section OrchestratorFacts.
Context `{Engine}.

Lemma attemptsFrom_first_success (w : collaborators) (sch : schema)
    (ct q ser : string) (h : list call) (valid : value) (k budget : nat) :
  k < budget ->
  (forall n, n < k -> attemptResult (answerAt w sch ct q ser n h) = None) ->
  attemptResult (answerAt w sch ct q ser k h) = Some valid ->
  attemptsFrom w sch ct q ser budget 0 h =
  (Some valid, failedAttempts sch ct q ser (S k) h).
Proof.
  assert (Hgen : forall rest cr j,
    j < rest ->
    (forall n, n < j ->
       attemptResult (answerAt w sch ct q ser (cr + n) h) = None) ->
    attemptResult (answerAt w sch ct q ser (cr + j) h) = Some valid ->
    attemptsFrom w sch ct q ser rest cr (failedAttempts sch ct q ser cr h) =
    (Some valid, failedAttempts sch ct q ser (S (cr + j)) h)).
  { induction rest as [|rest IH]; intros cr j Hj Hfail Hok; [lia|].
    simpl. destruct j as [|j].
    - rewrite Nat.add_0_r in Hok |- *. unfold answerAt in Hok. rewrite Hok.
      reflexivity.
    - pose proof (Hfail 0 ltac:(lia)) as H0. rewrite Nat.add_0_r in H0.
      unfold answerAt in H0. rewrite H0.
      replace (cr + S j) with (S cr + j) by lia.
      apply (IH (S cr) j); [lia| |].
      + intros n Hn. replace (S cr + n) with (cr + S n) by lia. apply Hfail. lia.
      + replace (S cr + j) with (cr + S j) by lia. exact Hok. }
  intros Hk Hfail Hok. exact (Hgen budget 0 k Hk Hfail Hok).
Qed.

(** X1.  The loop stops at the first attempt that is accepted.  When the
    classifier has answered, attempts 0 to k-1 fail and attempt k (below 3)
    is accepted, [generateAnalysis] fulfils with the response of attempt k,
    and the calls it made are the classification and the k+1 shape
    requests: no request follows the accepted one, and the fallback is not
    built. *)
Theorem first_accepted_response_ends_loop
    (w : collaborators) (data : list value) (originalQuestion : string)
    (history : list call) (output_text : string) (k : nat) (valid : value) :
  data <> [] ->
  model w history (classifierRequest data originalQuestion) = Normal output_text ->
  k < 3 ->
  (forall n, n < k ->
     attemptResult
       (answerAt w (schemaFor (chartTypeOf output_text)) (chartTypeOf output_text)
          originalQuestion (JSON_stringify data) n
          (ResponsesCreate (classifierRequest data originalQuestion) :: history))
     = None) ->
  attemptResult
    (answerAt w (schemaFor (chartTypeOf output_text)) (chartTypeOf output_text)
       originalQuestion (JSON_stringify data) k
       (ResponsesCreate (classifierRequest data originalQuestion) :: history))
  = Some valid ->
  run w (generateAnalysis data originalQuestion) history =
  (Normal valid,
   failedAttempts (schemaFor (chartTypeOf output_text)) (chartTypeOf output_text)
     originalQuestion (JSON_stringify data) (S k)
     (ResponsesCreate (classifierRequest data originalQuestion) :: history)).
Proof.
  intros Hdata Hclassified Hk Hfail Hok. rewrite run_generateAnalysis.
  destruct data as [|row rows]; [contradiction|].
  rewrite Hclassified. cbn zeta.
  rewrite (attemptsFrom_first_success _ _ _ _ _ _ valid k maxRetries Hk Hfail Hok).
  reflexivity.
Qed.

(** X2.  Only a JSON object can be accepted.  When the text of the model
    does not parse ([JSON.parse] throws and the text itself is validated)
    or parses to anything but an object, the attempt fails, whatever the
    text is; nothing is thrown to the caller of the loop. *)
Theorem only_objects_can_be_accepted (content : string) :
  (forall props, parseContent content <> VObj props) ->
  attemptResult (Normal content) = None.
Proof.
  intros Hnot. unfold attemptResult, checkContent.
  destruct (parseContent content) as [| | | | |elems|props] eqn:Hparsed;
    try reflexivity.
  destruct (Hnot props eq_refl).
Qed.


(** ** The orchestrator, step by step *)

Lemma run_generateSqlQuery_answer (w : collaborators) (question : string)
    (history : list call) :
  onlyWhiteSpace question = false ->
  run w (generateSqlQuery question) history =
  (match model w history (Request (SqlPrompt question) None) with
   | Normal output_text =>
       if includes (toUpperCase (trim output_text)) "SELECT"
       then Normal (trim output_text)
       else Throw (Error "Error"
              "Failed to generate SQL query: Failed to generate a valid SQL query")
   | Throw err =>
       Throw (Error "Error"
                ("Failed to generate SQL query: " ++
                 (if String.eqb (message err) "" then errorToString err
                  else message err)))
   end,
   ResponsesCreate (Request (SqlPrompt question) None) :: history).
Proof.
  intros Hq. unfold generateSqlQuery. rewrite (not_blank _ Hq). simpl.
  destruct (model w history _) as [text|err]; simpl; [|reflexivity].
  destruct (includes (toUpperCase (trim text)) "SELECT"); reflexivity.
Qed.

Lemma run_makeQuery_select (w : collaborators) (query : string)
    (params : list value) (history : list call) :
  includes (toUpperCase query) "SELECT" = true ->
  run w (makeQuery query params) history =
  (match database w history query params with
   | Normal rows => Normal rows
   | Throw error => Throw (Error "Error" ("Database error: " ++ message error))
   end,
   PoolQuery query params :: history).
Proof.
  intros Hselect. unfold makeQuery.
  rewrite (not_blank _ (select_not_blank _ Hselect)). simpl.
  destruct (database w history query params); reflexivity.
Qed.

Lemma run_analyzeStatisticalQuestion (w : collaborators) (userQuestion : string)
    (history : list call) :
  onlyWhiteSpace userQuestion = false ->
  run w (analyzeStatisticalQuestion userQuestion) history =
  let asked := ResponsesCreate (Request (SqlPrompt userQuestion) None) :: history in
  match model w history (Request (SqlPrompt userQuestion) None) with
  | Throw err =>
      (Normal (createErrorResponse
                 ("Analysis failed: Failed to generate SQL query: " ++
                  (if String.eqb (message err) "" then errorToString err
                   else message err))), asked)
  | Normal output_text =>
      if includes (toUpperCase (trim output_text)) "SELECT" then
        let queried := PoolQuery (trim output_text) [] :: asked in
        match database w asked (trim output_text) [] with
        | Throw error =>
            (Normal (createErrorResponse
                       ("Analysis failed: Database error: " ++ message error)),
             queried)
        | Normal rows =>
            match run w (generateAnalysis rows userQuestion) queried with
            | (Normal result, after) => (Normal result, after)
            | (Throw error, after) =>
                (Normal (createErrorResponse
                           ("Analysis failed: " ++ message error)), after)
            end
        end
      else
        (Normal (createErrorResponse
           "Analysis failed: Failed to generate SQL query: Failed to generate a valid SQL query"),
         asked)
  end.
Proof.
  intros Hq. unfold analyzeStatisticalQuestion. rewrite (not_blank _ Hq).
  rewrite run_catch, run_then, (run_generateSqlQuery_answer _ _ _ Hq).
  destruct (model w history _) as [text|err]; [|reflexivity].
  destruct (includes (toUpperCase (trim text)) "SELECT") eqn:Hselect;
    [|reflexivity].
  rewrite run_then, (run_makeQuery_select _ _ _ _ Hselect).
  destruct (database w _ (trim text) []) as [rows|error]; reflexivity.
Qed.


Lemma generateAnalysis_calls (w : collaborators) (data : list value)
    (originalQuestion : string) (history : list call) :
  exists made,
    (run w (generateAnalysis data originalQuestion) history).2 =
      (made ++ history)%list /\
    queryCalls made = [].
Proof.
  rewrite run_generateAnalysis. destruct data as [|row rows].
  { exists []. split; reflexivity. }
  destruct (model w history _) as [text|err].
  2:{ exists [ResponsesCreate (classifierRequest (row :: rows) originalQuestion)].
      split; reflexivity. }
  cbn zeta.
  destruct (attemptsFrom_calls w (schemaFor (chartTypeOf text)) (chartTypeOf text)
              originalQuestion (JSON_stringify (row :: rows)) maxRetries 0
              (ResponsesCreate (classifierRequest (row :: rows) originalQuestion)
               :: history)) as (made & Hmade & _ & Hall).
  exists (made ++ [ResponsesCreate (classifierRequest (row :: rows) originalQuestion)])%list.
  split.
  - cbn [snd]. rewrite Hmade, <- app_assoc. reflexivity.
  - unfold queryCalls. rewrite List.filter_app. simpl. rewrite app_nil_r.
    clear Hmade.
    induction Hall as [|c rest (p & ->) _ IH]; [reflexivity|]. simpl. exact IH.
Qed.

(** X3.  The text sent to the database.  In every run the orchestrator sends
    the database at most one query; it has no parameters, it is the model's
    answer to the query request, trimmed, and its upper-case form contains
    SELECT.  This substring test is the only check the text goes through. *)
Theorem only_select_text_reaches_database
    (w : collaborators) (userQuestion : string) (history : list call) :
  exists result made,
    run w (analyzeStatisticalQuestion userQuestion) history =
      (Normal result, (made ++ history)%list) /\
    length (queryCalls made) <= 1 /\
    forall query params, PoolQuery query params ∈ made ->
      params = [] /\
      includes (toUpperCase query) "SELECT" = true /\
      exists output_text,
        model w history (Request (SqlPrompt userQuestion) None) = Normal output_text /\
        query = trim output_text.
Proof.
  destruct (onlyWhiteSpace userQuestion) eqn:Hq.
  { unfold analyzeStatisticalQuestion. rewrite (blank_question _ Hq).
    eexists _, []. split; [reflexivity|]. split; [simpl; lia|].
    intros query params Hin. by apply elem_of_nil in Hin. }
  rewrite (run_analyzeStatisticalQuestion _ _ _ Hq). cbn zeta.
  set (asked := ResponsesCreate (Request (SqlPrompt userQuestion) None)).
  destruct (model w history _) as [text|err] eqn:Hmodel.
  2:{ eexists _, [asked]. split; [reflexivity|]. split; [simpl; lia|].
      intros query params Hin. apply list_elem_of_singleton in Hin. discriminate. }
  destruct (includes (toUpperCase (trim text)) "SELECT") eqn:Hselect.
  2:{ eexists _, [asked]. split; [reflexivity|]. split; [simpl; lia|].
      intros query params Hin. apply list_elem_of_singleton in Hin. discriminate. }
  assert (Hquery : forall made query params,
            queryCalls made = [] ->
            PoolQuery query params ∈ (made ++ [PoolQuery (trim text) []; asked])%list ->
            params = [] /\ includes (toUpperCase query) "SELECT" = true /\
            exists output_text, Normal text = Normal output_text /\
                                query = trim output_text).
  { intros made query params Hnone Hin. apply elem_of_app in Hin as [Hin|Hin].
    - assert (Hq' : PoolQuery query params ∈ queryCalls made).
      { unfold queryCalls. apply list_elem_of_In, List.filter_In.
        split; [by apply list_elem_of_In | reflexivity]. }
      rewrite Hnone in Hq'. by apply elem_of_nil in Hq'.
    - apply elem_of_cons in Hin as [[= -> ->]|Hin].
      + split; [reflexivity|]. split; [exact Hselect|]. eauto.
      + apply list_elem_of_singleton in Hin. discriminate. }
  assert (Hcount : forall made, queryCalls made = [] ->
            length (queryCalls (made ++ [PoolQuery (trim text) []; asked])) <= 1).
  { intros made Hnone. unfold queryCalls in *. rewrite List.filter_app, Hnone.
    simpl. lia. }
  destruct (database w _ (trim text) []) as [rows|error].
  2:{ eexists _, ([] ++ [PoolQuery (trim text) []; asked])%list.
      split; [reflexivity|]. split; [by apply Hcount|].
      intros query params. by apply (Hquery []). }
  destruct (generateAnalysis_calls w rows userQuestion
              (PoolQuery (trim text) [] :: asked :: history))
    as (made & Hmade & Hnone).
  destruct (run w (generateAnalysis rows userQuestion) _) as [[result|error] after].
  - exists result, (made ++ [PoolQuery (trim text) []; asked])%list.
    cbn [snd] in Hmade. rewrite Hmade, <- app_assoc.
    split; [reflexivity|]. split; [by apply Hcount|].
    intros query params. by apply (Hquery made).
  - eexists _, (made ++ [PoolQuery (trim text) []; asked])%list.
    cbn [snd] in Hmade. rewrite Hmade, <- app_assoc.
    split; [reflexivity|]. split; [by apply Hcount|].
    intros query params. by apply (Hquery made).
Qed.

(** X4.  A failure of the database ends the analysis with the error
    response that names it: the interpretation is "Analysis failed:
    Database error: " followed by the driver's message, and after the query
    no call is made, so the model is asked neither for a chart type nor for
    a shape. *)
Theorem database_failure_is_reported
    (w : collaborators) (userQuestion : string) (history : list call)
    (output_text : string) (error : error) :
  onlyWhiteSpace userQuestion = false ->
  model w history (Request (SqlPrompt userQuestion) None) = Normal output_text ->
  includes (toUpperCase (trim output_text)) "SELECT" = true ->
  database w (ResponsesCreate (Request (SqlPrompt userQuestion) None) :: history)
    (trim output_text) [] = Throw error ->
  run w (analyzeStatisticalQuestion userQuestion) history =
  (Normal (createErrorResponse
             ("Analysis failed: Database error: " ++ message error)),
   PoolQuery (trim output_text) []
   :: ResponsesCreate (Request (SqlPrompt userQuestion) None) :: history).
Proof.
  intros Hq Hmodel Hselect Hdatabase.
  rewrite (run_analyzeStatisticalQuestion _ _ _ Hq). cbn zeta.
  rewrite Hmodel, Hselect, Hdatabase. reflexivity.
Qed.

(** X5.  When the model's answer to the query request holds no SELECT, or
    the request fails, the database is not touched: the only call made is
    the query request, and the result is the error response whose
    interpretation starts with "Analysis failed: Failed to generate SQL
    query: ". *)
Theorem unusable_query_never_reaches_database
    (w : collaborators) (userQuestion : string) (history : list call) :
  onlyWhiteSpace userQuestion = false ->
  (forall output_text,
     model w history (Request (SqlPrompt userQuestion) None) = Normal output_text ->
     includes (toUpperCase (trim output_text)) "SELECT" = false) ->
  exists detail,
    run w (analyzeStatisticalQuestion userQuestion) history =
    (Normal (createErrorResponse
               ("Analysis failed: Failed to generate SQL query: " ++ detail)),
     ResponsesCreate (Request (SqlPrompt userQuestion) None) :: history) /\
    (forall output_text,
       model w history (Request (SqlPrompt userQuestion) None) = Normal output_text ->
       detail = "Failed to generate a valid SQL query") /\
    (forall err,
       model w history (Request (SqlPrompt userQuestion) None) = Throw err ->
       message err <> "" -> detail = message err).
Proof.
  intros Hq Hnone.
  rewrite (run_analyzeStatisticalQuestion _ _ _ Hq). cbn zeta.
  destruct (model w history _) as [text|err] eqn:Hmodel.
  - rewrite (Hnone text eq_refl).
    exists "Failed to generate a valid SQL query".
    split; [reflexivity|]. split; [reflexivity | discriminate].
  - eexists. split; [reflexivity|]. split; [discriminate|].
    intros err' [= <-] Hmessage.
    apply String.eqb_neq in Hmessage. by rewrite Hmessage.
Qed.

(** X6.  [generateAnalysis] rejects exactly when there are rows and the
    classification request rejects, and then with the same error; no other
    failure of the model leaves it.  The classification was then its only
    call. *)
Theorem analysis_rejects_only_with_classifier
    (w : collaborators) (data : list value) (originalQuestion : string)
    (history : list call) (error : error) :
  (run w (generateAnalysis data originalQuestion) history).1 = Throw error <->
  data <> [] /\
  model w history (classifierRequest data originalQuestion) = Throw error /\
  (run w (generateAnalysis data originalQuestion) history).2 =
    ResponsesCreate (classifierRequest data originalQuestion) :: history.
Proof.
  rewrite run_generateAnalysis. destruct data as [|row rows].
  { split; [discriminate | intros [Hdata _]; by destruct Hdata]. }
  destruct (model w history _) as [text|err]; cbn zeta; cbn [fst snd].
  - split; [discriminate | intros (_ & Hmodel & _); discriminate].
  - split.
    + intros [= ->]. repeat split. discriminate.
    + intros (_ & [= ->] & _). reflexivity.
Qed.


Lemma generateAnalysis_calls_bound (w : collaborators) (data : list value)
    (originalQuestion : string) (history : list call) :
  exists made,
    (run w (generateAnalysis data originalQuestion) history).2 =
      (made ++ history)%list /\
    length made <= 4.
Proof.
  rewrite run_generateAnalysis. destruct data as [|row rows].
  { exists []. split; [reflexivity | simpl; lia]. }
  destruct (model w history _) as [text|err].
  2:{ exists [ResponsesCreate (classifierRequest (row :: rows) originalQuestion)].
      split; [reflexivity | simpl; lia]. }
  cbn zeta.
  destruct (attemptsFrom_calls w (schemaFor (chartTypeOf text)) (chartTypeOf text)
              originalQuestion (JSON_stringify (row :: rows)) maxRetries 0
              (ResponsesCreate (classifierRequest (row :: rows) originalQuestion)
               :: history)) as (made & Hmade & Hlen & _).
  exists (made ++ [ResponsesCreate (classifierRequest (row :: rows) originalQuestion)])%list.
  split.
  - cbn [snd]. rewrite Hmade, <- app_assoc. reflexivity.
  - rewrite length_app. unfold maxRetries in Hlen. simpl. lia.
Qed.

(** X7.  The cost of one analysis.  Whatever the model and the database
    answer, the orchestrator makes at most six calls: the query request,
    the query, the classification and three shape requests. *)
Theorem analysis_makes_at_most_six_calls
    (w : collaborators) (userQuestion : string) (history : list call) :
  exists made,
    (run w (analyzeStatisticalQuestion userQuestion) history).2 =
      (made ++ history)%list /\
    length made <= 6.
Proof.
  destruct (onlyWhiteSpace userQuestion) eqn:Hq.
  { unfold analyzeStatisticalQuestion. rewrite (blank_question _ Hq).
    exists []. split; [reflexivity | simpl; lia]. }
  rewrite (run_analyzeStatisticalQuestion _ _ _ Hq). cbn zeta.
  set (asked := ResponsesCreate (Request (SqlPrompt userQuestion) None)).
  destruct (model w history _) as [text|err];
    [|exists [asked]; split; [reflexivity | simpl; lia]].
  destruct (includes (toUpperCase (trim text)) "SELECT");
    [|exists [asked]; split; [reflexivity | simpl; lia]].
  destruct (database w _ (trim text) []) as [rows|error];
    [|exists [PoolQuery (trim text) []; asked]; split; [reflexivity | simpl; lia]].
  destruct (generateAnalysis_calls_bound w rows userQuestion
              (PoolQuery (trim text) [] :: asked :: history))
    as (made & Hmade & Hlen).
  exists (made ++ [PoolQuery (trim text) []; asked])%list.
  split.
  - destruct (run w (generateAnalysis rows userQuestion) _) as [[result|error] after];
      cbn [snd] in *; rewrite Hmade, <- app_assoc; reflexivity.
  - rewrite length_app. simpl. lia.
Qed.

Lemma interpretationIncludes_text (response : value) (text needle : string) :
  field response "interpretation" = VStr text ->
  interpretationIncludes response needle = Normal (includes text needle).
Proof.
  destruct response as [| | | | | |props]; simpl; try discriminate.
  unfold interpretationIncludes. simpl. intros ->. reflexivity.
Qed.

(** X8.  What an attempt accepts.  The text of the model is accepted
    exactly when the validator returns a response for it (it did not
    throw) whose interpretation contains neither "Invalid" nor "Error",
    both searched as written, capitals included; the accepted value is
    that response.  So a response whose interpretation speaks of an
    "error" in small letters is accepted. *)
Theorem attempt_accepts_exactly (content : string) (valid : value) :
  attemptResult (Normal content) = Some valid <->
  validateResponse (parseContent content) = Normal valid /\
  exists text, field valid "interpretation" = VStr text /\
    includes text "Invalid" = false /\ includes text "Error" = false.
Proof.
  unfold attemptResult, checkContent. split.
  - destruct (validateResponse (parseContent content)) as [validated|err] eqn:Hv;
      [|discriminate].
    destruct (validateResponse_sound _ _ Hv) as [[(text & Htext) _] _].
    simpl. rewrite !(interpretationIncludes_text _ _ _ Htext). simpl.
    destruct (includes text "Invalid") eqn:Hinvalid; simpl; [discriminate|].
    destruct (includes text "Error") eqn:Herror; simpl; [discriminate|].
    intros [= <-]. eauto.
  - intros (-> & text & Htext & Hinvalid & Herror). simpl.
    rewrite !(interpretationIncludes_text _ _ _ Htext). simpl.
    rewrite Hinvalid. simpl. rewrite Herror. reflexivity.
Qed.

End OrchestratorFacts.

(** ** What the validator returns *)

Lemma keptNumbers_clean (nums : list float) :
  Forall (fun n => PrimFloat.is_nan n = false) (keptNumbers nums).
Proof.
  unfold keptNumbers. induction nums as [|n rest IH]; simpl; [constructor|].
  destruct (PrimFloat.is_nan n) eqn:Hn; simpl; [exact IH|].
  constructor; assumption.
Qed.

Lemma keptIndices_clean (idx : nat) (nums : list float) :
  Forall (fun n => PrimFloat.is_nan n = false) nums ->
  keptIndices idx nums = seq idx (length nums).
Proof.
  intros Hclean. revert idx.
  induction Hclean as [|n rest Hn _ IH]; intros idx; simpl; [reflexivity|].
  rewrite Hn, IH. reflexivity.
Qed.

Lemma keptNumbers_id (nums : list float) :
  Forall (fun n => PrimFloat.is_nan n = false) nums -> keptNumbers nums = nums.
Proof.
  unfold keptNumbers. induction 1 as [|n rest Hn _ IH]; simpl; [reflexivity|].
  rewrite Hn. simpl. by rewrite IH.
Qed.

Section ValidatorShapes.
Context `{Engine}.

Lemma mapM_Number_VNum (nums : list float) :
  mapM Number (VNum <$> nums) = Normal nums.
Proof.
  induction nums as [|n rest IH]; [reflexivity|].
  rewrite fmap_cons. cbn [mapM Number]. rewrite Normal_bind, IH. reflexivity.
Qed.

Lemma getIndex_seq (l : list value) (from : nat) :
  (fun idx => getIndex l idx) <$> seq from (length l - from) = drop from l.
Proof.
  remember (length l - from) as n eqn:Hn. revert from Hn.
  induction n as [|n IH]; intros from Hn; simpl.
  - rewrite drop_ge by lia. reflexivity.
  - rewrite IH by lia. unfold getIndex.
    destruct (lookup_lt_is_Some_2 l from ltac:(lia)) as [x Hx].
    rewrite Hx. simpl. symmetry. by apply drop_S.
Qed.

Lemma getIndex_seq_all (l : list value) :
  (fun idx => getIndex l idx) <$> seq 0 (length l) = l.
Proof.
  pose proof (getIndex_seq l 0) as Hseq. rewrite Nat.sub_0_r in Hseq.
  rewrite Hseq. apply drop_0.
Qed.

Lemma validatePie_inv (data d : value) :
  validatePie data = Normal (inl d) ->
  exists dp ls vs nums,
    data = VObj dp /\ dp !! "labels" = Some (VArr ls) /\
    dp !! "values" = Some (VArr vs) /\ mapM Number vs = Normal nums /\
    1 <= length (keptIndices 0 nums) /\ d = acceptedPie dp ls nums.
Proof.
  intros Hcheck. pose proof Hcheck as Hagain. unfold validatePie in Hcheck.
  apply bind_Normal in Hcheck as (labels & Hlabels & Hrest).
  destruct (truthy labels) eqn:Htl; simpl in Hrest; [|discriminate].
  apply getProp_truthy in Hlabels as (dp & -> & Hl); [|assumption].
  apply bind_Normal in Hrest as (values & Hvalues & Hrest).
  destruct labels as [| | | | |ls|]; try discriminate.
  destruct values as [| | | | |vs|]; try discriminate.
  assert (Hv : dp !! "values" = Some (VArr vs)).
  { simpl in Hvalues. destruct (dp !! "values"); simpl in Hvalues; congruence. }
  apply bind_Normal in Hrest as (idxs & Hidxs & Hrest').
  unfold validIndicesOf in Hidxs.
  apply bind_Normal in Hidxs as (marks & Hmarks & Hmarks').
  destruct (markNumeric_coerced _ _ _ Hmarks) as (nums & Hnums).
  rewrite (validatePie_numeric dp ls vs nums Hl Hv Hnums) in Hagain.
  exists dp, ls, vs, nums. split; [reflexivity|]. repeat (split; [assumption|]).
  destruct (length (keptIndices 0 nums) =? 0)%nat eqn:Hlen; [discriminate|].
  apply Nat.eqb_neq in Hlen. split; [lia | congruence].
Qed.

Lemma validateWaterfall_accepts (data d : value) :
  validateWaterfall data = Normal (inl d) ->
  exists dp cs vs nums,
    data = VObj dp /\ dp !! "categories" = Some (VArr cs) /\
    dp !! "values" = Some (VArr vs) /\ mapM Number vs = Normal nums /\
    2 <= length (keptIndices 0 nums) /\
    endLabelsAreText (keptCategories cs (keptIndices 0 nums)) (keptNumbers nums) /\
    d = acceptedWaterfall dp cs nums.
Proof.
  intros Hcheck. pose proof Hcheck as Hagain. unfold validateWaterfall in Hcheck.
  apply bind_Normal in Hcheck as (categories & Hcategories & Hrest).
  destruct (truthy categories) eqn:Htl; simpl in Hrest; [|discriminate].
  apply getProp_truthy in Hcategories as (dp & -> & Hc); [|assumption].
  apply bind_Normal in Hrest as (values & Hvalues & Hrest).
  destruct categories as [| | | | |cs|]; try discriminate.
  destruct values as [| | | | |vs|]; try discriminate.
  assert (Hv : dp !! "values" = Some (VArr vs)).
  { simpl in Hvalues. destruct (dp !! "values"); simpl in Hvalues; congruence. }
  destruct (validateWaterfall_inv dp cs vs d Hc Hv Hagain)
    as (nums & Hnums & Hlen & Htext & ->).
  exists dp, cs, vs, nums. auto 10.
Qed.

(** What [validateResponse] can return: one of the two error responses, or
    the response itself with the accepted [data] of its chart type. *)
Lemma validateResponse_inv (response out : value) :
  validateResponse response = Normal out ->
  (exists msg, out = createErrorResponse msg) \/
  (exists msg, out = createWaterfallChartErrorResponse msg) \/
  (exists rp sp dp ls vs nums,
     response = VObj rp /\ rp !! "statistics" = Some (VObj sp) /\
     sp !! "type" = Some (VStr "pie_chart") /\ sp !! "data" = Some (VObj dp) /\
     dp !! "labels" = Some (VArr ls) /\ dp !! "values" = Some (VArr vs) /\
     mapM Number vs = Normal nums /\ 1 <= length (keptIndices 0 nums) /\
     out = withData (defaultInterpretation rp) sp (acceptedPie dp ls nums)) \/
  (exists rp sp dp cs vs nums,
     response = VObj rp /\ rp !! "statistics" = Some (VObj sp) /\
     sp !! "type" = Some (VStr "waterfall_chart") /\ sp !! "data" = Some (VObj dp) /\
     dp !! "categories" = Some (VArr cs) /\ dp !! "values" = Some (VArr vs) /\
     mapM Number vs = Normal nums /\ 2 <= length (keptIndices 0 nums) /\
     endLabelsAreText (keptCategories cs (keptIndices 0 nums)) (keptNumbers nums) /\
     out = withData (defaultInterpretation rp) sp (acceptedWaterfall dp cs nums)).
Proof.
  intros Hout. pose proof Hout as Hagain. unfold validateResponse in Hout.
  apply bind_Normal in Hout as (interp & Hinterp & Hout).
  apply bind_Normal in Hout as (response' & Hresponse' & Hout).
  apply bind_Normal in Hout as (statistics & Hstatistics & Hout).
  destruct (truthy statistics) eqn:Hts; simpl in Hout;
    [|injection Hout as <-; left; by eexists].
  apply bind_Normal in Hout as (type & Htype & Hout).
  destruct (truthy type) eqn:Htt; simpl in Hout;
    [|injection Hout as <-; left; by eexists].
  apply getProp_truthy in Hstatistics as (rp' & -> & Hrp'); [|assumption].
  apply getProp_truthy in Htype as (sp & -> & Hsp); [|assumption].
  assert (Hresponse : exists rp, response = VObj rp /\
                        rp !! "statistics" = Some (VObj sp)).
  { destruct (negb (truthy interp) || negb (isString interp)).
    - destruct response as [| | | | | |rp]; simpl in Hresponse'; try discriminate.
      injection Hresponse' as <-. exists rp. split; [reflexivity|].
      by rewrite lookup_insert_ne in Hrp' by discriminate.
    - injection Hresponse' as ->. eauto. }
  destruct Hresponse as (rp & -> & Hrp).
  assert (Hkind : (type = VStr "pie_chart" \/ type = VStr "waterfall_chart") \/
                  exists msg, out = createErrorResponse msg).
  { destruct (isText type "pie_chart") eqn:Hpie.
    { left. left. by apply isText_eq. }
    destruct (isText type "waterfall_chart") eqn:Hwaterfall.
    { left. right. by apply isText_eq. }
    simpl in Hout. apply bind_Normal in Hout as (shown & _ & [= <-]).
    right. by eexists. }
  destruct Hkind as [Hkind | Herror]; [|by left].
  assert (Hdata : (exists dp, sp !! "data" = Some (VObj dp)) \/
                  (exists msg, out = createErrorResponse msg) \/
                  (exists msg, out = createWaterfallChartErrorResponse msg)).
  { destruct Hkind as [-> | ->]; simpl in Hout.
    - destruct (sp !! "data") as [data|] eqn:Hdata; simpl in Hout;
        [|injection Hout as <-; right; left; by eexists].
      destruct (truthy data) eqn:Htd; simpl in Hout;
        [|injection Hout as <-; right; left; by eexists].
      destruct (validatePie data) as [[d|e]|err] eqn:Hcheck; simpl in Hout;
        injection Hout as <-.
      + apply validatePie_inv in Hcheck as (dp & ? & ? & ? & -> & _). left. by exists dp.
      + apply validatePie_sound in Hcheck as (msg & ->). right. left. by exists msg.
      + right. left. by eexists.
    - destruct (sp !! "data") as [data|] eqn:Hdata; simpl in Hout;
        [|injection Hout as <-; right; left; by eexists].
      destruct (truthy data) eqn:Htd; simpl in Hout;
        [|injection Hout as <-; right; left; by eexists].
      destruct (validateWaterfall data) as [[d|e]|err] eqn:Hcheck; simpl in Hout;
        injection Hout as <-.
      + apply validateWaterfall_accepts in Hcheck as (dp & ? & ? & ? & -> & _).
        left. by exists dp.
      + apply validateWaterfall_sound in Hcheck as (msg & ->). right. right. by exists msg.
      + right. left. by eexists. }
  destruct Hdata as [(dp & Hdp) | [Herror | Herror]]; [|by left|by right; left].
  destruct Hkind as [-> | ->].
  - rewrite (validateResponse_chart rp sp dp "pie_chart" Hrp Hsp Hdp) in Hagain
      by (by left).
    simpl in Hagain.
    destruct (validatePie (VObj dp)) as [[d|e]|err] eqn:Hcheck; simpl in Hagain;
      injection Hagain as <-.
    + apply validatePie_inv in Hcheck as (dp' & ls & vs & nums & [= <-] & Hrest).
      right. right. left. exists rp, sp, dp, ls, vs, nums.
      destruct Hrest as (? & ? & ? & ? & ->). auto 10.
    + apply validatePie_sound in Hcheck as (msg & ->). left. by exists msg.
    + left. by eexists.
  - rewrite (validateResponse_chart rp sp dp "waterfall_chart" Hrp Hsp Hdp) in Hagain
      by (by right).
    simpl in Hagain.
    destruct (validateWaterfall (VObj dp)) as [[d|e]|err] eqn:Hcheck; simpl in Hagain;
      injection Hagain as <-.
    + apply validateWaterfall_accepts in Hcheck
        as (dp' & cs & vs & nums & [= <-] & Hrest).
      right. right. right. exists rp, sp, dp, cs, vs, nums.
      destruct Hrest as (? & ? & ? & ? & ? & ->). auto 12.
    + apply validateWaterfall_sound in Hcheck as (msg & ->). right. left. by exists msg.
    + left. by eexists.
Qed.


Lemma field_withData_values_pie (rp sp dp : gmap string value) (ls : list value)
    (nums : list float) :
  statisticsData (withData rp sp (acceptedPie dp ls nums)) "values" =
  VArr (VNum <$> keptNumbers nums).
Proof.
  rewrite statisticsData_withData. apply (field_acceptedPie dp ls nums).
Qed.

(** X9.  Every response the validator returns carries numbers: each element
    of [values] is a number and none of them is NaN, whatever the model
    sent (strings, booleans, null, missing entries). *)
Theorem validated_values_are_numbers (response out : value) :
  validateResponse response = Normal out ->
  exists nums, statisticsData out "values" = VArr (VNum <$> nums) /\
    Forall (fun n => PrimFloat.is_nan n = false) nums.
Proof.
  intros Hout.
  destruct (validateResponse_inv _ _ Hout)
    as [(msg & ->) | [(msg & ->) | [Hpie | Hwaterfall]]].
  - exists [100%float]. split; [reflexivity|]. repeat constructor.
  - exists [0%float; 0%float; 0%float]. split; [reflexivity|]. repeat constructor.
  - destruct Hpie as (rp & sp & dp & ls & vs & nums & _ & _ & _ & _ & _ & _ & _ & _ & ->).
    exists (keptNumbers nums). split; [apply field_withData_values_pie|].
    apply keptNumbers_clean.
  - destruct Hwaterfall
      as (rp & sp & dp & cs & vs & nums & _ & _ & _ & _ & _ & _ & _ & _ & _ & ->).
    exists (keptNumbers nums). split; [|apply keptNumbers_clean].
    rewrite statisticsData_withData. apply field_acceptedWaterfall_values.
Qed.


Lemma validateResponse_pie (rp sp dp : gmap string value) (ls vs : list value)
    (nums : list float) :
  rp !! "statistics" = Some (VObj sp) ->
  sp !! "type" = Some (VStr "pie_chart") ->
  sp !! "data" = Some (VObj dp) ->
  dp !! "labels" = Some (VArr ls) -> dp !! "values" = Some (VArr vs) ->
  mapM Number vs = Normal nums ->
  1 <= length (keptIndices 0 nums) ->
  validateResponse (VObj rp) =
  Normal (withData (defaultInterpretation rp) sp (acceptedPie dp ls nums)).
Proof.
  intros Hrp Hsp Hdp Hl Hv Hnums Hlen.
  rewrite (validateResponse_chart rp sp dp "pie_chart" Hrp Hsp Hdp) by (by left).
  simpl. rewrite (validatePie_numeric dp ls vs nums Hl Hv Hnums).
  destruct (length (keptIndices 0 nums) =? 0)%nat eqn:Hzero;
    [apply Nat.eqb_eq in Hzero; lia | reflexivity].
Qed.

Lemma validateResponse_waterfall (rp sp dp : gmap string value)
    (cs vs : list value) (nums : list float) :
  rp !! "statistics" = Some (VObj sp) ->
  sp !! "type" = Some (VStr "waterfall_chart") ->
  sp !! "data" = Some (VObj dp) ->
  dp !! "categories" = Some (VArr cs) -> dp !! "values" = Some (VArr vs) ->
  mapM Number vs = Normal nums ->
  2 <= length (keptIndices 0 nums) ->
  endLabelsAreText (keptCategories cs (keptIndices 0 nums)) (keptNumbers nums) ->
  validateResponse (VObj rp) =
  Normal (withData (defaultInterpretation rp) sp (acceptedWaterfall dp cs nums)).
Proof.
  intros Hrp Hsp Hdp Hc Hv Hnums Hlen Htext.
  rewrite (validateResponse_chart rp sp dp "waterfall_chart" Hrp Hsp Hdp)
    by (by right).
  simpl.
  rewrite (validateWaterfall_numeric dp cs vs nums Hc Hv Hnums (fun _ => Htext)).
  destruct (length (keptIndices 0 nums) <? 2)%nat eqn:Hlt;
    [apply Nat.ltb_lt in Hlt; lia | reflexivity].
Qed.

Lemma getIndex_seq_padded (l : list value) (n : nat) :
  (fun idx => getIndex l idx) <$> seq 0 n =
  (take n l ++ replicate (n - length l) VUndefined)%list.
Proof.
  apply list_eq. intros i. rewrite list_lookup_fmap.
  destruct (decide (i < n)) as [Hi|Hi].
  - rewrite lookup_seq_lt by exact Hi. simpl. unfold getIndex.
    destruct (decide (i < length l)) as [Hl|Hl].
    + rewrite lookup_app_l by (rewrite length_take; lia).
      rewrite lookup_take_lt by exact Hi.
      destruct (lookup_lt_is_Some_2 l i Hl) as [x ->]. reflexivity.
    + rewrite lookup_app_r by (rewrite length_take; lia).
      rewrite (lookup_ge_None_2 l i) by lia. simpl. symmetry.
      apply lookup_replicate_2. rewrite length_take. lia.
  - rewrite lookup_seq_ge by lia. simpl. symmetry.
    apply lookup_ge_None_2. rewrite length_app, length_take, length_replicate. lia.
Qed.

(** X10.  A pie chart whose [labels] and [values] differ in length is not
    refused.  When every value is numeric the values are kept as they
    coerce, and the labels are cut to the number of values or filled up
    with [undefined]. *)
Theorem unequal_pie_lengths_are_repaired
    (rp sp dp : gmap string value) (ls vs : list value) (nums : list float) :
  rp !! "statistics" = Some (VObj sp) ->
  sp !! "type" = Some (VStr "pie_chart") ->
  sp !! "data" = Some (VObj dp) ->
  dp !! "labels" = Some (VArr ls) -> dp !! "values" = Some (VArr vs) ->
  mapM Number vs = Normal nums ->
  Forall (fun n => PrimFloat.is_nan n = false) nums ->
  vs <> [] ->
  exists out,
    validateResponse (VObj rp) = Normal out /\
    statisticsType out = VStr "pie_chart" /\
    statisticsData out "labels" =
      VArr (take (length vs) ls ++
            replicate (length vs - length ls) VUndefined)%list /\
    statisticsData out "values" = VArr (VNum <$> nums).
Proof.
  intros Hrp Hsp Hdp Hl Hv Hnums Hclean Hvs.
  pose proof (mapM_length _ _ _ Hnums) as Hlen.
  assert (Hkept : 1 <= length (keptIndices 0 nums)).
  { rewrite (keptIndices_clean 0 nums Hclean), length_seq, Hlen.
    destruct vs; [contradiction | simpl; lia]. }
  eexists. split; [exact (validateResponse_pie _ _ _ _ _ _ Hrp Hsp Hdp Hl Hv Hnums Hkept)|].
  split; [by apply statisticsType_withData|].
  rewrite !statisticsData_withData.
  destruct (field_acceptedPie dp ls nums) as [-> ->].
  rewrite (keptIndices_clean 0 nums Hclean), (keptNumbers_id nums Hclean), Hlen.
  rewrite getIndex_seq_padded. split; reflexivity.
Qed.

Lemma field_acceptedPie_colors (dp : gmap string value) (ls : list value)
    (nums : list float) :
  field (acceptedPie dp ls nums) "colors" =
  if truthy (default VUndefined (dp !! "colors"))
  then default VUndefined (dp !! "colors")
  else VArr (imap (fun i _ =>
               VStr (default "" (defaultColors !! (i mod length defaultColors))))
               ((fun idx => getIndex ls idx) <$> keptIndices 0 nums)).
Proof.
  unfold acceptedPie, pieColors, field.
  rewrite !lookup_insert_ne by discriminate.
  destruct (truthy (default VUndefined (dp !! "colors"))).
  - rewrite !lookup_insert_ne by discriminate. reflexivity.
  - rewrite lookup_insert_eq. reflexivity.
Qed.

(** X11.  The colours of an accepted pie chart.  Colours that came with the
    response are returned as they came: they are not checked against the
    labels.  When there are none, one colour per kept label is filled in,
    the eight default colours in order and again from the first. *)
Theorem pie_colours_default_to_palette
    (rp sp dp : gmap string value) (ls vs : list value) (nums : list float) :
  rp !! "statistics" = Some (VObj sp) ->
  sp !! "type" = Some (VStr "pie_chart") ->
  sp !! "data" = Some (VObj dp) ->
  dp !! "labels" = Some (VArr ls) -> dp !! "values" = Some (VArr vs) ->
  mapM Number vs = Normal nums ->
  1 <= length (keptIndices 0 nums) ->
  exists out,
    validateResponse (VObj rp) = Normal out /\
    (truthy (default VUndefined (dp !! "colors")) = true ->
     statisticsData out "colors" = default VUndefined (dp !! "colors")) /\
    (truthy (default VUndefined (dp !! "colors")) = false ->
     exists colors,
       statisticsData out "colors" = VArr colors /\
       length colors = length (keptIndices 0 nums) /\
       forall i, i < length colors ->
         colors !! i = VStr <$> defaultColors !! (i mod 8)).
Proof.
  intros Hrp Hsp Hdp Hl Hv Hnums Hkept.
  eexists. split; [exact (validateResponse_pie _ _ _ _ _ _ Hrp Hsp Hdp Hl Hv Hnums Hkept)|].
  rewrite statisticsData_withData, field_acceptedPie_colors.
  split; intros ->; [reflexivity|].
  eexists. split; [reflexivity|].
  rewrite length_imap, length_fmap. split; [reflexivity|].
  intros i Hi. rewrite list_lookup_imap.
  destruct (lookup_lt_is_Some_2 ((fun idx => getIndex ls idx) <$> keptIndices 0 nums) i)
    as [x ->]; [by rewrite length_fmap|].
  change (length defaultColors) with 8.
  destruct (lookup_lt_is_Some_2 defaultColors (i mod 8)) as [c Hc].
  { change (length defaultColors) with 8. apply Nat.mod_upper_bound. lia. }
  cbn beta. rewrite Hc. reflexivity.
Qed.


(** ** Validating twice *)

Lemma defaultInterpretation_fixed (rp : gmap string value) :
  defaultInterpretation (defaultInterpretation rp) = defaultInterpretation rp.
Proof.
  unfold defaultInterpretation.
  destruct (rp !! "interpretation") as [[| | | |text| |]|] eqn:Hi;
    rewrite ?lookup_insert_eq; simpl; try reflexivity.
  destruct (String.eqb text "") eqn:Htext.
  - rewrite lookup_insert_eq. reflexivity.
  - rewrite Hi, Htext. reflexivity.
Qed.

Lemma defaultInterpretation_insert (rp : gmap string value) (x : value) :
  defaultInterpretation (<["statistics" := x]> rp) =
  <["statistics" := x]> (defaultInterpretation rp).
Proof.
  unfold defaultInterpretation. rewrite lookup_insert_ne by discriminate.
  destruct (rp !! "interpretation") as [[| | | |text| |]|];
    try (apply insert_insert_ne; discriminate).
  destruct (String.eqb text ""); [apply insert_insert_ne; discriminate | reflexivity].
Qed.

(** Writing the data back a second time changes nothing. *)
Lemma withData_again (rp sp : gmap string value) (d : value) :
  withData (defaultInterpretation
              (<["statistics" := VObj (<["data" := d]> sp)]> (defaultInterpretation rp)))
           (<["data" := d]> sp) d =
  withData (defaultInterpretation rp) sp d.
Proof.
  unfold withData.
  rewrite defaultInterpretation_insert, defaultInterpretation_fixed.
  rewrite !insert_insert_eq. reflexivity.
Qed.

Lemma pieColors_truthy (dp : gmap string value) (labels : list value) :
  truthy (default VUndefined (pieColors dp labels !! "colors")) = true.
Proof.
  unfold pieColors.
  destruct (truthy (default VUndefined (dp !! "colors"))) eqn:Hc; [exact Hc|].
  rewrite lookup_insert_eq. reflexivity.
Qed.

Lemma pieColors_fixed (dp : gmap string value) (labels labels' : list value) :
  pieColors (pieColors dp labels) labels' = pieColors dp labels.
Proof.
  unfold pieColors at 1. rewrite pieColors_truthy. reflexivity.
Qed.

Lemma lookup_pieColors_ne (dp : gmap string value) (labels : list value)
    (k : string) :
  k <> "colors" -> pieColors dp labels !! k = dp !! k.
Proof.
  intros Hk. unfold pieColors.
  destruct (truthy _); [reflexivity|]. by rewrite lookup_insert_ne.
Qed.

Lemma keptIndices_keptNumbers (nums : list float) :
  keptIndices 0 (keptNumbers nums) = seq 0 (length (keptIndices 0 nums)).
Proof.
  rewrite (keptIndices_clean 0 _ (keptNumbers_clean nums)).
  by rewrite (keptNumbers_length 0).
Qed.

Lemma keptNumbers_keptNumbers (nums : list float) :
  keptNumbers (keptNumbers nums) = keptNumbers nums.
Proof. apply keptNumbers_id, keptNumbers_clean. Qed.

Lemma acceptedPie_fixed (dp dp' : gmap string value) (ls : list value)
    (nums : list float) :
  acceptedPie dp ls nums = VObj dp' ->
  acceptedPie dp' ((fun idx => getIndex ls idx) <$> keptIndices 0 nums)
    (keptNumbers nums) = VObj dp'.
Proof.
  intros [= <-]. unfold acceptedPie at 1.
  rewrite keptIndices_keptNumbers, keptNumbers_keptNumbers.
  set (kept := (fun idx => getIndex ls idx) <$> keptIndices 0 nums).
  assert (Hkept : (fun idx => getIndex kept idx) <$> seq 0 (length (keptIndices 0 nums))
                  = kept).
  { replace (length (keptIndices 0 nums)) with (length kept)
      by (unfold kept; apply length_fmap).
    apply getIndex_seq_all. }
  rewrite Hkept.
  rewrite (insert_id _ "labels" (VArr kept))
    by (rewrite lookup_pieColors_ne by discriminate;
        rewrite lookup_insert_ne by discriminate; apply lookup_insert_eq).
  rewrite (insert_id _ "values" (VArr (VNum <$> keptNumbers nums)))
    by (rewrite lookup_pieColors_ne by discriminate; apply lookup_insert_eq).
  rewrite pieColors_fixed. reflexivity.
Qed.


Lemma relabelStart_fixed (firstValue : float) (category : value) :
  relabelStart firstValue (relabelStart firstValue category) =
  relabelStart firstValue category.
Proof.
  destruct category as [| | | |text| |]; try reflexivity. simpl.
  destruct (PrimFloat.eqb firstValue 0 && negb (includes (toLowerCase text) "start"))
    eqn:Hcond; simpl.
  - rewrite andb_false_r. reflexivity.
  - rewrite Hcond. reflexivity.
Qed.

Lemma relabelEnd_fixed (category : value) :
  relabelEnd (relabelEnd category) = relabelEnd category.
Proof.
  destruct category as [| | | |text| |]; try reflexivity. simpl.
  destruct (negb (includes (toLowerCase text) "end") &&
            negb (includes (toLowerCase text) "total")) eqn:Hcond; simpl.
  - reflexivity.
  - rewrite Hcond. reflexivity.
Qed.

Lemma relabelStart_truthy (firstValue : float) (category : value) :
  truthy category = true -> truthy (relabelStart firstValue category) = true.
Proof.
  destruct category as [| | | |text| |]; try (intros; assumption). simpl.
  destruct (_ && _); [reflexivity | intros; assumption].
Qed.

Lemma relabelEnd_truthy (category : value) :
  truthy category = true -> truthy (relabelEnd category) = true.
Proof.
  destruct category as [| | | |text| |]; try (intros; assumption). simpl.
  destruct (_ && _); [reflexivity | intros; assumption].
Qed.

Lemma keptCategories_truthy (categories : list value) (validIndices : list nat) :
  Forall (fun c => truthy c = true) (keptCategories categories validIndices).
Proof.
  unfold keptCategories. apply Forall_fmap, Forall_forall. intros idx _. simpl.
  destruct (truthy (getIndex categories idx)) eqn:Hc; [exact Hc | reflexivity].
Qed.

Lemma getIndex_truthy (l : list value) (i : nat) :
  Forall (fun c => truthy c = true) l -> i < length l ->
  truthy (getIndex l i) = true.
Proof.
  intros Hl Hi. unfold getIndex.
  destruct (lookup_lt_is_Some_2 l i Hi) as [x Hx]. rewrite Hx. simpl.
  exact (proj1 (Forall_lookup _ l) Hl i x Hx).
Qed.

Lemma relabelled_truthy (categories : list value) (values : list float) :
  Forall (fun c => truthy c = true) categories ->
  Forall (fun c => truthy c = true) (relabelled categories values).
Proof.
  intros Hall. unfold relabelled.
  destruct categories as [|c rest]; [constructor|].
  apply Forall_insert; [apply Forall_insert; [exact Hall|]|].
  - apply relabelStart_truthy, getIndex_truthy; [exact Hall | simpl; lia].
  - apply relabelEnd_truthy, getIndex_truthy; [exact Hall | simpl; lia].
Qed.

Lemma keptCategories_all (categories : list value) :
  Forall (fun c => truthy c = true) categories ->
  keptCategories categories (seq 0 (length categories)) = categories.
Proof.
  intros Hall. rewrite <- (getIndex_seq_all categories) at 3.
  unfold keptCategories. apply list_fmap_ext. intros i idx Hidx.
  apply lookup_seq in Hidx as [-> Hi]. simpl.
  rewrite getIndex_truthy by assumption. reflexivity.
Qed.

Lemma getIndex_lookup (l : list value) (i : nat) (x : value) :
  l !! i = Some x -> getIndex l i = x.
Proof. intros Hx. unfold getIndex. by rewrite Hx. Qed.

Lemma relabelled_fixed (categories : list value) (values : list float) :
  2 <= length categories ->
  relabelled (relabelled categories values) values = relabelled categories values.
Proof.
  intros Hlen.
  destruct (lookup_lt_is_Some_2 categories 0 ltac:(lia)) as [c0 Hc0].
  destruct (lookup_lt_is_Some_2 categories (length categories - 1) ltac:(lia))
    as [cl Hcl].
  pose proof (relabelled_first categories values Hlen) as Hfirst.
  pose proof (relabelled_last categories values Hlen) as Hlast.
  rewrite Hc0 in Hfirst. rewrite Hcl in Hlast. simpl in Hfirst, Hlast.
  unfold relabelled at 1. rewrite relabelled_length.
  rewrite (getIndex_lookup _ _ _ Hfirst), (getIndex_lookup _ _ _ Hlast).
  rewrite relabelStart_fixed, relabelEnd_fixed.
  rewrite (list_insert_id _ 0 _ Hfirst).
  apply list_insert_id. exact Hlast.
Qed.

Lemma relabelled_text (categories : list value) (values : list float) :
  2 <= length categories -> endLabelsAreText categories values ->
  endLabelsAreText (relabelled categories values) values.
Proof.
  intros Hlen [Hfirst (last & Hlast)]. split.
  - intros Hzero. destruct (Hfirst Hzero) as (text & Htext).
    rewrite relabelled_first, Htext by exact Hlen. simpl.
    destruct (_ && _); eauto.
  - rewrite relabelled_length, relabelled_last, Hlast by exact Hlen. simpl.
    destruct (_ && _); eauto.
Qed.

Lemma withDefaultText_truthy (dp : gmap string value) (key text : string) :
  String.eqb text "" = false ->
  truthy (default VUndefined (withDefaultText dp key text !! key)) = true.
Proof.
  intros Htext. unfold withDefaultText.
  destruct (truthy (default VUndefined (dp !! key))) eqn:Hk; [exact Hk|].
  rewrite lookup_insert_eq. simpl. by rewrite Htext.
Qed.

Lemma withDefaultText_id (dp : gmap string value) (key text : string) :
  truthy (default VUndefined (dp !! key)) = true ->
  withDefaultText dp key text = dp.
Proof. intros Hk. unfold withDefaultText. by rewrite Hk. Qed.

Lemma acceptedWaterfall_fixed (dp dp' : gmap string value) (cs : list value)
    (nums : list float) :
  2 <= length (keptIndices 0 nums) ->
  acceptedWaterfall dp cs nums = VObj dp' ->
  acceptedWaterfall dp'
    (relabelled (keptCategories cs (keptIndices 0 nums)) (keptNumbers nums))
    (keptNumbers nums) = VObj dp'.
Proof.
  intros Hlen [= <-]. unfold acceptedWaterfall at 1.
  set (kept := keptCategories cs (keptIndices 0 nums)).
  assert (Hklen : length kept = length (keptIndices 0 nums))
    by (unfold kept, keptCategories; apply length_fmap).
  rewrite keptIndices_keptNumbers, keptNumbers_keptNumbers.
  replace (length (keptIndices 0 nums))
    with (length (relabelled kept (keptNumbers nums)))
    by (rewrite relabelled_length; exact Hklen).
  rewrite keptCategories_all
    by (apply relabelled_truthy, keptCategories_truthy).
  rewrite relabelled_fixed by lia.
  set (cats := relabelled kept (keptNumbers nums)).
  set (base := <["categories" := VArr cats]>
                 (<["values" := VArr (VNum <$> keptNumbers nums)]>
                    (<["categories" := VArr kept]> dp))).
  set (dp1 := withDefaultText base "increaseLabelText" "Increase").
  set (dp2 := withDefaultText dp1 "decreaseLabelText" "Decrease").
  set (dp3 := withDefaultText dp2 "totalLabelText" "Total").
  assert (Hcats : dp3 !! "categories" = Some (VArr cats)).
  { unfold dp3, dp2, dp1. rewrite !lookup_withDefaultText_ne by discriminate.
    apply lookup_insert_eq. }
  assert (Hvals : dp3 !! "values" = Some (VArr (VNum <$> keptNumbers nums))).
  { unfold dp3, dp2, dp1. rewrite !lookup_withDefaultText_ne by discriminate.
    unfold base. rewrite lookup_insert_ne by discriminate. apply lookup_insert_eq. }
  rewrite (insert_id dp3 "categories" _ Hcats).
  rewrite (insert_id dp3 "values" _ Hvals).
  rewrite (insert_id dp3 "categories" _ Hcats).
  rewrite (withDefaultText_id dp3 "increaseLabelText").
  2:{ unfold dp3, dp2. rewrite !lookup_withDefaultText_ne by discriminate.
      by apply withDefaultText_truthy. }
  rewrite (withDefaultText_id dp3 "decreaseLabelText").
  2:{ unfold dp3. rewrite !lookup_withDefaultText_ne by discriminate.
      by apply withDefaultText_truthy. }
  rewrite (withDefaultText_id dp3 "totalLabelText")
    by (by apply withDefaultText_truthy).
  reflexivity.
Qed.

(** X12.  A response the validator accepted is a fixed point of the
    validator: validating it again returns it unchanged.  The error
    responses are left out, since a second pass completes them with
    colours or label texts ([createPieChartErrorResponse] builds the same
    value as [createErrorResponse]). *)
Theorem accepted_response_is_fixed_point (response out : value) :
  validateResponse response = Normal out ->
  (forall msg, out <> createErrorResponse msg) ->
  (forall msg, out <> createWaterfallChartErrorResponse msg) ->
  validateResponse out = Normal out.
Proof.
  intros Hout Hpie Hwaterfall.
  destruct (validateResponse_inv _ _ Hout)
    as [(msg & ->) | [(msg & ->) | [Hp | Hw]]].
  - destruct (Hpie msg eq_refl).
  - destruct (Hwaterfall msg eq_refl).
  - destruct Hp as (rp & sp & dp & ls & vs & nums & _ & Hrp & Hsp & Hdp & Hl & Hv
                    & Hnums & Hkept & ->).
    destruct (acceptedPie dp ls nums) as [| | | | | |dp'] eqn:Haccepted;
      try discriminate.
    unfold withData at 1.
    rewrite (validateResponse_pie _ (<["data" := VObj dp']> sp) dp'
               ((fun idx => getIndex ls idx) <$> keptIndices 0 nums)
               (VNum <$> keptNumbers nums) (keptNumbers nums)).
    + rewrite (acceptedPie_fixed dp dp' ls nums Haccepted). apply f_equal.
      apply withData_again.
    + apply lookup_insert_eq.
    + by rewrite lookup_insert_ne by discriminate.
    + apply lookup_insert_eq.
    + pose proof (field_acceptedPie dp ls nums) as [Hlabels _].
      rewrite Haccepted in Hlabels. simpl in Hlabels.
      destruct (dp' !! "labels"); simpl in Hlabels; congruence.
    + pose proof (field_acceptedPie dp ls nums) as [_ Hvalues].
      rewrite Haccepted in Hvalues. simpl in Hvalues.
      destruct (dp' !! "values"); simpl in Hvalues; congruence.
    + apply mapM_Number_VNum.
    + rewrite keptIndices_keptNumbers, length_seq. exact Hkept.
  - destruct Hw as (rp & sp & dp & cs & vs & nums & _ & Hrp & Hsp & Hdp & Hc & Hv
                    & Hnums & Hkept & Htext & ->).
    destruct (acceptedWaterfall dp cs nums) as [| | | | | |dp'] eqn:Haccepted;
      try discriminate.
    unfold withData at 1.
    assert (Hklen : length (keptCategories cs (keptIndices 0 nums)) =
                    length (keptIndices 0 nums))
      by (unfold keptCategories; apply length_fmap).
    rewrite (validateResponse_waterfall _ (<["data" := VObj dp']> sp) dp'
               (relabelled (keptCategories cs (keptIndices 0 nums)) (keptNumbers nums))
               (VNum <$> keptNumbers nums) (keptNumbers nums)).
    + rewrite (acceptedWaterfall_fixed dp dp' cs nums Hkept Haccepted).
      apply f_equal. apply withData_again.
    + apply lookup_insert_eq.
    + by rewrite lookup_insert_ne by discriminate.
    + apply lookup_insert_eq.
    + pose proof (field_acceptedWaterfall_categories dp cs nums) as Hcats.
      rewrite Haccepted in Hcats. simpl in Hcats.
      destruct (dp' !! "categories"); simpl in Hcats; congruence.
    + pose proof (field_acceptedWaterfall_values dp cs nums) as Hvalues.
      rewrite Haccepted in Hvalues. simpl in Hvalues.
      destruct (dp' !! "values"); simpl in Hvalues; congruence.
    + apply mapM_Number_VNum.
    + rewrite keptIndices_keptNumbers, length_seq. exact Hkept.
    + rewrite keptIndices_keptNumbers.
      replace (length (keptIndices 0 nums))
        with (length (relabelled (keptCategories cs (keptIndices 0 nums))
                        (keptNumbers nums)))
        by (rewrite relabelled_length; exact Hklen).
      rewrite keptCategories_all
        by (apply relabelled_truthy, keptCategories_truthy).
      rewrite keptNumbers_keptNumbers.
      apply relabelled_text; [lia | exact Htext].
Qed.


(** ** End labels that are not strings *)

Lemma lowerCaseIncludes_truthy (callee : string) (v : value) (needle : string) :
  truthy v = true ->
  (exists text, v = VStr text) \/
  (isString v = false /\
   lowerCaseIncludes callee v needle =
     Throw (Error "TypeError" (faultMessage (NotAFunction callee)))).
Proof.
  destruct v; simpl; try discriminate; eauto.
Qed.

Lemma relabelEnds_throws (cats : list value) (vals : list float) :
  2 <= length cats -> Forall (fun c => truthy c = true) cats ->
  ~ endLabelsAreText cats vals ->
  relabelEnds cats vals =
  Throw (Error "TypeError" (faultMessage (NotAFunction (failingCallee cats vals)))).
Proof.
  intros Hlen Hall Hnot. unfold relabelEnds, failingCallee.
  destruct (2 <=? length cats)%nat eqn:Hle; [|apply Nat.leb_gt in Hle; lia].
  destruct (lookup_lt_is_Some_2 cats 0 ltac:(lia)) as [c0 Hc0].
  destruct (lookup_lt_is_Some_2 cats (length cats - 1) ltac:(lia)) as [cl Hcl].
  pose proof (proj1 (Forall_lookup _ cats) Hall _ _ Hc0) as Ht0.
  pose proof (proj1 (Forall_lookup _ cats) Hall _ _ Hcl) as Htl.
  rewrite (getIndex_lookup _ _ _ Hc0).
  destruct (PrimFloat.eqb (default PrimFloat.nan (vals !! 0)) 0) eqn:Hzero.
  - destruct (lowerCaseIncludes_truthy "data.categories[0].toLowerCase" c0 "start" Ht0)
      as [(text & ->) | [-> ->]]; [|reflexivity].
    destruct (lowerCaseIncludes_truthy "data.categories[lastIdx].toLowerCase" cl "end" Htl)
      as [(last & ->) | [_ Hthrow]].
    { destruct Hnot. split; eauto. }
    simpl.
    assert (Hlast : forall l, length l = length cats ->
              l !! (length cats - 1) = Some cl ->
              getIndex l (length l - 1) = cl).
    { intros l Hl Hx. rewrite Hl. by apply getIndex_lookup. }
    destruct (negb (includes (toLowerCase text) "start")).
    + rewrite (Hlast (<[0 := VStr "Start"]> cats)).
      * rewrite Hthrow. reflexivity.
      * apply length_insert.
      * rewrite list_lookup_insert_ne by lia. exact Hcl.
    + rewrite (Hlast cats eq_refl Hcl), Hthrow. reflexivity.
  - simpl. rewrite (getIndex_lookup _ _ _ Hcl).
    destruct (lowerCaseIncludes_truthy "data.categories[lastIdx].toLowerCase" cl "end" Htl)
      as [(last & ->) | [_ ->]]; [|reflexivity].
    destruct Hnot. split; [intros Hz; congruence | eauto].
Qed.

(** X13.  A waterfall with two numeric values or more, one of whose
    inspected end labels (the first when the first value is 0, and the
    last) is not a string, is not returned as a waterfall: the call of
    [toLowerCase] throws, and the validator answers with the pie-shaped
    error response whose interpretation is "Validation error: " followed by
    the message the engine words for that call, which is the call on
    [data.categories[0]] when the first value is 0 and the first label is
    not a string, and the call on [data.categories[lastIdx]] otherwise. *)
Theorem non_text_end_label_gives_validation_error
    (rp sp dp : gmap string value) (cs vs : list value) (nums : list float) :
  rp !! "statistics" = Some (VObj sp) ->
  sp !! "type" = Some (VStr "waterfall_chart") ->
  sp !! "data" = Some (VObj dp) ->
  dp !! "categories" = Some (VArr cs) -> dp !! "values" = Some (VArr vs) ->
  mapM Number vs = Normal nums ->
  2 <= length (keptIndices 0 nums) ->
  ~ endLabelsAreText (keptCategories cs (keptIndices 0 nums)) (keptNumbers nums) ->
  validateResponse (VObj rp) =
  Normal (createErrorResponse
            ("Validation error: " ++
             faultMessage
               (NotAFunction
                  (if PrimFloat.eqb (default PrimFloat.nan (keptNumbers nums !! 0)) 0 &&
                      negb (isString
                              (getIndex (keptCategories cs (keptIndices 0 nums)) 0))
                   then "data.categories[0].toLowerCase"
                   else "data.categories[lastIdx].toLowerCase")))).
Proof.
  intros Hrp Hsp Hdp Hc Hv Hnums Hkept Hnot.
  rewrite (validateResponse_chart rp sp dp "waterfall_chart" Hrp Hsp Hdp)
    by (by right).
  simpl. unfold validateWaterfall. simpl. rewrite Hc, Hv. simpl.
  rewrite (validIndicesOf_Normal _ _ Hnums). simpl.
  destruct (length (keptIndices 0 nums) <? 2)%nat eqn:Hlt;
    [apply Nat.ltb_lt in Hlt; lia|].
  rewrite (numbersAt_kept _ _ Hnums). simpl.
  fold (keptCategories cs (keptIndices 0 nums)).
  rewrite relabelEnds_throws; [reflexivity| |apply keptCategories_truthy|exact Hnot].
  unfold keptCategories. rewrite length_fmap. exact Hkept.
Qed.

End ValidatorShapes.

(** ** The chat router *)

Section ChatFacts.

Context `{Engine}.

Lemma analysis_starts_with_query_request (w : collaborators) (question : string)
    (calls : list call) :
  onlyWhiteSpace question = false ->
  exists made,
    (run w (analyzeStatisticalQuestion question) calls).2 =
    (made ++ ResponsesCreate (Request (SqlPrompt question) None) :: calls)%list.
Proof.
  intros Hq. rewrite (run_analyzeStatisticalQuestion _ _ _ Hq). cbn zeta.
  destruct (model w calls _) as [text|err]; [|by exists []].
  destruct (includes (toUpperCase (trim text)) "SELECT"); [|by exists []].
  destruct (database w _ (trim text) []) as [rows|error];
    [|by exists [PoolQuery (trim text) []]].
  destruct (generateAnalysis_calls w rows question
              (PoolQuery (trim text) []
               :: ResponsesCreate (Request (SqlPrompt question) None) :: calls))
    as (made & Hmade & _).
  exists (made ++ [PoolQuery (trim text) []])%list.
  destruct (run w (generateAnalysis rows question) _) as [[result|error] after];
    cbn [snd] in *; rewrite Hmade, <- app_assoc; reflexivity.
Qed.

Lemma requestValidator_accepts (body : value) (question : string) (schema : value) :
  Chat.requestValidator body = Normal (inr (question, schema)) ->
  field body "question" = VStr question /\
  String.eqb question "" || String.eqb (trim question) "" = false /\
  (schema = VUndefined \/ exists text, schema = VStr text).
Proof.
  unfold Chat.requestValidator.
  intros (asked & Hasked & Hrest)%bind_Normal.
  destruct asked as [| | | |text| |]; try discriminate.
  destruct (String.eqb text "" || String.eqb (trim text) "") eqn:Hblank;
    [discriminate|].
  apply bind_Normal in Hrest as (given & _ & Hrest).
  assert (Hfield : field body "question" = VStr text).
  { apply getProp_truthy in Hasked as (props & -> & Hprops).
    - simpl. by rewrite Hprops.
    - simpl. apply orb_false_elim in Hblank as [Hempty _]. by rewrite Hempty. }
  destruct (truthy given) eqn:Hgiven; simpl in Hrest.
  - destruct given; try discriminate. injection Hrest as <- <-. eauto.
  - injection Hrest as <- <-. auto.
Qed.

(** X14.  What passes [requestValidator] is the [question] of the body, a
    string that holds more than white space, and a [schema] that is a
    string or absent.  For such a question the orchestrator does not
    answer from its own blank-question check: it goes on to the query
    request, which is the first call it makes. *)
Theorem validated_question_reaches_query_request
    (w : collaborators) (body : value) (question : string) (schema : value)
    (calls : list call) :
  Chat.requestValidator body = Normal (inr (question, schema)) ->
  field body "question" = VStr question /\
  onlyWhiteSpace question = false /\
  (schema = VUndefined \/ exists text, schema = VStr text) /\
  exists made,
    (run w (analyzeStatisticalQuestion question) calls).2 =
    (made ++ ResponsesCreate (Request (SqlPrompt question) None) :: calls)%list.
Proof.
  intros (Hfield & Hblank & Hschema)%requestValidator_accepts.
  assert (Hq : onlyWhiteSpace question = false).
  { destruct (onlyWhiteSpace question) eqn:Hq; [|reflexivity].
    rewrite (blank_question _ Hq) in Hblank. discriminate. }
  repeat (split; [assumption|]).
  by apply analysis_starts_with_query_request.
Qed.


Lemma get_Some (st : Chat.store) (sessionId : string) (l : nat)
    (session : Chat.ChatSession) :
  Chat.get st sessionId = Some (l, session) <->
  Chat.chatSessions st !! sessionId = Some l /\ Chat.objects st !! l = Some session.
Proof.
  unfold Chat.get. destruct (Chat.chatSessions st !! sessionId) as [l'|]; simpl.
  - destruct (Chat.objects st !! l') as [session'|] eqn:Hobject; simpl.
    + split; [intros [= <- <-]; auto | intros [[= <-] Hs]; congruence].
    + split; [discriminate | intros [[= <-] Hs]; congruence].
  - split; [discriminate | intros [? _]; discriminate].
Qed.

Lemma get_update (f : Chat.ChatSession -> Chat.ChatSession) (st : Chat.store)
    (sessionId : string) (l : nat) (session : Chat.ChatSession) :
  Chat.get st sessionId = Some (l, session) ->
  Chat.get (Chat.update f l st) sessionId = Some (l, f session).
Proof.
  intros [Hmap Hobject]%get_Some. apply get_Some. split; [exact Hmap|]. simpl.
  by rewrite list_lookup_alter_eq, Hobject.
Qed.

Lemma get_register (st : Chat.store) (sessionId : string) (l : nat)
    (session : Chat.ChatSession) :
  Chat.objects st !! l = Some session ->
  Chat.get (Chat.register sessionId l st) sessionId = Some (l, session).
Proof.
  intros Hobject. apply get_Some. split; [apply lookup_insert_eq | exact Hobject].
Qed.

Lemma register_known (st : Chat.store) (sessionId : string) (l : nat) :
  Chat.chatSessions st !! sessionId = Some l -> Chat.register sessionId l st = st.
Proof.
  intros Hmap. destruct st as [objects sessions]. unfold Chat.register. simpl in *.
  by rewrite insert_id.
Qed.

(** The outcome of the analysis as the message handler reads it. *)
Lemma messageEnd_result (sessionId : string) (l : nat) (result : value)
    (replied touched : float) (st : Chat.store) :
  wellFormed result ->
  Chat.messageEnd sessionId l (Normal result) replied touched st =
  (Chat.register sessionId l
     (Chat.update
        (fun session =>
           Chat.touch touched
             (Chat.push (Chat.systemEntry (field result "interpretation")
                           (field result "statistics") replied) session)) l st),
   Chat.Json (VObj {[ "success" := VBool true; "result" := result;
                      "sessionId" := VStr sessionId ]}) 200).
Proof.
  intros [[(text & Htext) _] _].
  destruct result as [| | | | | |props]; try discriminate. reflexivity.
Qed.

(** X15.  A message to a session that exists, when nothing else touches the
    store during the analysis.  The request is answered with 200 and the
    result of the orchestrator, whatever the model and the database do; the
    session's history grows by exactly two entries, the question and then
    the answer with the result's interpretation and statistics; its
    [updatedAt] is the last reading of the clock; the map of sessions and
    every other session object are as before. *)
Theorem message_appends_question_and_answer
    (w : collaborators) (sessionId : string) (body : value)
    (question : string) (schema : value) (sent replied touched : float)
    (st : Chat.store) (calls : list call) (l : nat) (session : Chat.ChatSession) :
  Chat.requestValidator body = Normal (inr (question, schema)) ->
  Chat.get st sessionId = Some (l, session) ->
  exists result st' calls',
    run w (analyzeStatisticalQuestion question) calls = (Normal result, calls') /\
    wellFormed result /\
    Chat.postMessage w sessionId body sent replied touched st calls =
      (st',
       Chat.Json (VObj {[ "success" := VBool true; "result" := result;
                          "sessionId" := VStr sessionId ]}) 200,
       calls') /\
    Chat.get st' sessionId =
      Some (l, Chat.Session (Chat.id session)
                 (Chat.history session ++
                  [Chat.userEntry question sent;
                   Chat.systemEntry (field result "interpretation")
                     (field result "statistics") replied])
                 (Chat.createdAt session) touched) /\
    Chat.chatSessions st' = Chat.chatSessions st /\
    forall l', l' <> l -> Chat.objects st' !! l' = Chat.objects st !! l'.
Proof.
  intros Hvalid Hget.
  destruct (analyzeStatisticalQuestion_run w question calls)
    as (result & calls' & Hrun & Hwell & _).
  pose proof Hget as [Hmap Hobject]%get_Some.
  eexists result, _, calls'. split; [exact Hrun|]. split; [exact Hwell|].
  split.
  { unfold Chat.postMessage. rewrite Hvalid.
    unfold Chat.messageBegin. rewrite Hget, Hrun. cbn [fst snd].
    rewrite (messageEnd_result _ _ _ _ _ _ Hwell). reflexivity. }
  split.
  { cbn [fst]. rewrite register_known by exact Hmap.
    rewrite (get_update _ _ sessionId l
               (Chat.push (Chat.userEntry question sent) session))
      by (by apply get_update).
    unfold Chat.touch, Chat.push. simpl. rewrite <- app_assoc. reflexivity. }
  split.
  { cbn [fst]. rewrite register_known by exact Hmap. reflexivity. }
  intros l' Hl'. cbn [fst]. rewrite register_known by exact Hmap. simpl.
  rewrite !list_lookup_alter_ne by congruence. reflexivity.
Qed.

(** What the validator refuses, it refuses with 400. *)
Lemma requestValidator_refuses (body : value) (refused : Chat.response) :
  Chat.requestValidator body = Normal (inl refused) -> Chat.status refused = 400.
Proof.
  unfold Chat.requestValidator. intros (asked & _ & Hvalid)%bind_Normal.
  destruct asked as [| | | |text| |]; try (injection Hvalid as <-; reflexivity).
  destruct (_ || _); [injection Hvalid as <-; reflexivity|].
  apply bind_Normal in Hvalid as (given & _ & Hvalid).
  destruct (_ && _); [injection Hvalid as <-; reflexivity | discriminate].
Qed.

(** The validator throws on the bodies that have no properties to read, and
    on no other. *)
Lemma requestValidator_throws (body : value) :
  (exists error, Chat.requestValidator body = Throw error) <->
  body = VNull \/ body = VUndefined.
Proof.
  split.
  - intros [error Hthrow].
    destruct body as [| | | | | |props]; auto; exfalso;
      unfold Chat.requestValidator in Hthrow; simpl in Hthrow;
      try discriminate.
    destruct (default VUndefined (props !! "question")) as [| | | |text| |];
      try discriminate.
    destruct (_ || _); [discriminate|].
    destruct (_ && _); discriminate.
  - intros [-> | ->]; eexists; reflexivity.
Qed.

(** X16.  A message to a session the map does not hold leaves the store as
    it was and starts no analysis, so no call is made.  It is answered with
    404 "Session not found" when its body passes the validator, with the 400
    of the validator when the body is refused before the session is looked
    up, and with the 500 "Internal Server Error" of the framework when the
    validator throws, which it does on a null body. *)
Theorem message_to_unknown_session
    (w : collaborators) (sessionId : string) (body : value)
    (sent replied touched : float) (st : Chat.store) (calls : list call) :
  Chat.chatSessions st !! sessionId = None ->
  exists reply,
    Chat.postMessage w sessionId body sent replied touched st calls =
      (st, reply, calls) /\
    match Chat.requestValidator body with
    | Normal (inr _) => reply = Chat.sessionNotFound
    | Normal (inl refused) => reply = refused /\ Chat.status refused = 400
    | Throw _ =>
        reply = Chat.internalServerError /\ (body = VNull \/ body = VUndefined)
    end.
Proof.
  intros Hmap. unfold Chat.postMessage.
  destruct (Chat.requestValidator body) as [[refused|[question schema]]|error]
    eqn:Hvalid.
  - exists refused. split; [reflexivity|]. split; [reflexivity|].
    by apply (requestValidator_refuses body).
  - unfold Chat.messageBegin, Chat.get. rewrite Hmap. simpl.
    exists Chat.sessionNotFound. split; reflexivity.
  - exists Chat.internalServerError. split; [reflexivity|]. split; [reflexivity|].
    apply requestValidator_throws. by exists error.
Qed.

(** X17.  The analysis endpoints answer 500 to a null body and to no other.
    On a null (or undefined) body the validator throws before the handler
    runs, and the framework answers 500 "Internal Server Error" with no call
    made and the store untouched.  On every other body the answer is 200 or
    the 400 of the validator (or 404 from the message handler): the
    orchestrator fulfils with a response object on every path, so the
    [catch] of the handlers, with its 500, is not entered. *)
Theorem analysis_endpoints_answer_500_only_to_null_body
    (w : collaborators) (body : value) (calls : list call) :
  (body = VNull \/ body = VUndefined ->
   Chat.analyze w body calls = (Chat.internalServerError, calls) /\
   forall sessionId sent replied touched st,
     Chat.postMessage w sessionId body sent replied touched st calls =
     (st, Chat.internalServerError, calls)) /\
  (body <> VNull -> body <> VUndefined ->
   (Chat.status (Chat.analyze w body calls).1 = 200 \/
    Chat.status (Chat.analyze w body calls).1 = 400) /\
   forall sessionId sent replied touched st,
     Chat.status (Chat.postMessage w sessionId body sent replied touched st calls).1.2
       = 200 \/
     Chat.status (Chat.postMessage w sessionId body sent replied touched st calls).1.2
       = 400 \/
     Chat.status (Chat.postMessage w sessionId body sent replied touched st calls).1.2
       = 404).
Proof.
  split.
  - intros [-> | ->]; split; reflexivity.
  - intros Hnull Hundefined.
    assert (Hnormal : forall error, Chat.requestValidator body <> Throw error).
    { intros error Hthrow.
      destruct (proj1 (requestValidator_throws body)) as [-> | ->];
        [by exists error|done|done]. }
    split.
    + unfold Chat.analyze.
      destruct (Chat.requestValidator body) as [[refused|[question schema]]|error]
        eqn:Hvalid; [| |by destruct (Hnormal error)].
      * right. by apply (requestValidator_refuses body).
      * destruct (analyzeStatisticalQuestion_run w question calls)
          as (result & after & Hrun & _).
        rewrite Hrun. by left.
    + intros sessionId sent replied touched st. unfold Chat.postMessage.
      destruct (Chat.requestValidator body) as [[refused|[question schema]]|error]
        eqn:Hvalid; [| |by destruct (Hnormal error)].
      * right. left. by apply (requestValidator_refuses body).
      * destruct (Chat.messageBegin sessionId question sent st) as [notFound|[st1 l]]
          eqn:Hbegin.
        -- right. right. unfold Chat.messageBegin in Hbegin.
           destruct (Chat.get st sessionId) as [[? ?]|]; [discriminate|].
           by injection Hbegin as <-.
        -- destruct (analyzeStatisticalQuestion_run w question calls)
             as (result & after & Hrun & Hwell & _).
           rewrite Hrun. cbn [fst snd].
           rewrite (messageEnd_result _ _ _ _ _ _ Hwell). by left.
Qed.


(** X18.  A reply that comes after the clean-up.  When a message reaches a
    session that has expired (the question does not refresh [updatedAt])
    and the hourly clean-up runs while the analysis is awaited, the session
    is deleted from the map, and the end of the handler puts it back: the
    id is known again, with the whole history, the question and the answer
    included. *)
Theorem late_reply_restores_expired_session
    (sessionId question : string) (sent now replied touched : float)
    (st : Chat.store) (l : nat) (session : Chat.ChatSession) (result : value) :
  Chat.get st sessionId = Some (l, session) ->
  Chat.expired now session = true ->
  wellFormed result ->
  exists st1,
    Chat.messageBegin sessionId question sent st = inr (st1, l) /\
    Chat.get (Chat.cleanup now st1) sessionId = None /\
    Chat.get
      (Chat.messageEnd sessionId l (Normal result) replied touched
         (Chat.cleanup now st1)).1 sessionId =
    Some (l, Chat.Session (Chat.id session)
               (Chat.history session ++
                [Chat.userEntry question sent;
                 Chat.systemEntry (field result "interpretation")
                   (field result "statistics") replied])
               (Chat.createdAt session) touched).
Proof.
  intros Hget Hexpired Hwell.
  pose proof Hget as [Hmap Hobject]%get_Some.
  eexists. split; [unfold Chat.messageBegin; rewrite Hget; reflexivity|].
  set (st1 := Chat.update (Chat.push (Chat.userEntry question sent)) l st).
  assert (Hpushed : Chat.objects st1 !! l =
                    Some (Chat.push (Chat.userEntry question sent) session)).
  { unfold st1. simpl. by rewrite list_lookup_alter_eq, Hobject. }
  split.
  - unfold Chat.get, Chat.cleanup. simpl.
    replace (filter _ (Chat.chatSessions st) !! sessionId) with (@None nat);
      [reflexivity|].
    symmetry. apply map_lookup_filter_None. right. intros l' Hl'. simpl.
    rewrite Hmap in Hl'. injection Hl' as <-.
    unfold Chat.expiredAt. fold st1. rewrite Hpushed.
    unfold Chat.push, Chat.expired in *. simpl. rewrite Hexpired. discriminate.
  - rewrite (messageEnd_result _ _ _ _ _ _ Hwell). cbn [fst].
    rewrite (get_register _ _ _
               (Chat.touch touched
                  (Chat.push (Chat.systemEntry (field result "interpretation")
                                (field result "statistics") replied)
                     (Chat.push (Chat.userEntry question sent) session)))).
    + unfold Chat.touch, Chat.push. simpl. rewrite <- app_assoc. reflexivity.
    + simpl. rewrite list_lookup_alter_eq. fold st1.
      change (alter _ l (Chat.objects st)) with (Chat.objects st1).
      rewrite Hpushed. reflexivity.
Qed.

(** X19.  Clearing a chat keeps the session: DELETE on a known session
    answers 200, empties the history, refreshes [updatedAt] and leaves the
    id and [createdAt] alone, and a GET that follows shows the empty
    history.  On an unknown session it answers 404 and changes nothing. *)
Theorem clearing_keeps_the_session
    (sessionId : string) (now : float) (st : Chat.store) :
  (forall l session,
     Chat.get st sessionId = Some (l, session) ->
     Chat.status (Chat.clearHistory sessionId now st).2 = 200 /\
     Chat.get (Chat.clearHistory sessionId now st).1 sessionId =
       Some (l, Chat.Session (Chat.id session) [] (Chat.createdAt session) now) /\
     Chat.getSession sessionId (Chat.clearHistory sessionId now st).1 =
       Chat.Json
         (VObj {[ "success" := VBool true;
                  "session" :=
                    VObj {[ "id" := VStr (Chat.id session);
                            "history" := VArr [];
                            "createdAt" := VNum (Chat.createdAt session);
                            "updatedAt" := VNum now ]} ]}) 200) /\
  (Chat.get st sessionId = None ->
   Chat.clearHistory sessionId now st = (st, Chat.sessionNotFound)).
Proof.
  split.
  - intros l session Hget. pose proof Hget as [Hmap Hobject]%get_Some.
    assert (Hcleared :
      Chat.get (Chat.clearHistory sessionId now st).1 sessionId =
      Some (l, Chat.Session (Chat.id session) [] (Chat.createdAt session) now)).
    { unfold Chat.clearHistory. rewrite Hget. cbn [fst].
      apply get_register. simpl. by rewrite list_lookup_alter_eq, Hobject. }
    split; [unfold Chat.clearHistory; by rewrite Hget|].
    split; [exact Hcleared|].
    unfold Chat.getSession. rewrite Hcleared. reflexivity.
  - intros Hget. unfold Chat.clearHistory. by rewrite Hget.
Qed.


(** X20.  A session that was just created is found: POST /session answers
    200 with the id, a GET of that id shows an empty history and the two
    readings of the clock, and every other id of the map still leads to
    the session it led to. *)
Theorem created_session_is_found
    (sessionId : string) (created updated : float) (st : Chat.store) :
  Chat.status (Chat.createSession sessionId created updated st).2 = 200 /\
  Chat.getSession sessionId (Chat.createSession sessionId created updated st).1 =
    Chat.Json
      (VObj {[ "success" := VBool true;
               "session" :=
                 VObj {[ "id" := VStr sessionId;
                         "history" := VArr [];
                         "createdAt" := VNum created;
                         "updatedAt" := VNum updated ]} ]}) 200 /\
  forall other l session,
    other <> sessionId ->
    Chat.get st other = Some (l, session) ->
    Chat.get (Chat.createSession sessionId created updated st).1 other =
      Some (l, session).
Proof.
  split; [reflexivity|]. split.
  - unfold Chat.getSession, Chat.get, Chat.createSession. cbn [fst].
    cbn [Chat.chatSessions Chat.objects]. rewrite lookup_insert_eq. simpl.
    rewrite lookup_app_r by lia. rewrite Nat.sub_diag. reflexivity.
  - intros other l session Hother [Hmap Hobject]%get_Some. apply get_Some.
    unfold Chat.createSession. cbn [fst Chat.chatSessions Chat.objects].
    rewrite lookup_insert_ne by congruence. split; [exact Hmap|].
    rewrite lookup_app_l; [exact Hobject|]. by eapply lookup_lt_Some.
Qed.

End ChatFacts.

(** ** The strict validator *)

Section StrictFacts.

Context `{Engine}.

Lemma defaultInterpretation_statistics (rp : gmap string value) :
  defaultInterpretation rp !! "statistics" = rp !! "statistics".
Proof.
  unfold defaultInterpretation.
  destruct (rp !! "interpretation") as [[| | | |text| |]|];
    try (by rewrite lookup_insert_ne by discriminate).
  destruct (String.eqb text ""); [by rewrite lookup_insert_ne by discriminate|].
  reflexivity.
Qed.

Lemma setInterpretation (rp : gmap string value) :
  (if negb (truthy (default VUndefined (rp !! "interpretation"))) ||
      negb (isString (default VUndefined (rp !! "interpretation")))
   then setProp (VObj rp) "interpretation"
          (VStr "Analysis generated but no interpretation provided.")
   else Normal (VObj rp)) = Normal (VObj (defaultInterpretation rp)).
Proof.
  unfold defaultInterpretation.
  destruct (rp !! "interpretation") as [[| | | |text| |]|]; simpl; try reflexivity.
  - destruct b; reflexivity.
  - destruct (negb _); reflexivity.
  - destruct (String.eqb text ""); reflexivity.
Qed.

(** The strict [validateResponse] on a response that names a chart type
    and carries a [data] object. *)
Lemma strict_validateResponse_chart (rp sp dp : gmap string value) (t : string) :
  rp !! "statistics" = Some (VObj sp) -> sp !! "type" = Some (VStr t) ->
  sp !! "data" = Some (VObj dp) ->
  t = "pie_chart" \/ t = "waterfall_chart" ->
  Strict.validateResponse (VObj rp) =
  if String.eqb t "pie_chart"
  then Strict.validatePieChartData (VObj (defaultInterpretation rp))
  else Strict.validateWaterfallChartData (VObj (defaultInterpretation rp)).
Proof.
  intros Hs Ht Hd Hkind. unfold Strict.validateResponse.
  rewrite getProp_obj, Normal_bind, setInterpretation, Normal_bind.
  rewrite getProp_obj, Normal_bind, defaultInterpretation_statistics, Hs.
  cbn [default from_option id truthy negb].
  rewrite (getProp_obj sp "type"), Normal_bind, Ht. cbn [default from_option id].
  rewrite (getProp_obj sp "data"), Hd. cbn [default from_option id].
  destruct Hkind as [-> | ->]; reflexivity.
Qed.

Lemma strict_validatePieChartData_arrays (rp sp dp : gmap string value)
    (ls vs : list value) :
  rp !! "statistics" = Some (VObj sp) -> sp !! "data" = Some (VObj dp) ->
  dp !! "labels" = Some (VArr ls) -> dp !! "values" = Some (VArr vs) ->
  Strict.validatePieChartData (VObj rp) =
  Normal
    (if negb (length ls =? length vs)%nat then
       createPieChartErrorResponse
         "Invalid pie chart data: labels and values arrays must have the same length"
     else if existsb Strict.notNonNegativeNumber vs then
       createPieChartErrorResponse
         "Invalid pie chart data: values must be non-negative numbers"
     else if Strict.invalidColors (default VUndefined (dp !! "colors")) ls
     then withData rp sp (VObj (delete "colors" dp))
     else VObj rp).
Proof.
  intros Hs Hd Hl Hv. unfold Strict.validatePieChartData.
  rewrite getProp_obj, Normal_bind, Hs. cbn [default from_option id].
  rewrite (getProp_obj sp "data"), Normal_bind, Hd. cbn [default from_option id].
  rewrite (getProp_obj dp "labels"), Normal_bind, Hl. cbn [default from_option id].
  rewrite (getProp_obj dp "values"), Normal_bind, Hv. cbn [default from_option id].
  destruct (negb (length ls =? length vs)%nat); [reflexivity|].
  destruct (existsb Strict.notNonNegativeNumber vs); [reflexivity|].
  rewrite (getProp_obj dp "colors"), Normal_bind.
  destruct (Strict.invalidColors _ ls); reflexivity.
Qed.

Lemma strict_validateWaterfallChartData_arrays (rp sp dp : gmap string value)
    (cs vs : list value) :
  rp !! "statistics" = Some (VObj sp) -> sp !! "data" = Some (VObj dp) ->
  dp !! "categories" = Some (VArr cs) -> dp !! "values" = Some (VArr vs) ->
  Strict.validateWaterfallChartData (VObj rp) =
  Normal
    (if negb (length cs =? length vs)%nat then
       createWaterfallChartErrorResponse
         "Invalid waterfall chart data: categories and values arrays must have the same length"
     else if existsb Strict.notNumber vs then
       createWaterfallChartErrorResponse
         "Invalid waterfall chart data: values must be numbers"
     else VObj rp).
Proof.
  intros Hs Hd Hc Hv. unfold Strict.validateWaterfallChartData.
  rewrite getProp_obj, Normal_bind, Hs. cbn [default from_option id].
  rewrite (getProp_obj sp "data"), Normal_bind, Hd. cbn [default from_option id].
  rewrite (getProp_obj dp "categories"), Normal_bind, Hc. cbn [default from_option id].
  rewrite (getProp_obj dp "values"), Normal_bind, Hv. cbn [default from_option id].
  destruct (negb (length cs =? length vs)%nat); [reflexivity|].
  destruct (existsb Strict.notNumber vs); reflexivity.
Qed.

(** X21.  The strict validator returns a waterfall as it came, the default
    interpretation apart, whenever [categories] and [values] are arrays of
    one length and every value is a number: it asks for no minimum number
    of entries and looks at no label, so an empty waterfall or one with a
    single entry passes. *)
Theorem strict_waterfall_is_returned_as_is
    (rp sp dp : gmap string value) (cs vs : list value) :
  rp !! "statistics" = Some (VObj sp) ->
  sp !! "type" = Some (VStr "waterfall_chart") ->
  sp !! "data" = Some (VObj dp) ->
  dp !! "categories" = Some (VArr cs) -> dp !! "values" = Some (VArr vs) ->
  length cs = length vs ->
  Forall (fun v => exists n, v = VNum n) vs ->
  Strict.validateResponse (VObj rp) = Normal (VObj (defaultInterpretation rp)) /\
  statisticsData (VObj (defaultInterpretation rp)) "categories" = VArr cs /\
  statisticsData (VObj (defaultInterpretation rp)) "values" = VArr vs.
Proof.
  intros Hrp Hsp Hdp Hc Hv Hlen Hnums.
  assert (Hstat : defaultInterpretation rp !! "statistics" = Some (VObj sp))
    by (by rewrite defaultInterpretation_statistics).
  split.
  - rewrite (strict_validateResponse_chart rp sp dp "waterfall_chart" Hrp Hsp Hdp)
      by (by right).
    simpl.
    rewrite (strict_validateWaterfallChartData_arrays _ sp dp cs vs Hstat Hdp Hc Hv).
    rewrite Hlen, Nat.eqb_refl. simpl.
    replace (existsb Strict.notNumber vs) with false; [reflexivity|].
    symmetry. apply not_true_is_false. intros (v & Hin & Hbad)%existsb_exists.
    apply list_elem_of_In in Hin.
    destruct (proj1 (Forall_forall _ vs) Hnums v Hin) as (n & ->). discriminate.
  - unfold statisticsData, field. rewrite Hstat. simpl. rewrite Hdp. simpl.
    rewrite Hc, Hv. split; reflexivity.
Qed.


Lemma nonNegativeNumbers (vs : list value) :
  existsb Strict.notNonNegativeNumber vs = false ->
  exists nums, vs = VNum <$> nums /\
    Forall (fun n => PrimFloat.ltb n 0 = false) nums.
Proof.
  induction vs as [|v rest IH]; simpl.
  - exists []. split; [reflexivity | constructor].
  - intros [Hv Hrest]%orb_false_elim. destruct (IH Hrest) as (nums & -> & Hall).
    destruct v as [| | |n| | |]; try discriminate.
    exists (n :: nums). split; [reflexivity | by constructor].
Qed.

(** The strict [validateResponse] up to the branch of the chart type:
    an error response, or the response is an object with a [statistics]
    object that names one of the two types and holds truthy [data]. *)
Lemma strict_validateResponse_inv (response out : value) :
  Strict.validateResponse response = Normal out ->
  (exists msg, out = createErrorResponse msg) \/
  exists rp sp data,
    response = VObj rp /\ rp !! "statistics" = Some (VObj sp) /\
    sp !! "data" = Some data /\ truthy data = true /\
    (sp !! "type" = Some (VStr "pie_chart") /\
     Strict.validatePieChartData (VObj (defaultInterpretation rp)) = Normal out \/
     sp !! "type" = Some (VStr "waterfall_chart") /\
     Strict.validateWaterfallChartData (VObj (defaultInterpretation rp)) = Normal out).
Proof.
  intros Hout. unfold Strict.validateResponse in Hout.
  apply bind_Normal in Hout as (interp & Hinterp & Hout).
  apply bind_Normal in Hout as (response' & Hresponse' & Hout).
  apply bind_Normal in Hout as (statistics & Hstatistics & Hout).
  destruct (truthy statistics) eqn:Hts; simpl in Hout;
    [|injection Hout as <-; eauto].
  apply bind_Normal in Hout as (type & Htype & Hout).
  destruct (truthy type) eqn:Htt; simpl in Hout;
    [|injection Hout as <-; eauto].
  apply getProp_truthy in Hstatistics as (rp' & -> & Hrp'); [|assumption].
  apply getProp_truthy in Htype as (sp & -> & Hsp); [|assumption].
  assert (Hresponse : exists rp, response = VObj rp /\ rp' = defaultInterpretation rp).
  { destruct response as [| | | | | |rp]; try discriminate;
      try (simpl in Hinterp; injection Hinterp as <-; discriminate).
    exists rp. split; [reflexivity|].
    rewrite getProp_obj in Hinterp. injection Hinterp as <-.
    rewrite setInterpretation in Hresponse'. congruence. }
  destruct Hresponse as (rp & -> & ->).
  rewrite defaultInterpretation_statistics in Hrp'.
  destruct (isText type "pie_chart") eqn:Htpie.
  - apply isText_eq in Htpie as ->. simpl in Hout.
    destruct (sp !! "data") as [data|] eqn:Hdata; simpl in Hout;
      [|injection Hout as <-; eauto].
    destruct (truthy data) eqn:Htd; simpl in Hout;
      [|injection Hout as <-; eauto].
    right. exists rp, sp, data. auto 10.
  - destruct (isText type "waterfall_chart") eqn:Htwaterfall; simpl in Hout.
    2:{ apply bind_Normal in Hout as (shown & _ & [= <-]). eauto. }
    apply isText_eq in Htwaterfall as ->.
    destruct (sp !! "data") as [data|] eqn:Hdata; simpl in Hout;
      [|injection Hout as <-; eauto].
    destruct (truthy data) eqn:Htd; simpl in Hout;
      [|injection Hout as <-; eauto].
    right. exists rp, sp, data. auto 10.
Qed.

Lemma strict_validatePieChartData_inv (rp sp : gmap string value)
    (data out : value) :
  rp !! "statistics" = Some (VObj sp) -> sp !! "data" = Some data ->
  Strict.validatePieChartData (VObj rp) = Normal out ->
  (exists msg, out = createErrorResponse msg) \/
  exists dp ls vs,
    data = VObj dp /\ dp !! "labels" = Some (VArr ls) /\
    dp !! "values" = Some (VArr vs) /\ length ls = length vs /\
    existsb Strict.notNonNegativeNumber vs = false /\
    out = if Strict.invalidColors (default VUndefined (dp !! "colors")) ls
          then withData rp sp (VObj (delete "colors" dp))
          else VObj rp.
Proof.
  intros Hs Hd Hout. pose proof Hout as Hagain.
  unfold Strict.validatePieChartData in Hout.
  rewrite getProp_obj, Normal_bind, Hs in Hout. cbn [default from_option id] in Hout.
  rewrite (getProp_obj sp "data"), Normal_bind, Hd in Hout.
  cbn [default from_option id] in Hout.
  apply bind_Normal in Hout as (labels & Hlabels & Hout).
  apply bind_Normal in Hout as (values & Hvalues & Hout).
  destruct labels as [| | | | |ls|]; try (injection Hout as <-; left; by eexists).
  destruct values as [| | | | |vs|]; try (injection Hout as <-; left; by eexists).
  apply getProp_truthy in Hlabels as (dp & -> & Hl); [|reflexivity].
  assert (Hv : dp !! "values" = Some (VArr vs)).
  { simpl in Hvalues. destruct (dp !! "values"); simpl in Hvalues; congruence. }
  rewrite (strict_validatePieChartData_arrays rp sp dp ls vs Hs Hd Hl Hv) in Hagain.
  injection Hagain as <-.
  destruct (length ls =? length vs)%nat eqn:Hlen; simpl; [|left; by eexists].
  apply Nat.eqb_eq in Hlen.
  destruct (existsb Strict.notNonNegativeNumber vs) eqn:Hneg; [left; by eexists|].
  right. exists dp, ls, vs. auto 10.
Qed.

(** A pie chart the strict validator lets through, part by part. *)
Lemma strict_pie_structure (response out : value) :
  Strict.validateResponse response = Normal out ->
  statisticsType out = VStr "pie_chart" ->
  (forall msg, out <> createErrorResponse msg) ->
  exists rp sp dp ls nums,
    response = VObj rp /\ rp !! "statistics" = Some (VObj sp) /\
    sp !! "type" = Some (VStr "pie_chart") /\ sp !! "data" = Some (VObj dp) /\
    dp !! "labels" = Some (VArr ls) /\ dp !! "values" = Some (VArr (VNum <$> nums)) /\
    length ls = length nums /\
    Forall (fun n => PrimFloat.ltb n 0 = false) nums /\
    out = if Strict.invalidColors (default VUndefined (dp !! "colors")) ls
          then withData (defaultInterpretation rp) sp (VObj (delete "colors" dp))
          else VObj (defaultInterpretation rp).
Proof.
  intros Hout Hpie Hnot.
  destruct (strict_validateResponse_inv _ _ Hout)
    as [(msg & ->) | (rp & sp & data & -> & Hrp & Hdata & _ & Hbranch)].
  { destruct (Hnot msg eq_refl). }
  assert (Hstat : defaultInterpretation rp !! "statistics" = Some (VObj sp))
    by (by rewrite defaultInterpretation_statistics).
  destruct Hbranch as [[Hsp Hcheck] | [Hsp Hcheck]].
  - destruct (strict_validatePieChartData_inv _ _ _ _ Hstat Hdata Hcheck)
      as [(msg & ->) | (dp & ls & vs & -> & Hl & Hv & Hlen & Hneg & Hresult)].
    { destruct (Hnot msg eq_refl). }
    destruct (nonNegativeNumbers vs Hneg) as (nums & -> & Hall).
    rewrite length_fmap in Hlen.
    exists rp, sp, dp, ls, nums. auto 12.
  - exfalso. unfold Strict.validateWaterfallChartData in Hcheck.
    rewrite getProp_obj, Normal_bind, Hstat in Hcheck.
    cbn [default from_option id] in Hcheck.
    rewrite (getProp_obj sp "data"), Normal_bind, Hdata in Hcheck.
    cbn [default from_option id] in Hcheck.
    apply bind_Normal in Hcheck as (categories & _ & Hcheck).
    apply bind_Normal in Hcheck as (values & _ & Hcheck).
    assert (Hkind : (exists msg, out = createWaterfallChartErrorResponse msg) \/
                    out = VObj (defaultInterpretation rp)).
    { destruct categories as [| | | | |cs|]; try (injection Hcheck as <-; eauto).
      destruct values as [| | | | |vs|]; try (injection Hcheck as <-; eauto).
      destruct (negb _); [injection Hcheck as <-; eauto|].
      destruct (existsb _ _); injection Hcheck as <-; eauto. }
    destruct Hkind as [(msg & ->) | ->]; [discriminate|].
    unfold statisticsType, field in Hpie. rewrite Hstat in Hpie. simpl in Hpie.
    rewrite Hsp in Hpie. discriminate.
Qed.

(** X22.  What the strict validator lets through as a pie chart.  Unless it
    answers with an error response, the labels and the values it returns
    are those it was given, arrays of one length, and every value is a
    number that is not below 0; colours it keeps are as many as the
    labels. *)
Theorem strict_pie_accepts_only_nonnegative_numbers (response out : value) :
  Strict.validateResponse response = Normal out ->
  statisticsType out = VStr "pie_chart" ->
  (forall msg, out <> createErrorResponse msg) ->
  exists ls nums,
    statisticsData response "labels" = VArr ls /\
    statisticsData response "values" = VArr (VNum <$> nums) /\
    statisticsData out "labels" = VArr ls /\
    statisticsData out "values" = VArr (VNum <$> nums) /\
    length ls = length nums /\
    Forall (fun n => PrimFloat.ltb n 0 = false) nums /\
    (truthy (statisticsData out "colors") = true ->
     arrayOfLength (statisticsData out "colors") (length ls)).
Proof.
  intros Hout Hpie Hnot.
  destruct (strict_pie_structure _ _ Hout Hpie Hnot)
    as (rp & sp & dp & ls & nums & -> & Hrp & Hsp & Hdata & Hl & Hv & Hlen & Hall
        & Hresult).
  assert (Hstat : defaultInterpretation rp !! "statistics" = Some (VObj sp))
    by (by rewrite defaultInterpretation_statistics).
  exists ls, nums.
  assert (Hin : forall k, statisticsData (VObj rp) k = default VUndefined (dp !! k)).
  { intros k. unfold statisticsData, field. rewrite Hrp. simpl. by rewrite Hdata. }
  rewrite !Hin, Hl, Hv. do 2 (split; [reflexivity|]).
  destruct (Strict.invalidColors (default VUndefined (dp !! "colors")) ls) eqn:Hcolors;
    subst out.
  - rewrite !statisticsData_withData. unfold field.
    rewrite !lookup_delete_ne by discriminate. rewrite Hl, Hv, lookup_delete_eq.
    repeat (split; [done|]). discriminate.
  - assert (Hsame : forall k, statisticsData (VObj (defaultInterpretation rp)) k =
                              default VUndefined (dp !! k)).
    { intros k. unfold statisticsData, field. rewrite Hstat. simpl. by rewrite Hdata. }
    rewrite !Hsame, Hl, Hv. repeat (split; [done|]).
    intros Htruthy. unfold Strict.invalidColors in Hcolors.
    destruct (default VUndefined (dp !! "colors")) as [| | | | |cs|];
      try congruence.
    exists cs. split; [reflexivity|].
    apply negb_false_iff, Nat.eqb_eq in Hcolors. exact Hcolors.
Qed.

(** X23.  The two validators agree on what the strict one lets through.  A
    pie chart that passes the strict validator, with at least one value
    and no NaN among its values, passes the repairing validator of
    getStatistic.ts as well, with the same interpretation, labels and
    values. *)
Theorem strictly_valid_pie_is_kept_as_is (response out : value) :
  Strict.validateResponse response = Normal out ->
  statisticsType out = VStr "pie_chart" ->
  (forall msg, out <> createErrorResponse msg) ->
  (forall nums, statisticsData response "values" = VArr (VNum <$> nums) ->
     nums <> [] /\ Forall (fun n => PrimFloat.is_nan n = false) nums) ->
  exists kept,
    validateResponse response = Normal kept /\
    statisticsType kept = VStr "pie_chart" /\
    field kept "interpretation" = field out "interpretation" /\
    statisticsData kept "labels" = statisticsData response "labels" /\
    statisticsData kept "values" = statisticsData response "values".
Proof.
  intros Hout Hpie Hnot Hclean.
  destruct (strict_pie_structure _ _ Hout Hpie Hnot)
    as (rp & sp & dp & ls & nums & -> & Hrp & Hsp & Hdata & Hl & Hv & Hlen & _
        & Hresult).
  assert (Hin : forall k, statisticsData (VObj rp) k = default VUndefined (dp !! k)).
  { intros k. unfold statisticsData, field. rewrite Hrp. simpl. by rewrite Hdata. }
  destruct (Hclean nums) as [Hsome Hnan]; [by rewrite Hin, Hv|].
  assert (Hkept : 1 <= length (keptIndices 0 nums)).
  { rewrite (keptIndices_clean 0 nums Hnan), length_seq.
    destruct nums; [contradiction | simpl; lia]. }
  eexists. split.
  { exact (validateResponse_pie _ _ _ _ _ _ Hrp Hsp Hdata Hl Hv
             (mapM_Number_VNum nums) Hkept). }
  split; [by apply statisticsType_withData|].
  split.
  { rewrite interpretation_withData. subst out.
    destruct (Strict.invalidColors _ ls);
      [by rewrite interpretation_withData | reflexivity]. }
  rewrite !statisticsData_withData, !Hin, Hl, Hv.
  destruct (field_acceptedPie dp ls nums) as [-> ->].
  rewrite (keptIndices_clean 0 nums Hnan), (keptNumbers_id nums Hnan), <- Hlen.
  rewrite getIndex_seq_all. split; reflexivity.
Qed.

End StrictFacts.

(** ** The customers module *)

Section CustomersFacts.

Context `{Engine}.

Lemma createCustomer_connected (p : Customers.pool) (data : value)
    (calls : list Customers.call) :
  Customers.validateCustomerData data = Customers.Fulfilled tt ->
  Customers.connect p calls = None ->
  let params := [ field data "name"; Customers.orNull (field data "address");
                  Customers.orNull (field data "phone");
                  Customers.orNull (field data "email");
                  Customers.orNull (field data "tax_id") ] in
  Customers.createCustomer data p calls =
  (match Customers.query p (Customers.Connect :: calls)
           Customers.insertCustomer params with
   | inl e =>
       Customers.Rejected
         (Customers.CustomerError "Customer creation failed" (Some e))
   | inr result =>
       match Customers.rowCount result with
       | Some 0 =>
           Customers.Rejected
             (Customers.CustomerError "Failed to create customer" None)
       | _ => Customers.Fulfilled (getIndex (Customers.rows result) 0)
       end
   end,
   Customers.Release :: Customers.Query Customers.insertCustomer params
   :: Customers.Connect :: calls).
Proof.
  intros Hvalid Hconnect params.
  unfold Customers.createCustomer, Customers.bind. rewrite Hvalid.
  unfold Customers.poolConnect. rewrite Hconnect.
  unfold Customers.finally, Customers.catch, Customers.clientQuery. fold params.
  destruct (Customers.query p _ Customers.insertCustomer params) as [e|result];
    [reflexivity|].
  destruct (Customers.rowCount result) as [[|n]|]; reflexivity.
Qed.

Lemma createCustomer_refused (p : Customers.pool) (data : value)
    (calls : list Customers.call) (t : Customers.thrown) :
  Customers.validateCustomerData data = Customers.Rejected t ->
  Customers.createCustomer data p calls = (Customers.Rejected t, calls).
Proof.
  intros Hvalid. unfold Customers.createCustomer, Customers.bind.
  by rewrite Hvalid.
Qed.

Lemma createCustomer_unconnected (p : Customers.pool) (data : value)
    (calls : list Customers.call) (e : error) :
  Customers.validateCustomerData data = Customers.Fulfilled tt ->
  Customers.connect p calls = Some e ->
  Customers.createCustomer data p calls =
  (Customers.Rejected (Customers.Foreign e), Customers.Connect :: calls).
Proof.
  intros Hvalid Hconnect. unfold Customers.createCustomer, Customers.bind.
  rewrite Hvalid. unfold Customers.poolConnect. by rewrite Hconnect.
Qed.

Lemma createCustomer_released (p : Customers.pool) (data : value)
    (calls : list Customers.call) :
  Customers.clientReleased p calls (Customers.createCustomer data p calls).2.
Proof.
  destruct (Customers.validateCustomerData data) as [[]|t] eqn:Hvalid.
  - destruct (Customers.connect p calls) as [e|] eqn:Hconnect.
    + rewrite (createCustomer_unconnected _ _ _ _ Hvalid Hconnect).
      right. left. split; [reflexivity | by rewrite Hconnect].
    + rewrite (createCustomer_connected _ _ _ Hvalid Hconnect).
      right. right. eauto.
  - rewrite (createCustomer_refused _ _ _ _ Hvalid). by left.
Qed.

(** X24.  No handler of the customers module keeps a client.  Whatever the
    pool answers, [createCustomer], GET / and POST / make no call at all,
    or one [connect] that failed, or they take a client, run one query on
    it and release it as their last call, whether the query succeeded or
    not. *)
Theorem acquired_client_is_released
    (p : Customers.pool) (data : value) (parsed : Customers.outcome value)
    (calls : list Customers.call) :
  Customers.clientReleased p calls (Customers.createCustomer data p calls).2 /\
  Customers.clientReleased p calls (Customers.getCustomers p calls).2 /\
  Customers.clientReleased p calls (Customers.postCustomer parsed p calls).2.
Proof.
  split; [apply createCustomer_released|]. split.
  - unfold Customers.getCustomers, Customers.catch, Customers.bind,
      Customers.poolConnect.
    destruct (Customers.connect p calls) as [e|] eqn:Hconnect.
    + right. left. split; [reflexivity | by rewrite Hconnect].
    + unfold Customers.finally, Customers.clientQuery.
      right. right. exists "SELECT * FROM customers ORDER BY name", [].
      split; [|exact Hconnect].
      destruct (Customers.query p _ _ []); reflexivity.
  - unfold Customers.postCustomer, Customers.catch, Customers.bind.
    destruct parsed as [body|t].
    + pose proof (createCustomer_released p body calls) as Hreleased.
      destruct (Customers.createCustomer body p calls) as [[created|t] after].
      * exact Hreleased.
      * destruct t; exact Hreleased.
    + destruct t; by left.
Qed.

(** X25.  How POST / answers a failure of the database.  For a customer
    with a name, a query that fails is answered 400 "Customer creation
    failed", like a mistake of the client, and an INSERT that returns no
    row 400 "Failed to create customer"; a pool that gives no client is
    answered 500 "Internal server error", as is a body that is not JSON.
    A created customer is answered 201 with the first row. *)
Theorem insert_failure_is_answered_400
    (p : Customers.pool) (data : value) (calls : list Customers.call) :
  Customers.validateCustomerData data = Customers.Fulfilled tt ->
  (forall e, Customers.connect p calls = Some e ->
     (Customers.postCustomer (Customers.Fulfilled data) p calls).1 =
     Customers.Fulfilled
       (Customers.Json (Customers.failure "Internal server error") 500)) /\
  (Customers.connect p calls = None ->
   exists params,
     (Customers.postCustomer (Customers.Fulfilled data) p calls).1 =
     Customers.Fulfilled
       match Customers.query p (Customers.Connect :: calls)
               Customers.insertCustomer params with
       | inl _ =>
           Customers.Json (Customers.failure "Customer creation failed") 400
       | inr result =>
           match Customers.rowCount result with
           | Some 0 =>
               Customers.Json (Customers.failure "Failed to create customer") 400
           | _ => Customers.Json (getIndex (Customers.rows result) 0) 201
           end
       end) /\
  (forall t,
     (Customers.postCustomer (Customers.Rejected (Customers.Foreign t)) p calls) =
     (Customers.Fulfilled
        (Customers.Json (Customers.failure "Internal server error") 500), calls)).
Proof.
  intros Hvalid. split; [|split].
  - intros e Hconnect. unfold Customers.postCustomer, Customers.catch, Customers.bind.
    rewrite (createCustomer_unconnected _ _ _ _ Hvalid Hconnect). reflexivity.
  - intros Hconnect.
    exists [ field data "name"; Customers.orNull (field data "address");
             Customers.orNull (field data "phone");
             Customers.orNull (field data "email");
             Customers.orNull (field data "tax_id") ].
    unfold Customers.postCustomer, Customers.catch, Customers.bind.
    rewrite (createCustomer_connected _ _ _ Hvalid Hconnect). cbn zeta.
    destruct (Customers.query p _ Customers.insertCustomer _) as [e|result];
      [reflexivity|].
    destruct (Customers.rowCount result) as [[|n]|]; reflexivity.
  - intros t. reflexivity.
Qed.

(** X26.  A customer without a name never reaches the pool.  When [name] is
    missing, empty or made of white space, [createCustomer] rejects with
    the [CustomerError] "Customer name is required" and POST / answers 400
    with that message; neither makes a call. *)
Theorem nameless_customer_is_refused_before_the_pool
    (p : Customers.pool) (props : gmap string value)
    (calls : list Customers.call) :
  truthy (field (VObj props) "name") = false \/
  (exists text, field (VObj props) "name" = VStr text /\ onlyWhiteSpace text = true) ->
  Customers.createCustomer (VObj props) p calls =
    (Customers.Rejected (Customers.CustomerError "Customer name is required" None),
     calls) /\
  Customers.postCustomer (Customers.Fulfilled (VObj props)) p calls =
    (Customers.Fulfilled
       (Customers.Json (Customers.failure "Customer name is required") 400),
     calls).
Proof.
  intros Hname.
  assert (Hvalid : Customers.validateCustomerData (VObj props) =
            Customers.Rejected (Customers.CustomerError "Customer name is required" None)).
  { unfold Customers.validateCustomerData. rewrite getProp_obj.
    unfold field in Hname.
    destruct Hname as [Hfalsy | (text & Htext & Hblank)].
    - by rewrite Hfalsy.
    - rewrite Htext. simpl. destruct (negb (negb _)); [reflexivity|].
      by rewrite (trim_onlyWhiteSpace _ Hblank). }
  split.
  - by apply createCustomer_refused.
  - unfold Customers.postCustomer, Customers.catch, Customers.bind.
    rewrite (createCustomer_refused _ _ _ _ Hvalid). reflexivity.
Qed.

End CustomersFacts.

(** The examples below run on the sample engine. *)
#[local] Existing Instance Sample.engine.

(** C7 at the empty question, at a question of three spaces and at a
    question of a no-break space and a tab. *)
Lemma empty_question_rejected_witness :
  (onlyWhiteSpace "" = true /\ onlyWhiteSpace "   " = true) /\
  analyzeStatisticalQuestion "" = analyzeStatisticalQuestion "   " /\
  analyzeStatisticalQuestion "   " =
    Settled (Normal
      (statisticsResponse "Invalid question: Question must be a non-empty string"
         "pie_chart" (pieData ["Error"] [100%float]))) /\
  analyzeStatisticalQuestion
    (Scenario.noBreakSpace ++ String (ascii_of_nat 9) EmptyString) =
    Settled (Normal
      (statisticsResponse "Invalid question: Question must be a non-empty string"
         "pie_chart" (pieData ["Error"] [100%float]))).
Proof.
  split; [split; reflexivity|].
  pose proof (empty_question_rejected (H := Sample.engine) "" eq_refl) as [He _].
  pose proof (empty_question_rejected (H := Sample.engine) "   " eq_refl) as [Hs _].
  pose proof (empty_question_rejected (H := Sample.engine)
                (Scenario.noBreakSpace ++ String (ascii_of_nat 9) EmptyString)
                eq_refl) as [Hn _].
  split; [rewrite He, Hs; reflexivity|]. split; [exact Hs | exact Hn].
Defined.


(** C8 on a run: the classifier answers [bar_chart] and no shape is ever
    accepted.  The three requests carry the pie schema and the fallback is
    the pie. *)
Lemma unrecognised_chart_type_treated_as_pie_witness :
  run (Sample.stub "bar_chart" "no shape here" Sample.oneRow)
      (generateAnalysis Sample.oneRow "Which status is most common?") [] =
  (Normal
     (statisticsResponse
        "Unable to generate a detailed analysis, but here's a simple overview of the data."
        "pie_chart" (pieData ["Data Points"] [1%float])),
   [ResponsesCreate
      (Request (shapePrompt "bar_chart" "Which status is most common?"
                  (JSON_stringify Sample.oneRow) 2) (Some simplePieChartSchema));
    ResponsesCreate
      (Request (shapePrompt "bar_chart" "Which status is most common?"
                  (JSON_stringify Sample.oneRow) 1) (Some simplePieChartSchema));
    ResponsesCreate
      (Request (shapePrompt "bar_chart" "Which status is most common?"
                  (JSON_stringify Sample.oneRow) 0) (Some simplePieChartSchema));
    ResponsesCreate (classifierRequest Sample.oneRow "Which status is most common?")]).
Proof.
  destruct (unrecognised_chart_type_treated_as_pie
              (Sample.stub "bar_chart" "no shape here" Sample.oneRow)
              Sample.oneRow "Which status is most common?" [] "bar_chart")
    as [_ Hfallback].
  - discriminate.
  - reflexivity.
  - discriminate.
  - discriminate.
  - rewrite Hfallback; [reflexivity|].
    intros n Hn. destruct n as [|[|[|n]]]; [reflexivity | reflexivity | reflexivity | lia].
Defined.

(** C9 on a run: the model answers every shape request with a pie chart
    of matching lengths whose interpretation is "Error rate by region". *)
Lemma error_like_interpretation_fails_attempt_witness :
  validateResponse (parseContent Sample.errorRateJson) =
    Normal
      (statisticsResponse "Error rate by region" "pie_chart"
         (<["colors" := VArr [VStr "#4299E1"; VStr "#48BB78"]]>
            (pieData ["North"; "South"] [3%float; 1%float]))) /\
  (run (Sample.stub "pie_chart" Sample.errorRateJson Sample.oneRow)
       (generateAnalysis Sample.oneRow "Where do errors happen?") []).1 =
  Normal
    (statisticsResponse
       "Unable to generate a detailed analysis, but here's a simple overview of the data."
       "pie_chart" (pieData ["Data Points"] [1%float])).
Proof.
  split; [vm_compute; reflexivity|].
  destruct (error_like_interpretation_fails_attempt
              (Sample.stub "pie_chart" Sample.errorRateJson Sample.oneRow)
              Sample.oneRow "Where do errors happen?" [] "pie_chart")
    as [_ Hrun].
  - discriminate.
  - reflexivity.
  - intros n Hn. exists Sample.errorRateJson. eexists. exists "Error rate by region".
    destruct n as [|[|[|n]]]; [| | |lia];
      (split; [reflexivity|]); (split; [vm_compute; reflexivity|]);
      split; reflexivity.
  - rewrite Hrun. reflexivity.
Defined.

(** C5 as written fails on a waterfall whose categories are numbers: both
    values are numeric, so two pairs are left, yet the validator does not
    return a waterfall response that holds them. *)
Lemma numeric_pairs_kept_counterexample :
  ~ numericPairsKept (fun _ _ => True) Sample.numericCategories.
Proof.
  intros Hclaim.
  destruct (Hclaim _ _ _ [VNum 2023%float; VNum 2024%float]
              [VNum 1200%float; VNum 1500%float] [1200%float; 1500%float]
              eq_refl eq_refl eq_refl eq_refl eq_refl) as [_ Hwaterfall].
  destruct (Hwaterfall eq_refl eq_refl I) as (out & Hout & Hkept).
  vm_compute in Hout. injection Hout as <-.
  simpl in Hkept. destruct Hkept as (_ & Htype & _). vm_compute in Htype.
  discriminate Htype.
Qed.

(** C5, amended, at the balance chart: three numeric pairs, all kept. *)
Lemma numeric_pairs_kept_witness :
  exists out,
    validateResponse (VObj Sample.balanceProps) = Normal out /\
    field out "interpretation" = VStr "Sales account for the whole change" /\
    statisticsType out = VStr "waterfall_chart" /\
    statisticsData out "categories" =
      VArr [VStr "Start"; VStr "Sales"; VStr "End"] /\
    statisticsData out "values" = VArr [VNum 0%float; VNum 5%float; VNum 5%float].
Proof.
  destruct (numeric_pairs_kept_when_labels_are_text (VObj Sample.balanceProps)
              Sample.balanceProps Sample.balanceStatistics Sample.balanceData
              [VStr "Opening"; VStr "Sales"; VStr "Closing"]
              [VNum 0%float; VNum 5%float; VNum 5%float]
              [0%float; 5%float; 5%float]
              eq_refl eq_refl eq_refl eq_refl eq_refl) as [_ Hwaterfall].
  destruct (Hwaterfall eq_refl eq_refl) as (out & Hout & Hkept).
  - intros _. split; [intros _; exists "Opening" | exists "Closing"]; reflexivity.
  - exists out. split; [exact Hout|]. exact Hkept.
Defined.

(** C10 at the balance chart: "Opening" becomes "Start", "Closing" becomes
    "End", "Sales" stays, and the three label texts are filled in. *)
Lemma accepted_waterfall_is_relabelled_witness :
  validateResponse (VObj Sample.balanceProps) = Normal Sample.balanceValidated /\
  exists cats,
    statisticsData Sample.balanceValidated "categories" = VArr cats /\
    cats !! 0 = Some (VStr "Start") /\
    cats !! 1 = Some (VStr "Sales") /\
    cats !! 2 = Some (VStr "End") /\
    statisticsData Sample.balanceValidated "increaseLabelText" = VStr "Increase" /\
    statisticsData Sample.balanceValidated "decreaseLabelText" = VStr "Decrease" /\
    statisticsData Sample.balanceValidated "totalLabelText" = VStr "Total".
Proof.
  assert (Hout : validateResponse (VObj Sample.balanceProps)
                 = Normal Sample.balanceValidated) by (vm_compute; reflexivity).
  split; [exact Hout|].
  destruct (accepted_waterfall_is_relabelled
              Sample.balanceProps Sample.balanceStatistics Sample.balanceData
              [VStr "Opening"; VStr "Sales"; VStr "Closing"]
              [VNum 0%float; VNum 5%float; VNum 5%float]
              Sample.balanceValidated
              eq_refl eq_refl eq_refl eq_refl eq_refl Hout eq_refl)
    as (nums & cats & Hnums & _ & _ & Hcats & Hlen & Hfirst & Hlast & Hmiddle
        & Hincrease & Hdecrease & Htotal).
  - intros msg Heq.
    apply (f_equal (fun v => statisticsData v "totalLabelText")) in Heq.
    vm_compute in Heq. discriminate Heq.
  - injection Hnums as <-.
    change (length cats = 3) in Hlen. rewrite Hlen in Hlast, Hmiddle.
    exists cats. split; [exact Hcats|].
    split; [exact Hfirst|].
    split; [exact (Hmiddle 1 ltac:(simpl; lia))|].
    split; [exact Hlast|].
    split; [exact (Hincrease eq_refl)|].
    split; [exact (Hdecrease eq_refl) | exact (Htotal eq_refl)].
Defined.

(** C3 on a run: the model answers the shape request with the negative
    share, and the orchestrator hands it to its caller. *)
Lemma negative_pie_value_reaches_caller :
  (run (Sample.stub "pie_chart" Sample.negativeShareJson Sample.oneRow)
       (analyzeStatisticalQuestion "What share are refunds?") []).1 =
  Normal Sample.negativeShare.
Proof. vm_compute. reflexivity. Qed.

(** C2 on a run: a model whose shape answers never parse uses the whole
    budget, three shape requests after the query and the classification,
    and the caller still receives a response. *)
Lemma malformed_json_uses_whole_budget :
  exists result made,
    run (Sample.stub "pie_chart" "no shape here" Sample.oneRow)
        (analyzeStatisticalQuestion "How many invoices per status?") []
      = (Normal result, made) /\
    length made = 6 /\ length (shapeCalls made) = 3 /\
    statisticsData result "labels" = VArr [VStr "Data Points"].
Proof. eexists _, _. vm_compute. repeat split. Qed.

(** C6 on a run: the database returns no row; the calls are the query
    synthesis and the query, nothing else. *)
Lemma empty_result_set_run :
  run (Sample.stub "pie_chart" "no shape here" [])
      (analyzeStatisticalQuestion "How many invoices per status?") []
  = (Normal noDataResponse,
     [ PoolQuery "SELECT status, count(*) FROM invoices GROUP BY status" [];
       ResponsesCreate
         (Request (SqlPrompt "How many invoices per status?") None) ]).
Proof. vm_compute. reflexivity. Qed.

(** ** The further properties on sample inputs *)

(** Attempt 2 is the first to pass: three shape requests, and the result
    is the chart of the minimal prompt. *)
Lemma first_accepted_response_ends_loop_witness :
  run Scenario.staged
      (generateAnalysis Sample.oneRow "What share are refunds?") [] =
  (Normal Sample.negativeShare,
   failedAttempts simplePieChartSchema "pie_chart" "What share are refunds?"
     (JSON_stringify Sample.oneRow) 3
     [ResponsesCreate (classifierRequest Sample.oneRow "What share are refunds?")]).
Proof.
  apply (first_accepted_response_ends_loop Scenario.staged Sample.oneRow
           "What share are refunds?" [] "pie_chart" 2 Sample.negativeShare).
  - discriminate.
  - reflexivity.
  - lia.
  - intros n Hn. destruct n as [|[|n]]; [reflexivity | reflexivity | lia].
  - reflexivity.
Defined.

(** Text that is not JSON stays a string and is not accepted. *)
Lemma only_objects_can_be_accepted_witness :
  attemptResult (Normal "no shape here") = None.
Proof.
  apply (only_objects_can_be_accepted "no shape here").
  intros props Heq. vm_compute in Heq. discriminate Heq.
Defined.

(** The database is down: the query is the trimmed text of the model, and
    nothing is asked after it. *)
Lemma database_failure_is_reported_witness :
  run Scenario.offline (analyzeStatisticalQuestion "How many invoices?") [] =
  (Normal (createErrorResponse
             "Analysis failed: Database error: connection refused"),
   [ PoolQuery "select count(*) from invoices" [];
     ResponsesCreate (Request (SqlPrompt "How many invoices?") None) ]).
Proof.
  apply (database_failure_is_reported Scenario.offline "How many invoices?" []
           "  select count(*) from invoices  " (Error "error" "connection refused"));
    reflexivity.
Defined.

(** The model declines: one call, no query. *)
Lemma unusable_query_never_reaches_database_witness :
  exists detail,
    run Scenario.declining (analyzeStatisticalQuestion "How many invoices?") [] =
    (Normal (createErrorResponse
               ("Analysis failed: Failed to generate SQL query: " ++ detail)),
     [ResponsesCreate (Request (SqlPrompt "How many invoices?") None)]) /\
    detail = "Failed to generate a valid SQL query".
Proof.
  destruct (unusable_query_never_reaches_database Scenario.declining
              "How many invoices?" []) as (detail & Hrun & Hanswered & _).
  - reflexivity.
  - intros output_text [= <-]. reflexivity.
  - exists detail. split; [exact Hrun|]. exact (Hanswered _ eq_refl).
Defined.

(** The values of the balance chart after validation. *)
Lemma validated_values_are_numbers_witness :
  exists nums,
    statisticsData Sample.balanceValidated "values" = VArr (VNum <$> nums) /\
    Forall (fun n => PrimFloat.is_nan n = false) nums.
Proof.
  apply (validated_values_are_numbers (VObj Sample.balanceProps)
           Sample.balanceValidated).
  vm_compute. reflexivity.
Defined.

(** One label for two values: the second label is [undefined], and the
    string "4" has become the number 4. *)
Lemma unequal_pie_lengths_are_repaired_witness :
  exists out,
    validateResponse (VObj Scenario.shortLabelsProps) = Normal out /\
    statisticsType out = VStr "pie_chart" /\
    statisticsData out "labels" = VArr [VStr "Paid"; VUndefined] /\
    statisticsData out "values" = VArr [VNum 3%float; VNum 4%float].
Proof.
  apply (unequal_pie_lengths_are_repaired Scenario.shortLabelsProps
           Scenario.shortLabelsStatistics Scenario.shortLabelsData
           [VStr "Paid"] [VNum 3%float; VStr "4"] [3%float; 4%float]);
    try reflexivity.
  - repeat constructor.
  - discriminate.
Defined.

(** The same chart came without colours: it gets the first two of the
    palette. *)
Lemma pie_colours_default_to_palette_witness :
  exists out,
    validateResponse (VObj Scenario.shortLabelsProps) = Normal out /\
    statisticsData out "colors" = VArr [VStr "#4299E1"; VStr "#48BB78"].
Proof.
  destruct (pie_colours_default_to_palette Scenario.shortLabelsProps
              Scenario.shortLabelsStatistics Scenario.shortLabelsData
              [VStr "Paid"] [VNum 3%float; VStr "4"] [3%float; 4%float])
    as (out & Hout & _ & Hdefault); try reflexivity.
  - simpl. lia.
  - exists out. split; [exact Hout|].
    destruct (Hdefault eq_refl) as (colors & Hcolors & Hlen & Hat).
    rewrite Hcolors. f_equal.
    change (length colors = 2) in Hlen.
    destruct colors as [|c0 [|c1 [|c2 rest]]]; try discriminate Hlen.
    pose proof (Hat 0 ltac:(simpl; lia)) as H0.
    pose proof (Hat 1 ltac:(simpl; lia)) as H1.
    injection H0 as ->. injection H1 as ->. reflexivity.
Defined.

(** The validated balance chart passes the validator unchanged. *)
Lemma accepted_response_is_fixed_point_witness :
  validateResponse Sample.balanceValidated = Normal Sample.balanceValidated.
Proof.
  apply (accepted_response_is_fixed_point (VObj Sample.balanceProps)).
  - vm_compute. reflexivity.
  - intros msg Heq. apply (f_equal statisticsType) in Heq.
    vm_compute in Heq. discriminate Heq.
  - intros msg Heq.
    apply (f_equal (fun v => statisticsData v "totalLabelText")) in Heq.
    vm_compute in Heq. discriminate Heq.
Defined.

(** Years as categories: the last label is the number 2024. *)
Lemma non_text_end_label_gives_validation_error_witness :
  validateResponse Sample.numericCategories =
  Normal (createErrorResponse
            "Validation error: data.categories[lastIdx].toLowerCase is not a function").
Proof.
  assert (Hnot : ~ endLabelsAreText
                     (keptCategories [VNum 2023%float; VNum 2024%float]
                        (keptIndices 0 [1200%float; 1500%float]))
                     (keptNumbers [1200%float; 1500%float])).
  { intros [_ (text & Htext)]. vm_compute in Htext. discriminate Htext. }
  exact (non_text_end_label_gives_validation_error Scenario.yearsProps
           Scenario.yearsStatistics Scenario.yearsData
           [VNum 2023%float; VNum 2024%float] [VNum 1200%float; VNum 1500%float]
           [1200%float; 1500%float] eq_refl eq_refl eq_refl eq_refl eq_refl eq_refl
           (le_n 2) Hnot).
Defined.

(** A question in the body passes the validator; the analysis starts with
    the query request for it. *)
Lemma validated_question_reaches_query_request_witness :
  field Scenario.questionBody "question" = VStr "How many invoices per status?" /\
  exists made,
    (run (Sample.stub "pie_chart" "no shape here" Sample.oneRow)
         (analyzeStatisticalQuestion "How many invoices per status?") []).2 =
    (made ++ [ResponsesCreate
                (Request (SqlPrompt "How many invoices per status?") None)])%list.
Proof.
  destruct (validated_question_reaches_query_request
              (Sample.stub "pie_chart" "no shape here" Sample.oneRow)
              Scenario.questionBody "How many invoices per status?" VUndefined [])
    as (Hfield & _ & _ & Hcalls).
  - reflexivity.
  - split; [exact Hfield | exact Hcalls].
Defined.

(** A message to the idle session: question and answer are in its
    history. *)
Lemma message_appends_question_and_answer_witness :
  exists result st' calls',
    Chat.postMessage (Sample.stub "pie_chart" Sample.negativeShareJson Sample.oneRow)
      "k3x9" Scenario.questionBody 5%float 6%float 7%float Scenario.oneSession [] =
    (st',
     Chat.Json (VObj {[ "success" := VBool true; "result" := result;
                        "sessionId" := VStr "k3x9" ]}) 200,
     calls') /\
    Chat.get st' "k3x9" =
    Some (0, Chat.Session "k3x9"
               [Chat.userEntry "How many invoices per status?" 5%float;
                Chat.systemEntry (field result "interpretation")
                  (field result "statistics") 6%float]
               0%float 7%float).
Proof.
  destruct (message_appends_question_and_answer
              (Sample.stub "pie_chart" Sample.negativeShareJson Sample.oneRow)
              "k3x9" Scenario.questionBody "How many invoices per status?" VUndefined
              5%float 6%float 7%float Scenario.oneSession [] 0 Scenario.idle)
    as (result & st' & calls' & _ & _ & Hpost & Hget & _).
  - reflexivity.
  - reflexivity.
  - exists result, st', calls'. split; [exact Hpost | exact Hget].
Defined.

(** A message to a session nobody created, with a question and with the
    body [null]. *)
Lemma message_to_unknown_session_witness :
  Chat.postMessage (Sample.stub "pie_chart" "no shape here" Sample.oneRow)
    "zzzz" Scenario.questionBody 5%float 6%float 7%float Scenario.oneSession [] =
  (Scenario.oneSession, Chat.sessionNotFound, []) /\
  Chat.postMessage (Sample.stub "pie_chart" "no shape here" Sample.oneRow)
    "zzzz" VNull 5%float 6%float 7%float Scenario.oneSession [] =
  (Scenario.oneSession, Chat.Text "Internal Server Error" 500, []).
Proof.
  split.
  - destruct (message_to_unknown_session
                (Sample.stub "pie_chart" "no shape here" Sample.oneRow)
                "zzzz" Scenario.questionBody 5%float 6%float 7%float
                Scenario.oneSession [] eq_refl) as (reply & Hpost & Hreply).
    vm_compute in Hreply. rewrite Hpost, Hreply. reflexivity.
  - destruct (message_to_unknown_session
                (Sample.stub "pie_chart" "no shape here" Sample.oneRow)
                "zzzz" VNull 5%float 6%float 7%float
                Scenario.oneSession [] eq_refl) as (reply & Hpost & Hreply & _).
    rewrite Hpost, Hreply. reflexivity.
Defined.

(** The idle session is a day and a millisecond old when the clean-up
    runs; the reply puts it back. *)
Lemma late_reply_restores_expired_session_witness :
  exists st1,
    Chat.messageBegin "k3x9" "What share are refunds?" 86400000%float
      Scenario.oneSession = inr (st1, 0) /\
    Chat.get (Chat.cleanup 86400001%float st1) "k3x9" = None /\
    Chat.get
      (Chat.messageEnd "k3x9" 0 (Normal Sample.negativeShare)
         86400002%float 86400003%float (Chat.cleanup 86400001%float st1)).1 "k3x9" =
    Some (0, Chat.Session "k3x9"
               [Chat.userEntry "What share are refunds?" 86400000%float;
                Chat.systemEntry (field Sample.negativeShare "interpretation")
                  (field Sample.negativeShare "statistics") 86400002%float]
               0%float 86400003%float).
Proof.
  apply (late_reply_restores_expired_session "k3x9" "What share are refunds?"
           86400000%float 86400001%float 86400002%float 86400003%float
           Scenario.oneSession 0 Scenario.idle Sample.negativeShare).
  - reflexivity.
  - reflexivity.
  - apply (validateResponse_sound Sample.negativeShare). vm_compute. reflexivity.
Defined.

(** A waterfall with a single entry passes the strict validator. *)
Lemma strict_waterfall_is_returned_as_is_witness :
  Strict.validateResponse (VObj Scenario.singleProps) =
    Normal (VObj Scenario.singleProps) /\
  statisticsData (VObj Scenario.singleProps) "categories" = VArr [VStr "Total"].
Proof.
  destruct (strict_waterfall_is_returned_as_is Scenario.singleProps
              Scenario.singleStatistics Scenario.singleData
              [VStr "Total"] [VNum 7%float]) as (Hout & Hcategories & _);
    try reflexivity.
  - repeat constructor. by exists 7%float.
  - split; [exact Hout | exact Hcategories].
Defined.

(** The strict validator on a pie chart it lets through. *)
Lemma strict_pie_accepts_only_nonnegative_numbers_witness :
  exists ls nums,
    statisticsData Sample.errorRateResponse "labels" = VArr ls /\
    statisticsData Sample.errorRateResponse "values" = VArr (VNum <$> nums) /\
    length ls = length nums /\
    Forall (fun n => PrimFloat.ltb n 0 = false) nums.
Proof.
  destruct (strict_pie_accepts_only_nonnegative_numbers
              Sample.errorRateResponse Sample.errorRateResponse)
    as (ls & nums & Hlabels & Hvalues & _ & _ & Hlen & Hall & _).
  - vm_compute. reflexivity.
  - reflexivity.
  - intros msg Heq. apply (f_equal (fun v => statisticsData v "labels")) in Heq.
    vm_compute in Heq. discriminate Heq.
  - exists ls, nums. auto.
Defined.

(** The same chart passes the repairing validator with its labels and
    values. *)
Lemma strictly_valid_pie_is_kept_as_is_witness :
  exists kept,
    validateResponse Sample.errorRateResponse = Normal kept /\
    statisticsData kept "labels" = VArr [VStr "North"; VStr "South"] /\
    statisticsData kept "values" = VArr [VNum 3%float; VNum 1%float].
Proof.
  destruct (strictly_valid_pie_is_kept_as_is
              Sample.errorRateResponse Sample.errorRateResponse)
    as (kept & Hkept & _ & _ & Hlabels & Hvalues).
  - vm_compute. reflexivity.
  - reflexivity.
  - intros msg Heq. apply (f_equal (fun v => statisticsData v "labels")) in Heq.
    vm_compute in Heq. discriminate Heq.
  - intros nums Heq.
    change (VArr [VNum 3%float; VNum 1%float] = VArr (VNum <$> nums)) in Heq.
    destruct nums as [|a [|b [|c rest]]]; try discriminate Heq.
    injection Heq as <- <-. split; [discriminate | repeat constructor].
  - exists kept. split; [exact Hkept|]. split; [exact Hlabels | exact Hvalues].
Defined.

(** Acme against a pool whose queries fail: 400, not 500. *)
Lemma insert_failure_is_answered_400_witness :
  (Customers.postCustomer (Customers.Fulfilled Scenario.acme)
     Scenario.failingQueries []).1 =
  Customers.Fulfilled
    (Customers.Json (Customers.failure "Customer creation failed") 400).
Proof.
  destruct (insert_failure_is_answered_400 Scenario.failingQueries Scenario.acme []
              eq_refl) as (_ & Hquery & _).
  destruct (Hquery eq_refl) as (params & Hpost). exact Hpost.
Defined.

(** A name of a space and a no-break space. *)
Lemma nameless_customer_is_refused_before_the_pool_witness :
  Customers.postCustomer
    (Customers.Fulfilled (VObj {[ "name" := VStr (" " ++ Scenario.noBreakSpace) ]}))
    Scenario.failingQueries [] =
  (Customers.Fulfilled
     (Customers.Json (Customers.failure "Customer name is required") 400), []).
Proof.
  destruct (nameless_customer_is_refused_before_the_pool Scenario.failingQueries
              {[ "name" := VStr (" " ++ Scenario.noBreakSpace) ]} []) as [_ Hpost].
  - right. exists (" " ++ Scenario.noBreakSpace). split; reflexivity.
  - exact Hpost.
Defined.

(** ** Text outside ASCII *)

(** White space outside ASCII is trimmed: the no-break space, the byte
    order mark U+FEFF, the ideographic space U+3000. *)
Lemma unicode_white_space_is_trimmed :
  trim (Scenario.noBreakSpace ++ String (ascii_of_nat 239) (bytes2 187 191) ++
        "pie_chart" ++ String (ascii_of_nat 227) (bytes2 128 128) ++ " ") =
  "pie_chart".
Proof. reflexivity. Qed.

(** A classifier answer between no-break spaces names the waterfall
    chart. *)
Lemma padded_waterfall_is_recognised :
  chartTypeOf (Scenario.noBreakSpace ++ "Waterfall_Chart" ++ Scenario.noBreakSpace) =
  "waterfall_chart".
Proof. reflexivity. Qed.

(** The upper-case form of the long s is S, the one of the sharp s is SS and
    the one of the ligature U+FB06 is ST. *)
Lemma special_upper_case_forms :
  toUpperCase (bytes2 197 191 ++ "elect") = "SELECT" /\
  toUpperCase ("stra" ++ bytes2 195 159 ++ "e") = "STRASSE" /\
  toUpperCase (String (ascii_of_nat 239) (bytes2 172 134) ++ "art") = "START".
Proof. repeat split. Qed.

(** A query written with the long s passes the SELECT test and is sent to
    the database, trimmed. *)
Lemma long_s_query_reaches_database :
  run Scenario.longS (analyzeStatisticalQuestion "How many invoices?") [] =
  (Normal (createErrorResponse
             "Analysis failed: Database error: connection refused"),
   [ PoolQuery (bytes2 197 191 ++ "elect 1") [];
     ResponsesCreate (Request (SqlPrompt "How many invoices?") None) ]).
Proof. reflexivity. Qed.

(** A question that is a no-break space is refused by the request
    validator, and by the message endpoint before the session is looked
    up. *)
Lemma no_break_space_question_is_refused :
  Chat.requestValidator (VObj {[ "question" := VStr Scenario.noBreakSpace ]}) =
    Normal (inl (Chat.Json (Chat.failure "Question is required") 400)) /\
  Chat.postMessage (Sample.stub "pie_chart" "no shape here" Sample.oneRow)
    "k3x9" (VObj {[ "question" := VStr Scenario.noBreakSpace ]})
    5%float 6%float 7%float Scenario.oneSession [] =
  (Scenario.oneSession, Chat.Json (Chat.failure "Question is required") 400, []).
Proof. split; reflexivity. Qed.

(** The analysis endpoint on the body [null]. *)
Lemma null_body_is_answered_500 :
  Chat.analyze (Sample.stub "pie_chart" "no shape here" Sample.oneRow) VNull [] =
  (Chat.Text "Internal Server Error" 500, []).
Proof. reflexivity. Qed.
